(** * SceneManager: texture registry, material table, transform composer
      and shader-state staging

    A shallow embedding of [Source/SceneManager.cpp] and the properties of
    its resource and staging layer.

    Conventions of the embedding.
    - C++ [int] and [GLuint] values are integers of [Z]; the conversions
      between the two 32-bit types are written out ([to_GLuint], [to_int]).
    - [float] values are real numbers: rounding is not modelled.  The
      methods of the texture and material registries only copy such
      values; arithmetic on them happens in the transform composer alone.
    - The object's members and the calls it makes to its collaborators
      (the GL driver, the image decoder) live in one record, [World];
      every method is a computation of the monad [M], which threads the
      world and can stop in a [fault] where C++ leaves the behaviour
      undefined (a store past the end of [m_textureIDs], a call through a
      null [m_pShaderManager]).
    - Console output ([std::cout]) is not modelled. *)

From Stdlib Require Import ZArith Reals Lra String List.
From stdpp Require Import base option list strings gmap.

Local Open Scope Z_scope.

(** ** Machine integers *)

Definition GLuint := Z.

(** Conversion of an integer to [GLuint] (unsigned, 32 bits). *)
Definition to_GLuint (z : Z) : GLuint := z mod 2 ^ 32.

(** Conversion of a [GLuint] to [int] (signed, 32 bits, two's complement). *)
Definition to_int (u : Z) : Z := (u + 2 ^ 31) mod 2 ^ 32 - 2 ^ 31.

(** ** Vectors and matrices of glm

    A matrix is stored by columns, as in glm: [m4_0 m] is [m[0]]. *)

Abbreviation float := R.

Record vec2 := Vec2 { v2_x : float; v2_y : float }.
Record vec3 := Vec3 { v3_x : float; v3_y : float; v3_z : float }.
Record vec4 := Vec4 { v4_x : float; v4_y : float; v4_z : float; v4_w : float }.
Record mat3 := Mat3 { m3_0 : vec3; m3_1 : vec3; m3_2 : vec3 }.
Record mat4 := Mat4 { m4_0 : vec4; m4_1 : vec4; m4_2 : vec4; m4_3 : vec4 }.

(** ** Records of SceneManager.h *)

(** Modelled from the spec: [TEXTURE_INFO] is declared in SceneManager.h,
    which is absent; the spec gives a slot as a tag and a GPU texture id.
    The id is passed to [glGenTextures] by address in [DestroyGLTextures],
    hence a [GLuint]. *)
Record TEXTURE_INFO := TextureInfo { tex_tag : string; tex_ID : GLuint }.

(** Modelled from the spec: [OBJECT_MATERIAL] is declared in
    SceneManager.h, which is absent; these are the four fields the spec
    lists and the source assigns. *)
Record OBJECT_MATERIAL := ObjectMaterial {
  diffuseColor : vec3;
  specularColor : vec3;
  shininess : float;
  mat_tag : string
}.

(** ** The shader-uniform interface *)

Inductive uniform :=
| IntValue (v : Z)
| BoolValue (v : bool)
| FloatValue (v : float)
| Vec2Value (v : vec2)
| Vec3Value (v : vec3)
| Vec4Value (v : vec4)
| Mat3Value (v : mat3)
| Mat4Value (v : mat4)
| Sampler2DValue (v : Z).

(** Modelled from the spec: [ShaderManager] (ShaderManager.h and .cpp are
    absent) is a named-property bag, keyed by string names, that accepts
    writes of matrices, vectors, scalars, booleans and integer sampler
    indices; a value stays until it is written again. *)
Module ShaderManager.
Abbreviation t := (gmap string uniform).

Definition setIntValue (name : string) (v : Z) (sh : t) : t :=
  <[name := IntValue v]> sh.
Definition setBoolValue (name : string) (v : bool) (sh : t) : t :=
  <[name := BoolValue v]> sh.
Definition setFloatValue (name : string) (v : float) (sh : t) : t :=
  <[name := FloatValue v]> sh.
Definition setVec2Value (name : string) (v : vec2) (sh : t) : t :=
  <[name := Vec2Value v]> sh.
Definition setVec3Value (name : string) (v : vec3) (sh : t) : t :=
  <[name := Vec3Value v]> sh.
Definition setVec4Value (name : string) (v : vec4) (sh : t) : t :=
  <[name := Vec4Value v]> sh.
Definition setMat3Value (name : string) (v : mat3) (sh : t) : t :=
  <[name := Mat3Value v]> sh.
Definition setMat4Value (name : string) (v : mat4) (sh : t) : t :=
  <[name := Mat4Value v]> sh.
Definition setSampler2DValue (name : string) (v : Z) (sh : t) : t :=
  <[name := Sampler2DValue v]> sh.
End ShaderManager.

(** ** The collaborators: image decoder and GL driver *)

(** What [stbi_load] hands back for a file it could decode. *)
Record Image := MkImage {
  img_width : Z;
  img_height : Z;
  img_channels : Z;
  img_pixels : list Z
}.

Inductive GLenum :=
| GL_TEXTURE_2D
| GL_TEXTURE_WRAP_S | GL_TEXTURE_WRAP_T | GL_REPEAT
| GL_TEXTURE_MIN_FILTER | GL_TEXTURE_MAG_FILTER | GL_LINEAR
| GL_RGB8 | GL_RGB | GL_RGBA8 | GL_RGBA
| GL_UNSIGNED_BYTE.

(** The calls the scene manager makes, in program order.  [glGenTextures]
    carries the name the driver returned.  [glDeleteTextures] is the call
    that frees a texture name; no method of the scene manager makes it. *)
Inductive call :=
| stbi_set_flip_vertically_on_load (flag : bool)
| stbi_image_free (img : Image)
| glGenTextures (name : GLuint)
| glDeleteTextures (name : GLuint)
| glBindTexture (target : GLenum) (name : GLuint)
| glTexParameteri (target pname param : GLenum)
| glTexImage2D (target : GLenum) (level : Z) (internalformat : GLenum)
    (width height border : Z) (format type : GLenum) (img : Image)
| glGenerateMipmap (target : GLenum)
| glActiveTexture (unit : Z).   (* [unit] stands for GL_TEXTURE0 + unit *)

(** Texture names that were generated and not deleted since, oldest
    first. *)
Fixpoint live_textures_from (live : list GLuint) (cs : list call) : list GLuint :=
  match cs with
  | [] => live
  | glGenTextures n :: cs' => live_textures_from (live ++ [n]) cs'
  | glDeleteTextures n :: cs' =>
      live_textures_from (filter (λ m, m ≠ n) live) cs'
  | _ :: cs' => live_textures_from live cs'
  end.

Definition live_textures (cs : list call) : list GLuint :=
  live_textures_from [] cs.

(** A texture name is freed by a trace when it was generated in it and is
    no longer live at its end. *)
Definition freed (n : GLuint) (cs : list call) : Prop :=
  glGenTextures n ∈ cs ∧ n ∉ live_textures cs.

(** ** The world and the monad of methods *)

Record World := MkWorld {
  (* members of SceneManager; m_basicMeshes, the meshes to draw, is left
     out: no method below reads it *)
  m_pShaderManager : option ShaderManager.t;   (* [None] is NULL *)
  m_textureIDs : list TEXTURE_INFO;             (* TEXTURE_INFO [16] *)
  m_loadedTextures : Z;
  m_objectMaterials : list OBJECT_MATERIAL;
  (* calls made so far, oldest first *)
  calls : list call
}.

Inductive fault :=
| OutOfBounds (index : Z)   (* m_textureIDs[index] outside the array *)
| NullPointer               (* call through a null m_pShaderManager *)
| OutOfFuel.                (* a loop of the model ran out of steps *)

Inductive result (A : Type) :=
| Done (a : A) (w : World)
| Fault (f : fault).
Arguments Done {A} a w.
Arguments Fault {A} f.

Definition M (A : Type) : Type := World → result A.

Definition ret {A} (a : A) : M A := λ w, Done a w.

Definition bind {A B} (m : M A) (k : A → M B) : M B :=
  λ w, match m w with
       | Done a w' => k a w'
       | Fault f => Fault f
       end.

Definition fail {A} (f : fault) : M A := λ _, Fault f.

Definition gets {A} (f : World → A) : M A := λ w, Done (f w) w.

Definition modify (f : World → World) : M unit := λ w, Done tt (f w).

Global Instance M_ret : MRet M := @ret.
Global Instance M_bind : MBind M := λ A B k m, bind m k.

(** [while fuel cond body st]: the loop [while (cond) body] on the local
    variables [st].  [fuel] bounds the number of times the condition is
    tested; the methods below pass one more than the number of elements
    their loop can visit, which the loops never exhaust (lemmas
    [search_loop], [material_loop] and [DestroyGLTextures_loop]). *)
Fixpoint while {St} (fuel : nat) (cond : St → M bool) (body : St → M St)
    (st : St) : M St :=
  match fuel with
  | O => fail OutOfFuel
  | S fuel' =>
      c ← cond st;
      if c : bool then st' ← body st; while fuel' cond body st'
      else mret st
  end.

(** [for (int i = 0; i < m_loadedTextures; i++) body]: the bound is read
    again at every test, as the source does. *)
Definition for_loaded (body : Z → M unit) : M unit :=
  n ← gets m_loadedTextures;
  while (S (Z.to_nat n))
    (λ i, n ← gets m_loadedTextures; mret (i <? n))
    (λ i, body i;; mret (i + 1))
    0;;
  mret tt.

(** ** Access to the members *)

(** Appends a call to the trace. *)
Definition emit (c : call) : M unit :=
  modify (λ w, MkWorld (m_pShaderManager w) (m_textureIDs w)
                 (m_loadedTextures w) (m_objectMaterials w) (calls w ++ [c])).

Definition set_textureIDs (l : list TEXTURE_INFO) (w : World) : World :=
  MkWorld (m_pShaderManager w) l (m_loadedTextures w) (m_objectMaterials w)
    (calls w).

Definition set_loadedTextures (n : Z) (w : World) : World :=
  MkWorld (m_pShaderManager w) (m_textureIDs w) n (m_objectMaterials w)
    (calls w).

Definition set_objectMaterials (l : list OBJECT_MATERIAL) (w : World) : World :=
  MkWorld (m_pShaderManager w) (m_textureIDs w) (m_loadedTextures w) l
    (calls w).

Definition set_shader (sh : ShaderManager.t) (w : World) : World :=
  MkWorld (Some sh) (m_textureIDs w) (m_loadedTextures w)
    (m_objectMaterials w) (calls w).

(** [index] designates an element of an array of [len] elements. *)
Definition in_bounds (index : Z) (len : nat) : bool :=
  (0 <=? index) && (index <? Z.of_nat len).

(** [m_textureIDs[index]], read. *)
Definition texture_at (index : Z) : M TEXTURE_INFO :=
  l ← gets m_textureIDs;
  match l !! Z.to_nat index with
  | Some t => if in_bounds index (length l) then mret t
              else fail (OutOfBounds index)
  | None => fail (OutOfBounds index)
  end.

(** [m_textureIDs[index].ID = id]. *)
Definition store_texture_ID (index : Z) (id : GLuint) : M unit :=
  t ← texture_at index;
  modify (λ w, set_textureIDs
    (<[Z.to_nat index := TextureInfo (tex_tag t) id]> (m_textureIDs w)) w).

(** [m_textureIDs[index].tag = tag]. *)
Definition store_texture_tag (index : Z) (tag : string) : M unit :=
  t ← texture_at index;
  modify (λ w, set_textureIDs
    (<[Z.to_nat index := TextureInfo tag (tex_ID t)]> (m_textureIDs w)) w).

(** [m_objectMaterials[index]], read. *)
Definition material_at (index : Z) : M OBJECT_MATERIAL :=
  l ← gets m_objectMaterials;
  match l !! Z.to_nat index with
  | Some m => if in_bounds index (length l) then mret m
              else fail (OutOfBounds index)
  | None => fail (OutOfBounds index)
  end.

(** A call through [m_pShaderManager]. *)
Definition shader_call (f : ShaderManager.t → ShaderManager.t) : M unit :=
  p ← gets m_pShaderManager;
  match p with
  | Some sh => modify (set_shader (f sh))
  | None => fail NullPointer
  end.

(** ** Global names of scenemanager.cpp *)

Definition g_ModelName : string := "model".
Definition g_ColorValueName : string := "objectColor".
Definition g_TextureValueName : string := "objectTexture".
Definition g_UseTextureName : string := "bUseTexture".
Definition g_UseLightingName : string := "bUseLighting".

(** ** SceneManager::SceneManager *)

Definition SceneManager (pShaderManager : option ShaderManager.t) : World :=
  MkWorld pShaderManager
    (replicate 16 (TextureInfo "/0" (to_GLuint (-1))))
    0 [] [].

(** ** The texture registry *)

Section TextureRegistry.

(** The image decoder: what [stbi_load] returns for a file name, [None]
    for the null pointer. *)
Variable stbi_load : string → option Image.

(** The GL driver: the texture name [glGenTextures] hands out after the
    calls made so far. *)
Variable driver_name : list call → Z.

(** [glGenTextures(1, &id)]: returns the value stored in [id]. *)
Definition gen_texture : M GLuint :=
  cs ← gets calls;
  let name := to_GLuint (driver_name cs) in
  emit (glGenTextures name);;
  mret name.

Definition CreateGLTexture (filename : string) (tag : string) : M bool :=
  emit (stbi_set_flip_vertically_on_load true);;
  match stbi_load filename with
  | Some image =>
      let width := img_width image in
      let height := img_height image in
      let colorChannels := img_channels image in
      textureID ← gen_texture;
      emit (glBindTexture GL_TEXTURE_2D textureID);;
      emit (glTexParameteri GL_TEXTURE_2D GL_TEXTURE_WRAP_S GL_REPEAT);;
      emit (glTexParameteri GL_TEXTURE_2D GL_TEXTURE_WRAP_T GL_REPEAT);;
      emit (glTexParameteri GL_TEXTURE_2D GL_TEXTURE_MIN_FILTER GL_LINEAR);;
      emit (glTexParameteri GL_TEXTURE_2D GL_TEXTURE_MAG_FILTER GL_LINEAR);;
      let register : M bool :=
        emit (glGenerateMipmap GL_TEXTURE_2D);;
        emit (stbi_image_free image);;
        emit (glBindTexture GL_TEXTURE_2D 0);;
        n ← gets m_loadedTextures;
        store_texture_ID n textureID;;
        n ← gets m_loadedTextures;
        store_texture_tag n tag;;
        n ← gets m_loadedTextures;
        modify (set_loadedTextures (n + 1));;   (* m_loadedTextures++ *)
        mret true in
      if colorChannels =? 3 then
        emit (glTexImage2D GL_TEXTURE_2D 0 GL_RGB8 width height 0
                GL_RGB GL_UNSIGNED_BYTE image);;
        register
      else if colorChannels =? 4 then
        emit (glTexImage2D GL_TEXTURE_2D 0 GL_RGBA8 width height 0
                GL_RGBA GL_UNSIGNED_BYTE image);;
        register
      else
        mret false
  | None => mret false
  end.

Definition BindGLTextures : M unit :=
  for_loaded (λ i,
    emit (glActiveTexture i);;
    t ← texture_at i;
    emit (glBindTexture GL_TEXTURE_2D (tex_ID t))).

Definition DestroyGLTextures : M unit :=
  for_loaded (λ i,
    name ← gen_texture;
    store_texture_ID i name).

End TextureRegistry.

Definition FindTextureID (tag : string) : M Z :=
  n ← gets m_loadedTextures;
  '(textureID, index, bFound) ←
    while (S (Z.to_nat n))
      (λ '(textureID, index, bFound),
         n ← gets m_loadedTextures;
         mret ((index <? n) && bool_decide (bFound = false)))
      (λ '(textureID, index, bFound),
         t ← texture_at index;
         if String.eqb (tex_tag t) tag
         then mret (to_int (tex_ID t), index, true)
         else mret (textureID, index + 1, bFound))
      (-1, 0, false);
  mret textureID.

Definition FindTextureSlot (tag : string) : M Z :=
  n ← gets m_loadedTextures;
  '(textureSlot, index, bFound) ←
    while (S (Z.to_nat n))
      (λ '(textureSlot, index, bFound),
         n ← gets m_loadedTextures;
         mret ((index <? n) && bool_decide (bFound = false)))
      (λ '(textureSlot, index, bFound),
         t ← texture_at index;
         if String.eqb (tex_tag t) tag
         then mret (index, index, true)
         else mret (textureSlot, index + 1, bFound))
      (-1, 0, false);
  mret textureSlot.

(** ** The material table *)

(** [FindMaterial(tag, material)]: [material] is passed by reference; the
    computation returns the flag and the content of [material] at the
    end of the call. *)
Definition FindMaterial (tag : string) (material : OBJECT_MATERIAL)
    : M (bool * OBJECT_MATERIAL) :=
  size ← gets (λ w, Z.of_nat (length (m_objectMaterials w)));
  if size =? 0 then mret (false, material)
  else
    '(index, bFound, material) ←
      while (S (Z.to_nat size))
        (λ '(index, bFound, material),
           size ← gets (λ w, Z.of_nat (length (m_objectMaterials w)));
           mret ((index <? size) && bool_decide (bFound = false)))
        (λ '(index, bFound, material),
           m ← material_at index;
           if String.eqb (mat_tag m) tag
           then mret (index, true,
                      ObjectMaterial (diffuseColor m) (specularColor m)
                        (shininess m) (mat_tag material))
           else mret (index + 1, bFound, material))
        (0, false, material);
    mret (true, material).

(** [m_objectMaterials.push_back(material)]. *)
Definition push_back_material (material : OBJECT_MATERIAL) : M unit :=
  modify (λ w, set_objectMaterials (m_objectMaterials w ++ [material]) w).

(** ** glm

    The functions of glm that [SetTransformations] calls, on real
    numbers.  glm is a library the program includes, not part of it:
    these follow glm's own definitions (the general [translate], [rotate]
    and [scale] of its matrix transforms, which [glm/gtx/transform.hpp]
    applies to the identity matrix, and the cofactor formula of its 3x3
    [inverse]).  [radians] multiplies by pi/180. *)
Module glm.
Local Open Scope R_scope.

Definition radians (degrees : float) : float := degrees * (PI / 180).

(** [a + b] *)
Definition add4 (a b : vec4) : vec4 :=
  Vec4 (v4_x a + v4_x b) (v4_y a + v4_y b) (v4_z a + v4_z b)
       (v4_w a + v4_w b).

(** [a * k] *)
Definition scale4 (a : vec4) (k : float) : vec4 :=
  Vec4 (v4_x a * k) (v4_y a * k) (v4_z a * k) (v4_w a * k).

(** [a * k] *)
Definition scale3 (a : vec3) (k : float) : vec3 :=
  Vec3 (v3_x a * k) (v3_y a * k) (v3_z a * k).

(** [k * a] *)
Definition scale3_left (k : float) (a : vec3) : vec3 :=
  Vec3 (k * v3_x a) (k * v3_y a) (k * v3_z a).

Definition dot3 (a b : vec3) : float :=
  v3_x a * v3_x b + v3_y a * v3_y b + v3_z a * v3_z b.

Definition inversesqrt (x : float) : float := 1 / sqrt x.

Definition normalize (v : vec3) : vec3 := scale3 v (inversesqrt (dot3 v v)).

(** [mat4(1.0f)] *)
Definition identity4 : mat4 :=
  Mat4 (Vec4 1 0 0 0) (Vec4 0 1 0 0) (Vec4 0 0 1 0) (Vec4 0 0 0 1).

Definition identity3 : mat3 :=
  Mat3 (Vec3 1 0 0) (Vec3 0 1 0) (Vec3 0 0 1).

(** [m1 * m2] *)
Definition mul (m1 m2 : mat4) : mat4 :=
  let col (b : vec4) :=
    add4 (add4 (add4 (scale4 (m4_0 m1) (v4_x b)) (scale4 (m4_1 m1) (v4_y b)))
               (scale4 (m4_2 m1) (v4_z b)))
         (scale4 (m4_3 m1) (v4_w b)) in
  Mat4 (col (m4_0 m2)) (col (m4_1 m2)) (col (m4_2 m2)) (col (m4_3 m2)).

Definition translate_m (m : mat4) (v : vec3) : mat4 :=
  Mat4 (m4_0 m) (m4_1 m) (m4_2 m)
    (add4 (add4 (add4 (scale4 (m4_0 m) (v3_x v)) (scale4 (m4_1 m) (v3_y v)))
                (scale4 (m4_2 m) (v3_z v)))
          (m4_3 m)).

Definition rotate_m (m : mat4) (angle : float) (v : vec3) : mat4 :=
  let a := angle in
  let c := cos a in
  let s := sin a in
  let axis := normalize v in
  let temp := scale3_left (1 - c) axis in
  let r00 := c + v3_x temp * v3_x axis in
  let r01 := v3_x temp * v3_y axis + s * v3_z axis in
  let r02 := v3_x temp * v3_z axis - s * v3_y axis in
  let r10 := v3_y temp * v3_x axis - s * v3_z axis in
  let r11 := c + v3_y temp * v3_y axis in
  let r12 := v3_y temp * v3_z axis + s * v3_x axis in
  let r20 := v3_z temp * v3_x axis + s * v3_y axis in
  let r21 := v3_z temp * v3_y axis - s * v3_x axis in
  let r22 := c + v3_z temp * v3_z axis in
  Mat4
    (add4 (add4 (scale4 (m4_0 m) r00) (scale4 (m4_1 m) r01))
          (scale4 (m4_2 m) r02))
    (add4 (add4 (scale4 (m4_0 m) r10) (scale4 (m4_1 m) r11))
          (scale4 (m4_2 m) r12))
    (add4 (add4 (scale4 (m4_0 m) r20) (scale4 (m4_1 m) r21))
          (scale4 (m4_2 m) r22))
    (m4_3 m).

Definition scale_m (m : mat4) (v : vec3) : mat4 :=
  Mat4 (scale4 (m4_0 m) (v3_x v)) (scale4 (m4_1 m) (v3_y v))
       (scale4 (m4_2 m) (v3_z v)) (m4_3 m).

Definition translate (v : vec3) : mat4 := translate_m identity4 v.
Definition rotate (angle : float) (v : vec3) : mat4 :=
  rotate_m identity4 angle v.
Definition scale (v : vec3) : mat4 := scale_m identity4 v.

(** [mat3(m)]: the upper-left 3x3 block. *)
Definition to_mat3 (m : mat4) : mat3 :=
  let cut (c : vec4) := Vec3 (v4_x c) (v4_y c) (v4_z c) in
  Mat3 (cut (m4_0 m)) (cut (m4_1 m)) (cut (m4_2 m)).

Definition transpose (m : mat3) : mat3 :=
  Mat3 (Vec3 (v3_x (m3_0 m)) (v3_x (m3_1 m)) (v3_x (m3_2 m)))
       (Vec3 (v3_y (m3_0 m)) (v3_y (m3_1 m)) (v3_y (m3_2 m)))
       (Vec3 (v3_z (m3_0 m)) (v3_z (m3_1 m)) (v3_z (m3_2 m))).

Definition determinant (m : mat3) : float :=
  let '(Mat3 (Vec3 m00 m01 m02) (Vec3 m10 m11 m12) (Vec3 m20 m21 m22)) := m in
  m00 * (m11 * m22 - m21 * m12)
  - m10 * (m01 * m22 - m21 * m02)
  + m20 * (m01 * m12 - m11 * m02).

Definition inverse (m : mat3) : mat3 :=
  let OneOverDeterminant := 1 / determinant m in
  let '(Mat3 (Vec3 m00 m01 m02) (Vec3 m10 m11 m12) (Vec3 m20 m21 m22)) := m in
  Mat3
    (Vec3 ((m11 * m22 - m21 * m12) * OneOverDeterminant)
          (- (m01 * m22 - m21 * m02) * OneOverDeterminant)
          ((m01 * m12 - m11 * m02) * OneOverDeterminant))
    (Vec3 (- (m10 * m22 - m20 * m12) * OneOverDeterminant)
          ((m00 * m22 - m20 * m02) * OneOverDeterminant)
          (- (m00 * m12 - m10 * m02) * OneOverDeterminant))
    (Vec3 ((m10 * m21 - m20 * m11) * OneOverDeterminant)
          (- (m00 * m21 - m20 * m01) * OneOverDeterminant)
          ((m00 * m11 - m10 * m01) * OneOverDeterminant)).
End glm.

(** ** The transform composer and the shader-state stager *)

Definition SetTransformations (scaleXYZ : vec3)
    (XrotationDegrees YrotationDegrees ZrotationDegrees : float)
    (positionXYZ : vec3) : M unit :=
  let scale := glm.scale scaleXYZ in
  let rotationX := glm.rotate (glm.radians XrotationDegrees) (Vec3 1 0 0)%R in
  let rotationY := glm.rotate (glm.radians YrotationDegrees) (Vec3 0 1 0)%R in
  let rotationZ := glm.rotate (glm.radians ZrotationDegrees) (Vec3 0 0 1)%R in
  let translation := glm.translate positionXYZ in
  let modelView :=
    glm.mul (glm.mul (glm.mul (glm.mul translation rotationZ) rotationY)
               rotationX) scale in
  let normal := glm.transpose (glm.inverse (glm.to_mat3 modelView)) in
  p ← gets m_pShaderManager;
  if bool_decide (p ≠ None) then
    shader_call (ShaderManager.setMat4Value g_ModelName modelView);;
    shader_call (ShaderManager.setMat3Value "normal" normal)
  else mret tt.

Definition SetShaderColor
    (redColorValue greenColorValue blueColorValue alphaValue : float)
    : M unit :=
  let currentColor :=
    Vec4 redColorValue greenColorValue blueColorValue alphaValue in
  p ← gets m_pShaderManager;
  if bool_decide (p ≠ None) then
    shader_call (ShaderManager.setIntValue g_UseTextureName (Z.b2z false));;
    shader_call (ShaderManager.setVec4Value g_ColorValueName currentColor)
  else mret tt.

Definition SetShaderTexture (textureTag : string) : M unit :=
  p ← gets m_pShaderManager;
  if bool_decide (p ≠ None) then
    shader_call (ShaderManager.setIntValue g_UseTextureName (Z.b2z true));;
    textureID ← FindTextureSlot textureTag;
    shader_call (ShaderManager.setSampler2DValue g_TextureValueName textureID)
  else mret tt.

Definition SetTextureUVScale (u v : float) : M unit :=
  p ← gets m_pShaderManager;
  if bool_decide (p ≠ None) then
    shader_call (ShaderManager.setVec2Value "UVscale" (Vec2 u v))
  else mret tt.

(** [SetShaderMaterial(materialTag)].  The local [material] is declared
    without an initialiser: its tag is the empty string and its three
    other members hold whatever the stack held, which the caller of the
    model supplies as [stack]. *)
Definition SetShaderMaterial (materialTag : string) (stack : OBJECT_MATERIAL)
    : M unit :=
  size ← gets (λ w, Z.of_nat (length (m_objectMaterials w)));
  if 0 <? size then
    let material :=
      ObjectMaterial (diffuseColor stack) (specularColor stack)
        (shininess stack) "" in
    '(bReturn, material) ← FindMaterial materialTag material;
    if bool_decide (bReturn = true) then
      shader_call (ShaderManager.setVec3Value "material.diffuseColor"
                     (diffuseColor material));;
      shader_call (ShaderManager.setVec3Value "material.specularColor"
                     (specularColor material));;
      shader_call (ShaderManager.setFloatValue "material.shininess"
                     (shininess material))
    else mret tt
  else mret tt.

(** ** The scene's materials and textures *)

Definition DefineObjectMaterials : M unit :=
  let marbleMaterial :=
    (ObjectMaterial (Vec3 0.8 0.8 0.8) (Vec3 0.9 0.9 0.9) 50.0 "marble")%R in
  push_back_material marbleMaterial;;
  let paperMaterial :=
    (ObjectMaterial (Vec3 0.9 0.9 0.8) (Vec3 0.1 0.1 0.1) 10.0 "paper")%R in
  push_back_material paperMaterial;;
  let fabricMaterial :=
    (ObjectMaterial (Vec3 0.6 0.2 0.4) (Vec3 0.2 0.1 0.1) 5.0 "fabric")%R in
  push_back_material fabricMaterial;;
  let plasticMaterial :=
    (ObjectMaterial (Vec3 0.5 0.5 0.5) (Vec3 0.3 0.3 0.3) 30.0 "plastic")%R in
  push_back_material plasticMaterial;;
  let ceramicMaterial :=
    (ObjectMaterial (Vec3 0.9 0.9 0.9) (Vec3 0.8 0.8 0.8) 40.0 "ceramic")%R in
  push_back_material ceramicMaterial;;
  let screenMaterial :=
    (ObjectMaterial (Vec3 0.1 0.1 0.1) (Vec3 0.9 0.9 0.9) 50.0 "screen")%R in
  push_back_material screenMaterial;;
  let woodMaterial :=
    (ObjectMaterial (Vec3 0.3 0.2 0.1) (Vec3 0.1 0.1 0.1) 0.3 "wood")%R in
  push_back_material woodMaterial.

Definition LoadSceneTextures (stbi_load : string → option Image)
    (driver_name : list call → Z) : M unit :=
  let CreateGLTexture := CreateGLTexture stbi_load driver_name in
  bReturn ← CreateGLTexture "textures/topdesk.jpg" "desk";
  bReturn ← CreateGLTexture "textures/monitorfront.jpg" "monitorfront";
  bReturn ← CreateGLTexture "textures/wood.jpg" "wood";
  bReturn ← CreateGLTexture "textures/silver.jpg" "silver";
  bReturn ← CreateGLTexture "textures/magfront.jpg" "magfront";
  bReturn ← CreateGLTexture "textures/mousepad.jpg" "mousepad";
  bReturn ← CreateGLTexture "textures/magsides.jpg" "magsides";
  bReturn ← CreateGLTexture "textures/magcover.jpg" "magcover";
  bReturn ← CreateGLTexture "textures/keyboard.jpg" "keyboard";
  bReturn ← CreateGLTexture "textures/mousetop.jpg" "mousetop";
  bReturn ← CreateGLTexture "textures/vaseblue.jpg" "vaseblue";
  bReturn ← CreateGLTexture "textures/whitevase.jpg" "whitevase";
  BindGLTextures.


(** * Specification-level notions *)

(** ** Registry states *)

(** The array has its 16 elements and the count of loaded textures stays
    within it. *)
Definition wf (w : World) : Prop :=
  length (m_textureIDs w) = 16%nat ∧ 0 ≤ m_loadedTextures w ≤ 16.

(** The occupied slots, in insertion order: slot [i] is element [i]. *)
Definition slots (w : World) : list TEXTURE_INFO :=
  take (Z.to_nat (m_loadedTextures w)) (m_textureIDs w).

(** The first slot registered under [tag], with its index. *)
Definition first_slot (tag : string) (l : list TEXTURE_INFO)
    : option (nat * TEXTURE_INFO) :=
  list_find (λ t, tex_tag t = tag) l.

(** The first material registered under [tag], with its index. *)
Definition first_material (tag : string) (l : list OBJECT_MATERIAL)
    : option (nat * OBJECT_MATERIAL) :=
  list_find (λ m, mat_tag m = tag) l.

(** [material] after the three assignments of [FindMaterial] from the
    descriptor [d]. *)
Definition assign_material (d material : OBJECT_MATERIAL) : OBJECT_MATERIAL :=
  ObjectMaterial (diffuseColor d) (specularColor d) (shininess d)
    (mat_tag material).

(** The shader manager after the three material uniforms were staged from
    [m]. *)
Definition stage_material (m : OBJECT_MATERIAL) (sh : ShaderManager.t)
    : ShaderManager.t :=
  <["material.shininess" := FloatValue (shininess m)]>
    (<["material.specularColor" := Vec3Value (specularColor m)]>
       (<["material.diffuseColor" := Vec3Value (diffuseColor m)]> sh)).

(** The three staged material uniforms. *)
Definition staged_material (sh : ShaderManager.t)
    : option uniform * option uniform * option uniform :=
  (sh !! "material.diffuseColor", sh !! "material.specularColor",
   sh !! "material.shininess").

(** The calls of [CreateGLTexture] up to the test of the channel count,
    for a decoded image and the texture name [name]. *)
Definition calls_before_upload (name : GLuint) : list call :=
  [ stbi_set_flip_vertically_on_load true;
    glGenTextures name;
    glBindTexture GL_TEXTURE_2D name;
    glTexParameteri GL_TEXTURE_2D GL_TEXTURE_WRAP_S GL_REPEAT;
    glTexParameteri GL_TEXTURE_2D GL_TEXTURE_WRAP_T GL_REPEAT;
    glTexParameteri GL_TEXTURE_2D GL_TEXTURE_MIN_FILTER GL_LINEAR;
    glTexParameteri GL_TEXTURE_2D GL_TEXTURE_MAG_FILTER GL_LINEAR ].

(** The calls of a successful [CreateGLTexture]. *)
Definition calls_of_load (image : Image) (name : GLuint) : list call :=
  calls_before_upload name ++
  [ (if img_channels image =? 3
     then glTexImage2D GL_TEXTURE_2D 0 GL_RGB8 (img_width image)
            (img_height image) 0 GL_RGB GL_UNSIGNED_BYTE image
     else glTexImage2D GL_TEXTURE_2D 0 GL_RGBA8 (img_width image)
            (img_height image) 0 GL_RGBA GL_UNSIGNED_BYTE image);
    glGenerateMipmap GL_TEXTURE_2D;
    stbi_image_free image;
    glBindTexture GL_TEXTURE_2D 0 ].

Definition add_calls (cs : list call) (w : World) : World :=
  MkWorld (m_pShaderManager w) (m_textureIDs w) (m_loadedTextures w)
    (m_objectMaterials w) (calls w ++ cs).

(** ** The transform composer of the specification

    Matrices as they are written on paper, by rows, and their product by
    the row-by-column rule. *)
Module Compose.
Local Open Scope R_scope.

Definition row := (float * float * float * float)%type.

Definition of_rows (r0 r1 r2 r3 : row) : mat4 :=
  let '(a00, a01, a02, a03) := r0 in
  let '(a10, a11, a12, a13) := r1 in
  let '(a20, a21, a22, a23) := r2 in
  let '(a30, a31, a32, a33) := r3 in
  Mat4 (Vec4 a00 a10 a20 a30) (Vec4 a01 a11 a21 a31)
       (Vec4 a02 a12 a22 a32) (Vec4 a03 a13 a23 a33).

Definition coord (v : vec4) (i : nat) : float :=
  match i with
  | 0%nat => v4_x v | 1%nat => v4_y v | 2%nat => v4_z v | _ => v4_w v
  end.

Definition column (m : mat4) (j : nat) : vec4 :=
  match j with
  | 0%nat => m4_0 m | 1%nat => m4_1 m | 2%nat => m4_2 m | _ => m4_3 m
  end.

(** The entry of row [i] and column [j]. *)
Definition entry (m : mat4) (i j : nat) : float := coord (column m j) i.

Definition product (a b : mat4) : mat4 :=
  let e (i j : nat) :=
    entry a i 0 * entry b 0 j + entry a i 1 * entry b 1 j
    + entry a i 2 * entry b 2 j + entry a i 3 * entry b 3 j in
  of_rows (e 0 0, e 0 1, e 0 2, e 0 3)%nat (e 1 0, e 1 1, e 1 2, e 1 3)%nat
          (e 2 0, e 2 1, e 2 2, e 2 3)%nat (e 3 0, e 3 1, e 3 2, e 3 3)%nat.


Definition Translate (p : vec3) : mat4 :=
  of_rows (1, 0, 0, v3_x p) (0, 1, 0, v3_y p) (0, 0, 1, v3_z p) (0, 0, 0, 1).

Definition Scale (s : vec3) : mat4 :=
  of_rows (v3_x s, 0, 0, 0) (0, v3_y s, 0, 0) (0, 0, v3_z s, 0) (0, 0, 0, 1).

Definition RotateX (a : float) : mat4 :=
  of_rows (1, 0, 0, 0) (0, cos a, - sin a, 0) (0, sin a, cos a, 0)
          (0, 0, 0, 1).

Definition RotateY (a : float) : mat4 :=
  of_rows (cos a, 0, sin a, 0) (0, 1, 0, 0) (- sin a, 0, cos a, 0)
          (0, 0, 0, 1).

Definition RotateZ (a : float) : mat4 :=
  of_rows (cos a, - sin a, 0, 0) (sin a, cos a, 0, 0) (0, 0, 1, 0)
          (0, 0, 0, 1).

Definition to_radians (degrees : float) : float := degrees * PI / 180.

(** The model matrix of the specification. *)
Definition model (scale : vec3) (rotX rotY rotZ : float) (position : vec3)
    : mat4 :=
  product
    (product
       (product (product (Translate position) (RotateZ (to_radians rotZ)))
          (RotateY (to_radians rotY)))
       (RotateX (to_radians rotX)))
    (Scale scale).

(** The upper-left 3x3 block, by rows. *)
Definition upperLeft3x3 (m : mat4) : mat3 :=
  Mat3 (Vec3 (entry m 0 0) (entry m 1 0) (entry m 2 0))
       (Vec3 (entry m 0 1) (entry m 1 1) (entry m 2 1))
       (Vec3 (entry m 0 2) (entry m 1 2) (entry m 2 2)).








End Compose.

(** ** The loops of the lookups, by name

    The tests and bodies of the [while] loops of [FindTextureID],
    [FindTextureSlot] and [FindMaterial], and what the loops compute. *)

Definition search_cond : Z * Z * bool → M bool :=
  λ '(r, index, bFound),
    n ← gets m_loadedTextures;
    mret ((index <? n) && bool_decide (bFound = false)).

Definition search_body (pick : Z → TEXTURE_INFO → Z) (tag : string)
    : Z * Z * bool → M (Z * Z * bool) :=
  λ '(r, index, bFound),
    t ← texture_at index;
    if String.eqb (tex_tag t) tag
    then mret (pick index t, index, true)
    else mret (r, index + 1, bFound).

(** [pick] at the first slot of [l] registered under [tag], whose index
    counts from [index]; [r] when there is none. *)
Definition search_result (pick : Z → TEXTURE_INFO → Z) (tag : string)
    (l : list TEXTURE_INFO) (index r : Z) : Z :=
  match first_slot tag l with
  | Some (j, t) => pick (index + Z.of_nat j) t
  | None => r
  end.

Definition mat_cond : Z * bool * OBJECT_MATERIAL → M bool :=
  λ '(index, bFound, material),
    size ← gets (λ w, Z.of_nat (length (m_objectMaterials w)));
    mret ((index <? size) && bool_decide (bFound = false)).

Definition mat_body (tag : string)
    : Z * bool * OBJECT_MATERIAL → M (Z * bool * OBJECT_MATERIAL) :=
  λ '(index, bFound, material),
    m ← material_at index;
    if String.eqb (mat_tag m) tag
    then mret (index, true,
               ObjectMaterial (diffuseColor m) (specularColor m)
                 (shininess m) (mat_tag material))
    else mret (index + 1, bFound, material).

(** [material] after a lookup of [tag] in [l]. *)
Definition lookup_result (tag : string) (l : list OBJECT_MATERIAL)
    (material : OBJECT_MATERIAL) : OBJECT_MATERIAL :=
  match first_material tag l with
  | Some (_, d) => assign_material d material
  | None => material
  end.

(** The name the driver hands out to the next [CreateGLTexture]. *)
Definition next_name (driver_name : list call → Z) (w : World) : GLuint :=
  to_GLuint (driver_name (calls w ++ [stbi_set_flip_vertically_on_load true])).

(** The world after a successful [CreateGLTexture] of [image] under
    [tag]. *)
Definition loaded (driver_name : list call → Z) (image : Image)
    (tag : string) (w : World) : World :=
  MkWorld (m_pShaderManager w)
    (<[Z.to_nat (m_loadedTextures w) :=
         TextureInfo tag (next_name driver_name w)]> (m_textureIDs w))
    (m_loadedTextures w + 1) (m_objectMaterials w)
    (calls w ++ calls_of_load image (next_name driver_name w)).

(** What [DestroyGLTextures] may change: the ids of the array and the
    trace, which grows by [glGenTextures] calls only. *)
Definition regenerated (w w' : World) : Prop :=
  m_pShaderManager w' = m_pShaderManager w
  ∧ m_loadedTextures w' = m_loadedTextures w
  ∧ tex_tag <$> m_textureIDs w' = tex_tag <$> m_textureIDs w
  ∧ m_objectMaterials w' = m_objectMaterials w
  ∧ ∃ names : list GLuint, calls w' = calls w ++ (glGenTextures <$> names).

(** ** Sample collaborators and worlds *)

Definition rgb_image : Image := MkImage 2 1 3 [200; 150; 100; 90; 60; 30].
Definition rgba_image : Image := MkImage 1 1 4 [200; 150; 100; 255].
Definition grey_image : Image := MkImage 1 1 1 [128].

(** A decoder: a grey-scale file, a file with transparency, RGB files in
    [textures/], and nothing elsewhere. *)
Definition sample_stbi_load (filename : string) : option Image :=
  if String.eqb filename "textures/grey.png" then Some grey_image
  else if String.eqb filename "textures/glass.png" then Some rgba_image
  else if String.prefix "textures/" filename then Some rgb_image
  else None.

(** A driver that numbers texture names from 1. *)
Definition counting_driver (cs : list call) : Z :=
  Z.of_nat (length (live_textures cs)) + 1.

(** A driver that numbers texture names downwards from the largest
    [GLuint]. *)
Definition descending_driver (cs : list call) : Z :=
  4294967295 - Z.of_nat (length (live_textures cs)).

(** The world a computation ends in. *)
Definition world_after {A} (m : M A) (w : World) : World :=
  match m w with
  | Done _ w' => w'
  | Fault _ => w
  end.

Definition empty_world : World := SceneManager (Some ∅).

(** One texture loaded. *)
Definition desk_world : World :=
  world_after
    (CreateGLTexture sample_stbi_load counting_driver
       "textures/topdesk.jpg" "desk")
    empty_world.

(** One texture loaded, whose name is the largest [GLuint]. *)
Definition top_name_world : World :=
  world_after
    (CreateGLTexture sample_stbi_load descending_driver
       "textures/topdesk.jpg" "desk")
    empty_world.

Fixpoint load_each (tags : list string) : M bool :=
  match tags with
  | [] => mret true
  | tag :: tags' =>
      ok ← CreateGLTexture sample_stbi_load counting_driver
             "textures/wood.jpg" tag;
      if ok : bool then load_each tags' else mret false
  end.

Definition sixteen_tags : list string :=
  [ "t0"; "t1"; "t2"; "t3"; "t4"; "t5"; "t6"; "t7";
    "t8"; "t9"; "t10"; "t11"; "t12"; "t13"; "t14"; "t15" ].

(** All 16 slots occupied. *)
Definition full_world : World := world_after (load_each sixteen_tags) empty_world.

(** The scene's seven materials registered. *)
Definition scene_world : World := world_after DefineObjectMaterials empty_world.

Definition marble : OBJECT_MATERIAL :=
  (ObjectMaterial (Vec3 0.8 0.8 0.8) (Vec3 0.9 0.9 0.9) 50.0 "marble")%R.

Definition zero_material : OBJECT_MATERIAL :=
  (ObjectMaterial (Vec3 0 0 0) (Vec3 0 0 0) 0 "")%R.

Definition oak : OBJECT_MATERIAL :=
  (ObjectMaterial (Vec3 0.3 0.2 0.1) (Vec3 0.1 0.1 0.1) 0.3 "wood")%R.

Definition pine : OBJECT_MATERIAL :=
  (ObjectMaterial (Vec3 0.7 0.6 0.4) (Vec3 0.2 0.2 0.2) 8 "wood")%R.

(** "wood" registered twice, with different values. *)
Definition two_woods_world : World :=
  world_after (push_back_material oak;; push_back_material pine) empty_world.



(** * The rest of the scene manager *)

(** ** The lights *)

(** [m_pShaderManager] is used without a test of the pointer. *)
Definition SetupSceneLights : M unit :=
  shader_call (ShaderManager.setBoolValue g_UseLightingName true);;
  shader_call (ShaderManager.setVec3Value "directionalLight.direction"
                 (glm.normalize (Vec3 0.0 (-1.0) 0.0)%R));;
  shader_call (ShaderManager.setVec3Value "directionalLight.ambient"
                 (Vec3 0.2 0.2 0.2)%R);;
  shader_call (ShaderManager.setVec3Value "directionalLight.diffuse"
                 (Vec3 0.8 0.8 0.8)%R);;
  shader_call (ShaderManager.setVec3Value "directionalLight.specular"
                 (Vec3 0.5 0.5 0.5)%R);;
  shader_call (ShaderManager.setBoolValue "directionalLight.bActive" true);;
  shader_call (ShaderManager.setVec3Value "pointLights[0].position"
                 (Vec3 0.0 8.0 4.0)%R);;
  shader_call (ShaderManager.setVec3Value "pointLights[0].ambient"
                 (Vec3 0.1 0.1 0.1)%R);;
  shader_call (ShaderManager.setVec3Value "pointLights[0].diffuse"
                 (Vec3 0.8 0.8 0.9)%R);;
  shader_call (ShaderManager.setVec3Value "pointLights[0].specular"
                 (Vec3 0.8 0.8 0.9)%R);;
  shader_call (ShaderManager.setFloatValue "pointLights[0].constant" 1.0%R);;
  shader_call (ShaderManager.setFloatValue "pointLights[0].linear" 0.09%R);;
  shader_call (ShaderManager.setFloatValue "pointLights[0].quadratic" 0.032%R);;
  shader_call (ShaderManager.setBoolValue "pointLights[0].bActive" true);;
  shader_call (ShaderManager.setVec3Value "pointLights[1].position"
                 (Vec3 4.0 6.0 (-4.0))%R);;
  shader_call (ShaderManager.setVec3Value "pointLights[1].ambient"
                 (Vec3 0.05 0.05 0.1)%R);;
  shader_call (ShaderManager.setVec3Value "pointLights[1].diffuse"
                 (Vec3 0.4 0.4 0.8)%R);;
  shader_call (ShaderManager.setVec3Value "pointLights[1].specular"
                 (Vec3 0.4 0.4 0.8)%R);;
  shader_call (ShaderManager.setFloatValue "pointLights[1].constant" 1.0%R);;
  shader_call (ShaderManager.setFloatValue "pointLights[1].linear" 0.09%R);;
  shader_call (ShaderManager.setFloatValue "pointLights[1].quadratic" 0.032%R);;
  shader_call (ShaderManager.setBoolValue "pointLights[1].bActive" true).

(** ** The meshes *)

(** Modelled from the spec: [ShapeMeshes] (ShapeMeshes.h and .cpp are
    absent) generates and draws the primitive meshes; a draw reads the
    uniform values staged at that moment.  A call through [m_basicMeshes]
    is recorded with the world it is made in. *)
Inductive ShapeMeshes_call :=
| LoadPlaneMesh | LoadBoxMesh | LoadCylinderMesh | LoadPrismMesh
| LoadSphereMesh
| DrawPlaneMesh | DrawBoxMesh | DrawCylinderMesh | DrawPrismMesh
| DrawHalfSphereMesh
| delete_ShapeMeshes.

Definition mesh_log : Type := list (ShapeMeshes_call * World).

(** The methods that use the meshes thread the record of the calls
    made through [m_basicMeshes] on top of [M]. *)
Definition MS (A : Type) : Type := mesh_log → M (A * mesh_log).

Global Instance MS_ret : MRet MS := λ A a log, mret (a, log).
Global Instance MS_bind : MBind MS :=
  λ A B k m log, '(a, log') ← m log; k a log'.

(** A method of [M] called from a method of [MS]. *)
Definition lift {A} (m : M A) : MS A := λ log, a ← m; mret (a, log).

(** [m_basicMeshes->c()]. *)
Definition mesh_call (c : ShapeMeshes_call) : MS unit :=
  λ log, w ← gets (λ w, w); mret (tt, log ++ [(c, w)]).

(** ** SceneManager::~SceneManager *)

Definition set_pShaderManager (p : option ShaderManager.t) (w : World) : World :=
  MkWorld p (m_textureIDs w) (m_loadedTextures w) (m_objectMaterials w)
    (calls w).

Definition SceneManager_destructor (driver_name : list call → Z) : MS unit :=
  lift (modify (set_pShaderManager None));;
  mesh_call delete_ShapeMeshes;;
  lift (DestroyGLTextures driver_name).

(** ** PrepareScene and RenderScene *)

Definition PrepareScene (stbi_load : string → option Image)
    (driver_name : list call → Z) : MS unit :=
  lift DefineObjectMaterials;;
  lift SetupSceneLights;;
  lift (LoadSceneTextures stbi_load driver_name);;
  mesh_call LoadPlaneMesh;;
  mesh_call LoadBoxMesh;;
  mesh_call LoadCylinderMesh;;
  mesh_call LoadPrismMesh;;
  mesh_call LoadSphereMesh.

Section Render.
Local Open Scope R_scope.

(** [stack k] is what the uninitialised local of the [k]-th call of
    [SetShaderMaterial] holds. *)
Variable stack : nat → OBJECT_MATERIAL.

Definition RenderScene : MS unit :=
  let XrotationDegrees := 0.0 in
  let YrotationDegrees := 0.0 in
  let ZrotationDegrees := 0.0 in
  let scaleXYZ := Vec3 20.0 1.0 10.0 in
  let XrotationDegrees := 0.0 in
  let YrotationDegrees := 0.0 in
  let ZrotationDegrees := 0.0 in
  let positionXYZ := Vec3 0.0 0.0 0.0 in
  lift (SetTransformations scaleXYZ XrotationDegrees YrotationDegrees
          ZrotationDegrees positionXYZ);;
  lift (SetShaderColor 1 1 1 1);;
  lift (SetShaderMaterial "marble" (stack 0%nat));;
  lift (SetShaderTexture "desk");;
  mesh_call DrawPlaneMesh;;
  let XrotationDegrees2 := 0.0 in
  let YrotationDegrees2 := 0.0 in
  let ZrotationDegrees2 := 0.0 in
  let scaleXYZ2 := Vec3 8.0 0.5 4.0 in
  let XrotationDegrees2 := 0.0 in
  let YrotationDegrees2 := 0.0 in
  let ZrotationDegrees2 := 0.0 in
  let positionXYZ2 := Vec3 0.0 0.25 6.0 in
  lift (SetTransformations scaleXYZ2 XrotationDegrees2 YrotationDegrees2
          ZrotationDegrees2 positionXYZ2);;
  lift (SetShaderColor 0.8 0.8 0.78 1.0);;
  lift (SetShaderMaterial "plastic" (stack 1%nat));;
  mesh_call DrawBoxMesh;;
  let XrotationDegrees3 := 0.0 in
  let YrotationDegrees3 := 0.0 in
  let ZrotationDegrees3 := 0.0 in
  let scaleXYZ3 := Vec3 3.0 0.25 3.0 in
  let XrotationDegrees3 := 0.0 in
  let YrotationDegrees3 := 0.0 in
  let ZrotationDegrees3 := 0.0 in
  let positionXYZ3 := Vec3 9.0 0.0 6.0 in
  lift (SetTransformations scaleXYZ3 XrotationDegrees3 YrotationDegrees3
          ZrotationDegrees3 positionXYZ3);;
  lift (SetShaderColor 0.91 0.67 0.75 1.0);;
  lift (SetShaderTexture "mousepad");;
  lift (SetShaderMaterial "fabric" (stack 2%nat));;
  mesh_call DrawCylinderMesh;;
  let XrotationDegrees20 := 0.0 in
  let YrotationDegrees20 := 0.0 in
  let ZrotationDegrees20 := 0.0 in
  let scaleXYZ20 := Vec3 5.0 0.25 5.0 in
  let XrotationDegrees20 := 8.0 in
  let YrotationDegrees20 := 0.0 in
  let ZrotationDegrees20 := 0.0 in
  let positionXYZ20 := Vec3 (-7.0) 0.25 (-3.0) in
  lift (SetTransformations scaleXYZ20 XrotationDegrees20 YrotationDegrees20
          ZrotationDegrees20 positionXYZ20);;
  lift (SetShaderColor 0.91 0.67 0.75 1.0);;
  lift (SetShaderTexture "silver");;
  lift (SetShaderMaterial "plastic" (stack 3%nat));;
  mesh_call DrawBoxMesh;;
  let XrotationDegrees21 := 0.0 in
  let YrotationDegrees21 := 0.0 in
  let ZrotationDegrees21 := 0.0 in
  let scaleXYZ21 := Vec3 0.5 5.0 0.5 in
  let XrotationDegrees21 := 0.0 in
  let YrotationDegrees21 := 0.0 in
  let ZrotationDegrees21 := 90.0 in
  let positionXYZ21 := Vec3 (-4.5) 0.15 (-5.2) in
  lift (SetTransformations scaleXYZ21 XrotationDegrees21 YrotationDegrees21
          ZrotationDegrees21 positionXYZ21);;
  lift (SetShaderColor 0.85 0.62 0.70 1.0);;
  lift (SetShaderTexture "silver");;
  lift (SetShaderMaterial "plastic" (stack 4%nat));;
  mesh_call DrawCylinderMesh;;
  let XrotationDegrees4 := 0.0 in
  let YrotationDegrees4 := 0.0 in
  let ZrotationDegrees4 := 0.0 in
  let scaleXYZ4 := Vec3 5.0 0.5 4.0 in
  let XrotationDegrees4 := 0.0 in
  let YrotationDegrees4 := 0.0 in
  let ZrotationDegrees4 := 0.0 in
  let positionXYZ4 := Vec3 0.0 0.25 (-6.0) in
  lift (SetTransformations scaleXYZ4 XrotationDegrees4 YrotationDegrees4
          ZrotationDegrees4 positionXYZ4);;
  lift (SetShaderColor 0.88 0.88 0.88 1.0);;
  lift (SetShaderTexture "silver");;
  lift (SetShaderMaterial "plastic" (stack 5%nat));;
  mesh_call DrawBoxMesh;;
  let XrotationDegrees5 := 0.0 in
  let YrotationDegrees5 := 0.0 in
  let ZrotationDegrees5 := 0.0 in
  let scaleXYZ5 := Vec3 4.0 0.5 5.0 in
  let XrotationDegrees5 := (-45.0) in
  let YrotationDegrees5 := 0.0 in
  let ZrotationDegrees5 := 0.0 in
  let positionXYZ5 := Vec3 0.0 2.35 (-5.75) in
  lift (SetTransformations scaleXYZ5 XrotationDegrees5 YrotationDegrees5
          ZrotationDegrees5 positionXYZ5);;
  lift (SetShaderColor 0.08 0.08 0.88 1.0);;
  lift (SetShaderTexture "silver");;
  lift (SetShaderMaterial "plastic" (stack 6%nat));;
  mesh_call DrawBoxMesh;;
  let XrotationDegrees6 := 0.0 in
  let YrotationDegrees6 := 0.0 in
  let ZrotationDegrees6 := 0.0 in
  let scaleXYZ6 := Vec3 0.5 4.0 0.25 in
  let XrotationDegrees6 := (-90.0) in
  let YrotationDegrees6 := 90.0 in
  let ZrotationDegrees6 := 0.0 in
  let positionXYZ6 := Vec3 0.0 0.63 (-7.75) in
  lift (SetTransformations scaleXYZ6 XrotationDegrees6 YrotationDegrees6
          ZrotationDegrees6 positionXYZ6);;
  lift (SetShaderColor 0.88 0.08 0.08 1.0);;
  lift (SetShaderTexture "silver");;
  lift (SetShaderMaterial "plastic" (stack 7%nat));;
  mesh_call DrawPrismMesh;;
  let XrotationDegrees7 := 0.0 in
  let YrotationDegrees7 := 0.0 in
  let ZrotationDegrees7 := 0.0 in
  let scaleXYZ7 := Vec3 20.0 0.01 10.0 in
  let XrotationDegrees7 := 90.0 in
  let YrotationDegrees7 := 0.0 in
  let ZrotationDegrees7 := 0.0 in
  let positionXYZ7 := Vec3 0.0 8.0 (-2.99) in
  lift (SetTransformations scaleXYZ7 XrotationDegrees7 YrotationDegrees7
          ZrotationDegrees7 positionXYZ7);;
  lift (SetShaderColor 1 1 1 1);;
  lift (SetShaderTexture "monitorfront");;
  lift (SetShaderMaterial "screen" (stack 8%nat));;
  mesh_call DrawBoxMesh;;
  let XrotationDegrees14 := 0.0 in
  let YrotationDegrees14 := 0.0 in
  let ZrotationDegrees14 := 0.0 in
  let scaleXYZ14 := Vec3 20.1 1.0 10.1 in
  let XrotationDegrees14 := 90.0 in
  let YrotationDegrees14 := 0.0 in
  let ZrotationDegrees14 := 0.0 in
  let positionXYZ14 := Vec3 0.0 8.0 (-3.5) in
  lift (SetTransformations scaleXYZ14 XrotationDegrees14 YrotationDegrees14
          ZrotationDegrees14 positionXYZ14);;
  lift (SetShaderColor 1 1 1 1);;
  lift (SetShaderTexture "silver");;
  lift (SetShaderMaterial "plastic" (stack 9%nat));;
  mesh_call DrawBoxMesh;;
  let XrotationDegrees8 := 0.0 in
  let YrotationDegrees8 := 0.0 in
  let ZrotationDegrees8 := 0.0 in
  let scaleXYZ8 := Vec3 2.0 2.0 2.0 in
  let XrotationDegrees8 := 0.0 in
  let YrotationDegrees8 := 0.0 in
  let ZrotationDegrees8 := 180.0 in
  let positionXYZ8 := Vec3 (-15.0) 1.0 (-6.0) in
  lift (SetTransformations scaleXYZ8 XrotationDegrees8 YrotationDegrees8
          ZrotationDegrees8 positionXYZ8);;
  lift (SetShaderColor 0.39 0.39 0.45 1.0);;
  lift (SetShaderTexture "whitevase");;
  lift (SetShaderMaterial "ceramic" (stack 10%nat));;
  mesh_call DrawHalfSphereMesh;;
  let XrotationDegrees9 := 0.0 in
  let YrotationDegrees9 := 0.0 in
  let ZrotationDegrees9 := 0.0 in
  let scaleXYZ9 := Vec3 2.0 4.76 2.0 in
  let XrotationDegrees9 := 0.0 in
  let YrotationDegrees9 := 0.0 in
  let ZrotationDegrees9 := 0.0 in
  let positionXYZ9 := Vec3 (-15.0) 1.0 (-6.0) in
  lift (SetTransformations scaleXYZ9 XrotationDegrees9 YrotationDegrees9
          ZrotationDegrees9 positionXYZ9);;
  lift (SetShaderColor 0.88 0.88 0.88 1.0);;
  lift (SetShaderTexture "whitevase");;
  lift (SetShaderMaterial "ceramic" (stack 11%nat));;
  mesh_call DrawCylinderMesh;;
  let XrotationDegrees10 := 0.0 in
  let YrotationDegrees10 := 0.0 in
  let ZrotationDegrees10 := 0.0 in
  let scaleXYZ10 := Vec3 2.05 1.0 2.05 in
  let XrotationDegrees10 := 0.0 in
  let YrotationDegrees10 := 0.0 in
  let ZrotationDegrees10 := 0.0 in
  let positionXYZ10 := Vec3 (-15.0) 1.0 (-6.0) in
  lift (SetTransformations scaleXYZ10 XrotationDegrees10 YrotationDegrees10
          ZrotationDegrees10 positionXYZ10);;
  lift (SetShaderColor 0.0 0.0 0.5 1.0);;
  lift (SetShaderTexture "vaseblue");;
  lift (SetShaderMaterial "ceramic" (stack 12%nat));;
  mesh_call DrawCylinderMesh;;
  let XrotationDegrees11 := 0.0 in
  let YrotationDegrees11 := 0.0 in
  let ZrotationDegrees11 := 0.0 in
  let scaleXYZ11 := Vec3 2.05 1.0 2.05 in
  let XrotationDegrees11 := 0.0 in
  let YrotationDegrees11 := 0.0 in
  let ZrotationDegrees11 := 0.0 in
  let positionXYZ11 := Vec3 (-15.0) 2.25 (-6.0) in
  lift (SetTransformations scaleXYZ11 XrotationDegrees11 YrotationDegrees11
          ZrotationDegrees11 positionXYZ11);;
  lift (SetShaderColor 0.0 0.0 0.5 1.0);;
  lift (SetShaderTexture "ceramic");;
  mesh_call DrawCylinderMesh;;
  let XrotationDegrees12 := 0.0 in
  let YrotationDegrees12 := 0.0 in
  let ZrotationDegrees12 := 0.0 in
  let scaleXYZ12 := Vec3 2.05 1.0 2.05 in
  let XrotationDegrees12 := 0.0 in
  let YrotationDegrees12 := 0.0 in
  let ZrotationDegrees12 := 0.0 in
  let positionXYZ12 := Vec3 (-15.0) 3.50 (-6.0) in
  lift (SetTransformations scaleXYZ12 XrotationDegrees12 YrotationDegrees12
          ZrotationDegrees12 positionXYZ12);;
  lift (SetShaderColor 0.0 0.0 0.5 1.0);;
  lift (SetShaderTexture "ceramic");;
  mesh_call DrawCylinderMesh;;
  let XrotationDegrees13 := 0.0 in
  let YrotationDegrees13 := 0.0 in
  let ZrotationDegrees13 := 0.0 in
  let scaleXYZ13 := Vec3 2.05 1.0 2.05 in
  let XrotationDegrees13 := 0.0 in
  let YrotationDegrees13 := 0.0 in
  let ZrotationDegrees13 := 0.0 in
  let positionXYZ13 := Vec3 (-15.0) 4.75 (-6.0) in
  lift (SetTransformations scaleXYZ13 XrotationDegrees13 YrotationDegrees13
          ZrotationDegrees13 positionXYZ13);;
  lift (SetShaderColor 0.0 0.0 0.5 1.0);;
  lift (SetShaderTexture "ceramic");;
  mesh_call DrawCylinderMesh;;
  let XrotationDegrees15 := 0.0 in
  let YrotationDegrees15 := 0.0 in
  let ZrotationDegrees15 := 0.0 in
  let scaleXYZ15 := Vec3 9.0 2.50 6.0 in
  let XrotationDegrees15 := 0.0 in
  let YrotationDegrees15 := 0.0 in
  let ZrotationDegrees15 := 0.0 in
  let positionXYZ15 := Vec3 13.0 1.5 (-5.5) in
  lift (SetTransformations scaleXYZ15 XrotationDegrees15 YrotationDegrees15
          ZrotationDegrees15 positionXYZ15);;
  lift (SetShaderColor 0.5 0.5 0.5 1.0);;
  lift (SetShaderTexture "magsides");;
  lift (SetShaderMaterial "paper" (stack 13%nat));;
  mesh_call DrawBoxMesh;;
  let XrotationDegrees16 := 0.0 in
  let YrotationDegrees16 := 0.0 in
  let ZrotationDegrees16 := 0.0 in
  let scaleXYZ16 := Vec3 9.0 2.50 0.01 in
  let XrotationDegrees16 := 0.0 in
  let YrotationDegrees16 := 0.0 in
  let ZrotationDegrees16 := 0.0 in
  let positionXYZ16 := Vec3 13.0 1.5 (-2.49) in
  lift (SetTransformations scaleXYZ16 XrotationDegrees16 YrotationDegrees16
          ZrotationDegrees16 positionXYZ16);;
  lift (SetShaderColor 1 1 1 1);;
  lift (SetShaderTexture "magfront");;
  lift (SetShaderMaterial "paper" (stack 14%nat));;
  mesh_call DrawBoxMesh;;
  let XrotationDegrees17 := 0.0 in
  let YrotationDegrees17 := 0.0 in
  let ZrotationDegrees17 := 0.0 in
  let scaleXYZ17 := Vec3 9.0 0.01 6.0 in
  let XrotationDegrees17 := 0.0 in
  let YrotationDegrees17 := 0.0 in
  let ZrotationDegrees17 := 0.0 in
  let positionXYZ17 := Vec3 13.0 2.76 (-5.5) in
  lift (SetTransformations scaleXYZ17 XrotationDegrees17 YrotationDegrees17
          ZrotationDegrees17 positionXYZ17);;
  lift (SetShaderColor 0.5 0.5 0.5 1.0);;
  lift (SetShaderTexture "magcover");;
  lift (SetShaderMaterial "paper" (stack 15%nat));;
  mesh_call DrawBoxMesh;;
  let XrotationDegrees18 := 0.0 in
  let YrotationDegrees18 := 0.0 in
  let ZrotationDegrees18 := 0.0 in
  let scaleXYZ18 := Vec3 8.0 0.01 4.0 in
  let XrotationDegrees18 := 0.0 in
  let YrotationDegrees18 := 0.0 in
  let ZrotationDegrees18 := 0.0 in
  let positionXYZ18 := Vec3 0.0 0.51 6.0 in
  lift (SetTransformations scaleXYZ18 XrotationDegrees18 YrotationDegrees18
          ZrotationDegrees18 positionXYZ18);;
  lift (SetShaderColor 0.5 0.5 0.5 1.0);;
  lift (SetShaderTexture "keyboard");;
  lift (SetShaderMaterial "plastic" (stack 16%nat));;
  mesh_call DrawBoxMesh;;
  let XrotationDegrees19 := 0.0 in
  let YrotationDegrees19 := 0.0 in
  let ZrotationDegrees19 := 0.0 in
  let scaleXYZ19 := Vec3 1.0 0.15 1.25 in
  let XrotationDegrees19 := 0.0 in
  let YrotationDegrees19 := 0.0 in
  let ZrotationDegrees19 := 0.0 in
  let positionXYZ19 := Vec3 10.0 0.25 6.75 in
  lift (SetTransformations scaleXYZ19 XrotationDegrees19 YrotationDegrees19
          ZrotationDegrees19 positionXYZ19);;
  lift (SetShaderColor 0.8 0.8 0.8 1.0);;
  lift (SetShaderTexture "mousetop");;
  lift (SetShaderMaterial "plastic" (stack 17%nat));;
  mesh_call DrawCylinderMesh.

End Render.

(** ** Specification-level notions for the scene *)

(** The calls of [BindGLTextures] for the slots [l], the first of which is
    slot [i]. *)
Fixpoint bind_calls (i : Z) (l : list TEXTURE_INFO) : list call :=
  match l with
  | [] => []
  | t :: l' =>
      glActiveTexture i :: glBindTexture GL_TEXTURE_2D (tex_ID t)
      :: bind_calls (i + 1) l'
  end.

(** The slot [t] with its id replaced. *)
Definition with_ID (t : TEXTURE_INFO) (id : GLuint) : TEXTURE_INFO :=
  TextureInfo (tex_tag t) id.

(** The slot [FindTextureSlot] returns for [tag]. *)
Definition slot_of (tag : string) (w : World) : Z :=
  search_result (λ i _, i) tag (slots w) 0 (-1).

(** The uniforms the staging methods write before a draw. *)
Definition per_object_keys : list string :=
  [ g_ModelName; "normal"; g_ColorValueName; g_UseTextureName;
    g_TextureValueName; "UVscale"; "material.diffuseColor";
    "material.specularColor"; "material.shininess" ].

(** What the staging methods do to the uniforms when a shader manager is
    attached. *)
Definition stage_transform (s : vec3) (rx ry rz : float) (p : vec3)
    (sh : ShaderManager.t) : ShaderManager.t :=
  <["normal" :=
      Mat3Value
        (glm.transpose
           (glm.inverse (Compose.upperLeft3x3 (Compose.model s rx ry rz p))))]>
    (<[g_ModelName := Mat4Value (Compose.model s rx ry rz p)]> sh).

Definition stage_color (c : vec4) (sh : ShaderManager.t) : ShaderManager.t :=
  <[g_ColorValueName := Vec4Value c]> (<[g_UseTextureName := IntValue 0]> sh).

Definition stage_texture (slot : Z) (sh : ShaderManager.t) : ShaderManager.t :=
  <[g_TextureValueName := Sampler2DValue slot]>
    (<[g_UseTextureName := IntValue 1]> sh).

Definition stage_uvscale (u v : float) (sh : ShaderManager.t)
    : ShaderManager.t :=
  <["UVscale" := Vec2Value (Vec2 u v)]> sh.

(** The material [SetShaderMaterial] stages for [tag] from a table that
    is not empty, [stack] being the content of its local. *)
Definition material_for (tag : string) (stack : OBJECT_MATERIAL) (w : World)
    : OBJECT_MATERIAL :=
  lookup_result tag (m_objectMaterials w)
    (ObjectMaterial (diffuseColor stack) (specularColor stack)
       (shininess stack) "").

(** A call of one of the five staging methods, and a sequence of them. *)
Inductive staging_call :=
| CallTransformations (scaleXYZ : vec3) (rx ry rz : float) (positionXYZ : vec3)
| CallColor (r g b a : float)
| CallTexture (tag : string)
| CallUVScale (u v : float)
| CallMaterial (tag : string) (stack : OBJECT_MATERIAL).

Definition run_staging (c : staging_call) : M unit :=
  match c with
  | CallTransformations s rx ry rz p => SetTransformations s rx ry rz p
  | CallColor r g b a => SetShaderColor r g b a
  | CallTexture tag => SetShaderTexture tag
  | CallUVScale u v => SetTextureUVScale u v
  | CallMaterial tag stack => SetShaderMaterial tag stack
  end.

Fixpoint run_stagings (cs : list staging_call) : M unit :=
  match cs with
  | [] => mret tt
  | c :: cs' => run_staging c;; run_stagings cs'
  end.

(** What a staging call does to the uniforms of an attached shader
    manager, in the world [w]. *)
Definition stage_call (w : World) (c : staging_call) (sh : ShaderManager.t)
    : ShaderManager.t :=
  match c with
  | CallTransformations s rx ry rz p => stage_transform s rx ry rz p sh
  | CallColor r g b a => stage_color (Vec4 r g b a) sh
  | CallTexture tag => stage_texture (slot_of tag w) sh
  | CallUVScale u v => stage_uvscale u v sh
  | CallMaterial tag stack =>
      if decide (m_objectMaterials w = []) then sh
      else stage_material (material_for tag stack w) sh
  end.

(** One object of [RenderScene]: its transform, its color, the calls of
    [SetShaderMaterial] and [SetShaderTexture] in their order, its draw. *)
Record block := Block {
  b_scale : vec3;
  b_rx : float;
  b_ry : float;
  b_rz : float;
  b_position : vec3;
  b_color : vec4;
  b_ops : list staging_call;
  b_draw : ShapeMeshes_call
}.

(** The staging calls of an object. *)
Definition block_calls (b : block) : list staging_call :=
  CallTransformations (b_scale b) (b_rx b) (b_ry b) (b_rz b) (b_position b)
  :: CallColor (v4_x (b_color b)) (v4_y (b_color b)) (v4_z (b_color b))
       (v4_w (b_color b))
  :: b_ops b.

Fixpoint run_ops (ops : list staging_call) (k : MS unit) : MS unit :=
  match ops with
  | [] => k
  | op :: ops' => lift (run_staging op);; run_ops ops' k
  end.

Fixpoint render_blocks (bs : list block) : MS unit :=
  match bs with
  | [] => mret tt
  | b :: bs' =>
      run_ops (block_calls b)
        (match bs' with
         | [] => mesh_call (b_draw b)
         | _ :: _ => mesh_call (b_draw b);; render_blocks bs'
         end)
  end.

(** The objects of [RenderScene], in the order of the source. *)
Definition scene_blocks (stack : nat → OBJECT_MATERIAL) : list block :=
  (
  [
    Block (Vec3 20.0 1.0 10.0) 0.0 0.0 0.0 (Vec3 0.0 0.0 0.0)
      (Vec4 1 1 1 1)
      [CallMaterial "marble" (stack 0%nat); CallTexture "desk"]
      DrawPlaneMesh;
    Block (Vec3 8.0 0.5 4.0) 0.0 0.0 0.0 (Vec3 0.0 0.25 6.0)
      (Vec4 0.8 0.8 0.78 1.0)
      [CallMaterial "plastic" (stack 1%nat)]
      DrawBoxMesh;
    Block (Vec3 3.0 0.25 3.0) 0.0 0.0 0.0 (Vec3 9.0 0.0 6.0)
      (Vec4 0.91 0.67 0.75 1.0)
      [CallTexture "mousepad"; CallMaterial "fabric" (stack 2%nat)]
      DrawCylinderMesh;
    Block (Vec3 5.0 0.25 5.0) 8.0 0.0 0.0 (Vec3 (-7.0) 0.25 (-3.0))
      (Vec4 0.91 0.67 0.75 1.0)
      [CallTexture "silver"; CallMaterial "plastic" (stack 3%nat)]
      DrawBoxMesh;
    Block (Vec3 0.5 5.0 0.5) 0.0 0.0 90.0 (Vec3 (-4.5) 0.15 (-5.2))
      (Vec4 0.85 0.62 0.70 1.0)
      [CallTexture "silver"; CallMaterial "plastic" (stack 4%nat)]
      DrawCylinderMesh;
    Block (Vec3 5.0 0.5 4.0) 0.0 0.0 0.0 (Vec3 0.0 0.25 (-6.0))
      (Vec4 0.88 0.88 0.88 1.0)
      [CallTexture "silver"; CallMaterial "plastic" (stack 5%nat)]
      DrawBoxMesh;
    Block (Vec3 4.0 0.5 5.0) (-45.0) 0.0 0.0 (Vec3 0.0 2.35 (-5.75))
      (Vec4 0.08 0.08 0.88 1.0)
      [CallTexture "silver"; CallMaterial "plastic" (stack 6%nat)]
      DrawBoxMesh;
    Block (Vec3 0.5 4.0 0.25) (-90.0) 90.0 0.0 (Vec3 0.0 0.63 (-7.75))
      (Vec4 0.88 0.08 0.08 1.0)
      [CallTexture "silver"; CallMaterial "plastic" (stack 7%nat)]
      DrawPrismMesh;
    Block (Vec3 20.0 0.01 10.0) 90.0 0.0 0.0 (Vec3 0.0 8.0 (-2.99))
      (Vec4 1 1 1 1)
      [CallTexture "monitorfront"; CallMaterial "screen" (stack 8%nat)]
      DrawBoxMesh;
    Block (Vec3 20.1 1.0 10.1) 90.0 0.0 0.0 (Vec3 0.0 8.0 (-3.5))
      (Vec4 1 1 1 1)
      [CallTexture "silver"; CallMaterial "plastic" (stack 9%nat)]
      DrawBoxMesh;
    Block (Vec3 2.0 2.0 2.0) 0.0 0.0 180.0 (Vec3 (-15.0) 1.0 (-6.0))
      (Vec4 0.39 0.39 0.45 1.0)
      [CallTexture "whitevase"; CallMaterial "ceramic" (stack 10%nat)]
      DrawHalfSphereMesh;
    Block (Vec3 2.0 4.76 2.0) 0.0 0.0 0.0 (Vec3 (-15.0) 1.0 (-6.0))
      (Vec4 0.88 0.88 0.88 1.0)
      [CallTexture "whitevase"; CallMaterial "ceramic" (stack 11%nat)]
      DrawCylinderMesh;
    Block (Vec3 2.05 1.0 2.05) 0.0 0.0 0.0 (Vec3 (-15.0) 1.0 (-6.0))
      (Vec4 0.0 0.0 0.5 1.0)
      [CallTexture "vaseblue"; CallMaterial "ceramic" (stack 12%nat)]
      DrawCylinderMesh;
    Block (Vec3 2.05 1.0 2.05) 0.0 0.0 0.0 (Vec3 (-15.0) 2.25 (-6.0))
      (Vec4 0.0 0.0 0.5 1.0)
      [CallTexture "ceramic"]
      DrawCylinderMesh;
    Block (Vec3 2.05 1.0 2.05) 0.0 0.0 0.0 (Vec3 (-15.0) 3.50 (-6.0))
      (Vec4 0.0 0.0 0.5 1.0)
      [CallTexture "ceramic"]
      DrawCylinderMesh;
    Block (Vec3 2.05 1.0 2.05) 0.0 0.0 0.0 (Vec3 (-15.0) 4.75 (-6.0))
      (Vec4 0.0 0.0 0.5 1.0)
      [CallTexture "ceramic"]
      DrawCylinderMesh;
    Block (Vec3 9.0 2.50 6.0) 0.0 0.0 0.0 (Vec3 13.0 1.5 (-5.5))
      (Vec4 0.5 0.5 0.5 1.0)
      [CallTexture "magsides"; CallMaterial "paper" (stack 13%nat)]
      DrawBoxMesh;
    Block (Vec3 9.0 2.50 0.01) 0.0 0.0 0.0 (Vec3 13.0 1.5 (-2.49))
      (Vec4 1 1 1 1)
      [CallTexture "magfront"; CallMaterial "paper" (stack 14%nat)]
      DrawBoxMesh;
    Block (Vec3 9.0 0.01 6.0) 0.0 0.0 0.0 (Vec3 13.0 2.76 (-5.5))
      (Vec4 0.5 0.5 0.5 1.0)
      [CallTexture "magcover"; CallMaterial "paper" (stack 15%nat)]
      DrawBoxMesh;
    Block (Vec3 8.0 0.01 4.0) 0.0 0.0 0.0 (Vec3 0.0 0.51 6.0)
      (Vec4 0.5 0.5 0.5 1.0)
      [CallTexture "keyboard"; CallMaterial "plastic" (stack 16%nat)]
      DrawBoxMesh;
    Block (Vec3 1.0 0.15 1.25) 0.0 0.0 0.0 (Vec3 10.0 0.25 6.75)
      (Vec4 0.8 0.8 0.8 1.0)
      [CallTexture "mousetop"; CallMaterial "plastic" (stack 17%nat)]
      DrawCylinderMesh
  ])%R.

(** The uniforms an object is drawn with, from those staged before it. *)
Definition stage_block (w : World) (b : block) (sh : ShaderManager.t)
    : ShaderManager.t :=
  foldl (λ sh c, stage_call w c sh) sh (block_calls b).

(** The draws of a frame, each with the uniforms it reads, and the
    uniforms staged at its end. *)
Fixpoint frame (w : World) (bs : list block) (sh : ShaderManager.t)
    : list (ShapeMeshes_call * ShaderManager.t) * ShaderManager.t :=
  match bs with
  | [] => ([], sh)
  | b :: bs' =>
      let sh' := stage_block w b sh in
      let '(draws, final) := frame w bs' sh' in
      ((b_draw b, sh') :: draws, final)
  end.

(** The uniforms [SetupSceneLights] writes, in the order of the source. *)
Definition light_uniforms : list (string * uniform) :=
  [ (g_UseLightingName, BoolValue true);
    ("directionalLight.direction",
     Vec3Value (glm.normalize (Vec3 0.0 (-1.0) 0.0)));
    ("directionalLight.ambient", Vec3Value (Vec3 0.2 0.2 0.2));
    ("directionalLight.diffuse", Vec3Value (Vec3 0.8 0.8 0.8));
    ("directionalLight.specular", Vec3Value (Vec3 0.5 0.5 0.5));
    ("directionalLight.bActive", BoolValue true);
    ("pointLights[0].position", Vec3Value (Vec3 0.0 8.0 4.0));
    ("pointLights[0].ambient", Vec3Value (Vec3 0.1 0.1 0.1));
    ("pointLights[0].diffuse", Vec3Value (Vec3 0.8 0.8 0.9));
    ("pointLights[0].specular", Vec3Value (Vec3 0.8 0.8 0.9));
    ("pointLights[0].constant", FloatValue 1.0);
    ("pointLights[0].linear", FloatValue 0.09);
    ("pointLights[0].quadratic", FloatValue 0.032);
    ("pointLights[0].bActive", BoolValue true);
    ("pointLights[1].position", Vec3Value (Vec3 4.0 6.0 (-4.0)));
    ("pointLights[1].ambient", Vec3Value (Vec3 0.05 0.05 0.1));
    ("pointLights[1].diffuse", Vec3Value (Vec3 0.4 0.4 0.8));
    ("pointLights[1].specular", Vec3Value (Vec3 0.4 0.4 0.8));
    ("pointLights[1].constant", FloatValue 1.0);
    ("pointLights[1].linear", FloatValue 0.09);
    ("pointLights[1].quadratic", FloatValue 0.032);
    ("pointLights[1].bActive", BoolValue true) ]%R.

(** The uniforms after the writes [l], made in order. *)
Definition stage_all (l : list (string * uniform)) (sh : ShaderManager.t)
    : ShaderManager.t :=
  foldl (λ sh kv, <[kv.1 := kv.2]> sh) sh l.

(** The value the writes [l] leave under [k], if any writes it. *)
Fixpoint last_write (k : string) (l : list (string * uniform))
    : option uniform :=
  match l with
  | [] => None
  | (k', v) :: l' =>
      match last_write k l' with
      | Some v' => Some v'
      | None => if decide (k' = k) then Some v else None
      end
  end.

(** The writes of a staging call, in order. *)
Definition staging_writes (w : World) (c : staging_call)
    : list (string * uniform) :=
  match c with
  | CallTransformations s rx ry rz p =>
      [ (g_ModelName, Mat4Value (Compose.model s rx ry rz p));
        ("normal",
         Mat3Value
           (glm.transpose
              (glm.inverse
                 (Compose.upperLeft3x3 (Compose.model s rx ry rz p))))) ]
  | CallColor r g b a =>
      [ (g_UseTextureName, IntValue 0);
        (g_ColorValueName, Vec4Value (Vec4 r g b a)) ]
  | CallTexture tag =>
      [ (g_UseTextureName, IntValue 1);
        (g_TextureValueName, Sampler2DValue (slot_of tag w)) ]
  | CallUVScale u v => [ ("UVscale", Vec2Value (Vec2 u v)) ]
  | CallMaterial tag stack =>
      if decide (m_objectMaterials w = []) then []
      else
        [ ("material.diffuseColor",
           Vec3Value (diffuseColor (material_for tag stack w)));
          ("material.specularColor",
           Vec3Value (specularColor (material_for tag stack w)));
          ("material.shininess",
           FloatValue (shininess (material_for tag stack w))) ]
  end.

(** The seven materials of [DefineObjectMaterials]. *)
Definition scene_materials : list OBJECT_MATERIAL :=
  [ ObjectMaterial (Vec3 0.8 0.8 0.8) (Vec3 0.9 0.9 0.9) 50.0 "marble";
    ObjectMaterial (Vec3 0.9 0.9 0.8) (Vec3 0.1 0.1 0.1) 10.0 "paper";
    ObjectMaterial (Vec3 0.6 0.2 0.4) (Vec3 0.2 0.1 0.1) 5.0 "fabric";
    ObjectMaterial (Vec3 0.5 0.5 0.5) (Vec3 0.3 0.3 0.3) 30.0 "plastic";
    ObjectMaterial (Vec3 0.9 0.9 0.9) (Vec3 0.8 0.8 0.8) 40.0 "ceramic";
    ObjectMaterial (Vec3 0.1 0.1 0.1) (Vec3 0.9 0.9 0.9) 50.0 "screen";
    ObjectMaterial (Vec3 0.3 0.2 0.1) (Vec3 0.1 0.1 0.1) 0.3 "wood" ]%R.

(** The files [LoadSceneTextures] loads and their tags, in order. *)
Definition scene_textures : list (string * string) :=
  [ ("textures/topdesk.jpg", "desk");
    ("textures/monitorfront.jpg", "monitorfront");
    ("textures/wood.jpg", "wood");
    ("textures/silver.jpg", "silver");
    ("textures/magfront.jpg", "magfront");
    ("textures/mousepad.jpg", "mousepad");
    ("textures/magsides.jpg", "magsides");
    ("textures/magcover.jpg", "magcover");
    ("textures/keyboard.jpg", "keyboard");
    ("textures/mousetop.jpg", "mousetop");
    ("textures/vaseblue.jpg", "vaseblue");
    ("textures/whitevase.jpg", "whitevase") ].

(** The file decodes to an image of 3 or 4 channels. *)
Definition decodes (stbi_load : string → option Image) (filename : string)
    : bool :=
  match stbi_load filename with
  | Some image => bool_decide (img_channels image = 3 ∨ img_channels image = 4)
  | None => false
  end.

(** The loads of the files [l] one after the other, their results being
    dropped, and [k] after them. *)
Fixpoint load_then {A} (stbi_load : string → option Image)
    (driver_name : list call → Z) (l : list (string * string)) (k : M A)
    : M A :=
  match l with
  | [] => k
  | (filename, tag) :: l' =>
      bReturn ← CreateGLTexture stbi_load driver_name filename tag;
      load_then stbi_load driver_name l' k
  end.

(** The five mesh loads of [PrepareScene]. *)
Definition scene_mesh_loads : list ShapeMeshes_call :=
  [LoadPlaneMesh; LoadBoxMesh; LoadCylinderMesh; LoadPrismMesh;
   LoadSphereMesh].

(** ** Tactics *)

(** Runs the monad's operations. *)
Ltac munfold :=
  cbv beta iota zeta delta
    [mbind M_bind mret M_ret bind ret gets modify fail].

(** Runs [CreateGLTexture] down to the reads of the array. *)
Ltac load_unfold :=
  cbv beta iota zeta delta
    [CreateGLTexture gen_texture emit store_texture_ID store_texture_tag
     texture_at set_textureIDs set_loadedTextures
     mbind M_bind mret M_ret bind ret gets modify fail
     m_pShaderManager m_textureIDs m_loadedTextures m_objectMaterials calls].

(** Equality of two matrices built from the identity, entry by entry. *)
Ltac glm_entries :=
  unfold Compose.of_rows, glm.identity4, glm.add4, glm.scale4, glm.scale3,
    glm.scale3_left;
  cbn; f_equal; try (f_equal; ring).


(** * Properties *)

(** ** Running the monad *)

Lemma while_S {St} fuel (cond : St → M bool) (body : St → M St) st w :
  while (S fuel) cond body st w =
  match cond st w with
  | Done true w' =>
      match body st w' with
      | Done st' w'' => while fuel cond body st' w''
      | Fault f => Fault f
      end
  | Done false w' => Done st w'
  | Fault f => Fault f
  end.
Proof.
  cbn [while]. munfold. destruct (cond st w) as [[] w'|]; reflexivity.
Qed.

Lemma in_bounds_true index len :
  0 ≤ index < Z.of_nat len → in_bounds index len = true.
Proof.
  intros H. unfold in_bounds. apply andb_true_iff.
  split; [apply Z.leb_le | apply Z.ltb_lt]; lia.
Qed.

Lemma texture_at_Some w index t :
  0 ≤ index → m_textureIDs w !! Z.to_nat index = Some t →
  texture_at index w = Done t w.
Proof.
  intros Hi Hl. unfold texture_at. munfold. rewrite Hl.
  apply lookup_lt_Some in Hl.
  rewrite in_bounds_true by lia. reflexivity.
Qed.

Lemma texture_at_past_the_end w index :
  Z.of_nat (length (m_textureIDs w)) ≤ index →
  texture_at index w = Fault (OutOfBounds index).
Proof.
  intros Hi. unfold texture_at. munfold.
  rewrite (lookup_ge_None_2 _ (Z.to_nat index)) by lia. reflexivity.
Qed.

Lemma material_at_Some w index m :
  0 ≤ index → m_objectMaterials w !! Z.to_nat index = Some m →
  material_at index w = Done m w.
Proof.
  intros Hi Hl. unfold material_at. munfold. rewrite Hl.
  apply lookup_lt_Some in Hl.
  rewrite in_bounds_true by lia. reflexivity.
Qed.

(** ** The lookups of the texture registry *)

Lemma search_cond_run r index bFound w :
  search_cond (r, index, bFound) w
  = Done ((index <? m_loadedTextures w) && bool_decide (bFound = false)) w.
Proof. reflexivity. Qed.

Lemma search_body_run pick tag r index bFound t w :
  texture_at index w = Done t w →
  search_body pick tag (r, index, bFound) w
  = Done (if String.eqb (tex_tag t) tag then (pick index t, index, true)
          else (r, index + 1, bFound)) w.
Proof.
  intros Ht. unfold search_body. munfold. rewrite Ht.
  destruct (String.eqb _ _); reflexivity.
Qed.

(** The search loop ends, leaves the world as it was, and its result is
    that of the first matching slot from [index] on.  By induction on the
    number [k] of slots left to visit. *)
Lemma search_loop pick tag w (k : nat) :
  ∀ fuel index r,
    0 ≤ index →
    index + Z.of_nat k = m_loadedTextures w →
    m_loadedTextures w ≤ Z.of_nat (length (m_textureIDs w)) →
    (k < fuel)%nat →
    ∃ st, while fuel search_cond (search_body pick tag) (r, index, false) w
          = Done st w
        ∧ st.1.1 = search_result pick tag
                     (drop (Z.to_nat index) (slots w)) index r.
Proof.
  induction k as [|k IH]; intros fuel index r Hi Hk Hn Hf.
  - destruct fuel as [|fuel]; [lia|].
    rewrite while_S, search_cond_run.
    replace (index <? m_loadedTextures w) with false
      by (symmetry; apply Z.ltb_ge; lia).
    cbn [andb]. eexists; split; [reflexivity|]. cbn [fst].
    unfold search_result, first_slot, slots.
    rewrite drop_ge; [reflexivity|]. rewrite length_take. lia.
  - destruct fuel as [|fuel]; [lia|].
    rewrite while_S, search_cond_run.
    replace (index <? m_loadedTextures w) with true
      by (symmetry; apply Z.ltb_lt; lia).
    rewrite bool_decide_eq_true_2 by reflexivity. cbn [andb].
    destruct (lookup_lt_is_Some_2 (m_textureIDs w) (Z.to_nat index)) as [t Ht];
      [lia|].
    rewrite (search_body_run pick tag r index false t)
      by (apply texture_at_Some; done).
    assert (Hd : drop (Z.to_nat index) (slots w)
                 = t :: drop (Z.to_nat (index + 1)) (slots w)).
    { replace (Z.to_nat (index + 1)) with (S (Z.to_nat index)) by lia.
      apply drop_S. unfold slots. rewrite lookup_take_lt by lia. done. }
    unfold search_result, first_slot. rewrite Hd. cbn [list_find].
    destruct (String.eqb_spec (tex_tag t) tag) as [He|He].
    + rewrite decide_True by done.
      destruct fuel as [|fuel]; [lia|].
      rewrite while_S, search_cond_run.
      rewrite bool_decide_eq_false_2 by done. rewrite andb_false_r.
      eexists; split; [reflexivity|]. cbn. f_equal. lia.
    + rewrite decide_False by done.
      destruct (IH fuel (index + 1) r) as (st & Hst & Hr); try lia.
      exists st. split; [exact Hst|]. rewrite Hr.
      unfold search_result, first_slot.
      destruct (list_find _ _) as [[j t']|]; cbn; [f_equal; lia|done].
Qed.

Lemma FindTextureSlot_run tag w :
  0 ≤ m_loadedTextures w ≤ Z.of_nat (length (m_textureIDs w)) →
  FindTextureSlot tag w
  = Done (search_result (λ i _, i) tag (slots w) 0 (-1)) w.
Proof.
  intros Hn.
  destruct (search_loop (λ i _, i) tag w (Z.to_nat (m_loadedTextures w))
              (S (Z.to_nat (m_loadedTextures w))) 0 (-1))
    as (st & Hst & Hr); try lia.
  unfold FindTextureSlot. munfold.
  change (while _ _ _ _ w) with
    (while (S (Z.to_nat (m_loadedTextures w))) search_cond
       (search_body (λ i _, i) tag) (-1, 0, false) w).
  rewrite Hst. destruct st as [[x i] b]. cbn in Hr. rewrite Hr. reflexivity.
Qed.

Lemma FindTextureID_run tag w :
  0 ≤ m_loadedTextures w ≤ Z.of_nat (length (m_textureIDs w)) →
  FindTextureID tag w
  = Done (search_result (λ _ t, to_int (tex_ID t)) tag (slots w) 0 (-1)) w.
Proof.
  intros Hn.
  destruct (search_loop (λ _ t, to_int (tex_ID t)) tag w
              (Z.to_nat (m_loadedTextures w))
              (S (Z.to_nat (m_loadedTextures w))) 0 (-1))
    as (st & Hst & Hr); try lia.
  unfold FindTextureID. munfold.
  change (while _ _ _ _ w) with
    (while (S (Z.to_nat (m_loadedTextures w))) search_cond
       (search_body (λ _ t, to_int (tex_ID t)) tag) (-1, 0, false) w).
  rewrite Hst. destruct st as [[x i] b]. cbn in Hr. rewrite Hr. reflexivity.
Qed.

Lemma wf_bounds w :
  wf w → 0 ≤ m_loadedTextures w ≤ Z.of_nat (length (m_textureIDs w)).
Proof. intros [-> ?]. lia. Qed.

(** What the first matching slot is: an occupied slot with the tag, before
    which no slot has it. *)
Lemma first_slot_Some tag w j t :
  first_slot tag (slots w) = Some (j, t) →
  (Z.of_nat j < m_loadedTextures w)
  ∧ m_textureIDs w !! j = Some t
  ∧ tex_tag t = tag
  ∧ ∀ i u, (i < j)%nat → m_textureIDs w !! i = Some u → tex_tag u ≠ tag.
Proof.
  unfold first_slot, slots. intros H.
  apply list_find_Some in H as (Hl & Ht & Hfirst).
  apply lookup_take_Some in Hl as [Hl Hj].
  repeat split; [lia | done | done |].
  intros i u Hi Hu. apply (Hfirst i u); [|done].
  rewrite lookup_take_lt by lia. done.
Qed.

Lemma first_slot_None tag w :
  first_slot tag (slots w) = None →
  ∀ t, t ∈ slots w → tex_tag t ≠ tag.
Proof.
  unfold first_slot. intros H t Ht.
  apply list_find_None in H. rewrite Forall_forall in H. by apply H.
Qed.

(** ** Loading a texture *)

Section Loading.
Variable stbi_load : string → option Image.
Variable driver_name : list call → Z.

(** A decoded image of 3 or 4 channels and a free slot: the texture is
    registered in the next slot. *)
Lemma CreateGLTexture_loaded filename tag image w :
  stbi_load filename = Some image →
  img_channels image = 3 ∨ img_channels image = 4 →
  0 ≤ m_loadedTextures w < Z.of_nat (length (m_textureIDs w)) →
  CreateGLTexture stbi_load driver_name filename tag w
  = Done true (loaded driver_name image tag w).
Proof.
  intros Hload Hch Hn. destruct w as [sh l n ms cs]. cbn in Hn.
  unfold loaded, calls_of_load, calls_before_upload, next_name.
  load_unfold. rewrite Hload. load_unfold.
  destruct (lookup_lt_is_Some_2 l (Z.to_nat n)) as [t Ht]; [lia|].
  assert (Hstore : ∀ l' : list TEXTURE_INFO, length l' = length l →
            in_bounds n (length l') = true).
  { intros l' ->. apply in_bounds_true. lia. }
  destruct Hch as [-> | ->]; cbn [Z.eqb Pos.eqb]; load_unfold;
    rewrite Ht, Hstore by done; load_unfold;
    rewrite list_lookup_insert_eq by (apply lookup_lt_Some in Ht; lia);
    rewrite Hstore by apply length_insert; load_unfold;
    rewrite list_insert_insert_eq; cbn [tex_tag tex_ID];
    rewrite <- !app_assoc; reflexivity.
Qed.

(** A decoded image of 3 or 4 channels and no slot left: the store of the
    id goes past the end of the array. *)
Lemma CreateGLTexture_full filename tag image w :
  stbi_load filename = Some image →
  img_channels image = 3 ∨ img_channels image = 4 →
  Z.of_nat (length (m_textureIDs w)) ≤ m_loadedTextures w →
  CreateGLTexture stbi_load driver_name filename tag w
  = Fault (OutOfBounds (m_loadedTextures w)).
Proof.
  intros Hload Hch Hn. destruct w as [sh l n ms cs]. cbn in Hn.
  load_unfold. rewrite Hload. load_unfold.
  destruct Hch as [-> | ->]; cbn [Z.eqb Pos.eqb]; load_unfold;
    rewrite (lookup_ge_None_2 l (Z.to_nat n)) by lia; reflexivity.
Qed.

(** A decoded image of another channel count: the texture name is
    generated and bound, nothing is registered. *)
Lemma CreateGLTexture_unsupported filename tag image w :
  stbi_load filename = Some image →
  img_channels image ≠ 3 → img_channels image ≠ 4 →
  CreateGLTexture stbi_load driver_name filename tag w
  = Done false (add_calls (calls_before_upload (next_name driver_name w)) w).
Proof.
  intros Hload H3 H4. destruct w as [sh l n ms cs].
  unfold add_calls, calls_before_upload, next_name.
  load_unfold. rewrite Hload. load_unfold.
  apply Z.eqb_neq in H3, H4. rewrite H3, H4.
  rewrite <- !app_assoc. reflexivity.
Qed.

(** No image: nothing but the flip setting happens. *)
Lemma CreateGLTexture_not_decoded filename tag w :
  stbi_load filename = None →
  CreateGLTexture stbi_load driver_name filename tag w
  = Done false (add_calls [stbi_set_flip_vertically_on_load true] w).
Proof.
  intros Hload. destruct w as [sh l n ms cs].
  unfold add_calls. load_unfold. rewrite Hload. reflexivity.
Qed.

Lemma loaded_wf image tag w :
  wf w → m_loadedTextures w < 16 → wf (loaded driver_name image tag w).
Proof.
  intros [Hl Hn] Hlt. split; cbn.
  - rewrite length_insert. done.
  - lia.
Qed.

Lemma slots_loaded image tag w :
  0 ≤ m_loadedTextures w < Z.of_nat (length (m_textureIDs w)) →
  slots (loaded driver_name image tag w)
  = slots w ++ [TextureInfo tag (next_name driver_name w)].
Proof.
  intros Hn. unfold slots, loaded. cbn.
  replace (Z.to_nat (m_loadedTextures w + 1))
    with (S (Z.to_nat (m_loadedTextures w))) by lia.
  set (n := Z.to_nat (m_loadedTextures w)).
  assert (n < length (m_textureIDs w))%nat by lia.
  rewrite (take_S_r _ _ (TextureInfo tag (next_name driver_name w)))
    by (apply list_lookup_insert_eq; done).
  rewrite take_insert_ge by lia. reflexivity.
Qed.

End Loading.

(** ** The texture registry: capacity and loading *)

Lemma wf_empty_world : wf empty_world.
Proof. split; [reflexivity | cbn; lia]. Qed.

Lemma full_world_loaded :
  load_each sixteen_tags empty_world = Done true full_world.
Proof. vm_compute. reflexivity. Qed.

Lemma wf_full_world : wf full_world ∧ m_loadedTextures full_world = 16.
Proof. repeat split; vm_compute; congruence. Qed.

(** C1 (the code departs from the claim).  Sixteen loads succeed and
    occupy the 16 slots.  A 17th [CreateGLTexture] of a decodable
    3-channel image then does not return false with the registry
    unchanged: there is no test of the count, and the store
    [m_textureIDs[16].ID = textureID] goes past the end of the array. *)
Theorem CreateGLTexture_seventeenth_load_overruns :
  load_each sixteen_tags empty_world = Done true full_world
  ∧ wf full_world
  ∧ m_loadedTextures full_world = 16
  ∧ sample_stbi_load "textures/wood.jpg" = Some rgb_image
  ∧ CreateGLTexture sample_stbi_load counting_driver
      "textures/wood.jpg" "extra" full_world
    = Fault (OutOfBounds 16).
Proof.
  split; [exact full_world_loaded|].
  split; [apply wf_full_world|].
  split; [apply wf_full_world|].
  split; [reflexivity|].
  rewrite (CreateGLTexture_full _ _ _ _ rgb_image);
    [reflexivity | reflexivity | left; reflexivity | vm_compute; congruence].
Qed.

(** C4, as amended: from a registry with fewer than 16 occupied slots, the
    load of an image decoded with 3 or 4 channels returns true and
    occupies one more slot; [FindTextureSlot] on the tag then returns the
    index of an occupied slot that carries the tag, within [0,15] and no
    greater than the index of the new slot. *)
Theorem CreateGLTexture_then_FindTextureSlot
    (stbi_load : string → option Image) (driver_name : list call → Z)
    (filename tag : string) (image : Image) (w : World) :
  wf w →
  m_loadedTextures w < 16 →
  stbi_load filename = Some image →
  img_channels image = 3 ∨ img_channels image = 4 →
  ∃ w' slot,
    CreateGLTexture stbi_load driver_name filename tag w = Done true w'
    ∧ m_loadedTextures w' = m_loadedTextures w + 1
    ∧ FindTextureSlot tag w' = Done slot w'
    ∧ 0 ≤ slot ≤ 15
    ∧ slot ≤ m_loadedTextures w
    ∧ tex_tag <$> (m_textureIDs w' !! Z.to_nat slot) = Some tag.
Proof.
  intros Hwf Hlt Hload Hch.
  pose proof (wf_bounds w Hwf) as Hb. destruct Hwf as [Hlen Hn].
  exists (loaded driver_name image tag w).
  pose proof (loaded_wf driver_name image tag w (conj Hlen Hn) Hlt) as Hwf'.
  rewrite (CreateGLTexture_loaded _ _ _ _ image) by (done || lia).
  rewrite FindTextureSlot_run by (apply wf_bounds; done).
  unfold search_result.
  destruct (first_slot tag (slots (loaded driver_name image tag w)))
    as [[j t]|] eqn:Hfind.
  - exists (0 + Z.of_nat j).
    apply first_slot_Some in Hfind as (Hj & Ht & Htag & _).
    cbn [m_loadedTextures loaded] in Hj.
    repeat split; try (cbn; lia).
    rewrite Z.add_0_l, Nat2Z.id, Ht. cbn. by rewrite Htag.
  - exfalso.
    apply (first_slot_None _ _ Hfind
             (TextureInfo tag (next_name driver_name w))); [|done].
    rewrite slots_loaded by lia. apply elem_of_app. right. by left.
Qed.

Lemma CreateGLTexture_then_FindTextureSlot_witness :
  wf empty_world
  ∧ ∃ w' slot,
      CreateGLTexture sample_stbi_load counting_driver
        "textures/topdesk.jpg" "desk" empty_world = Done true w'
      ∧ m_loadedTextures w' = m_loadedTextures empty_world + 1
      ∧ FindTextureSlot "desk" w' = Done slot w'
      ∧ 0 ≤ slot ≤ 15
      ∧ slot ≤ m_loadedTextures empty_world
      ∧ tex_tag <$> (m_textureIDs w' !! Z.to_nat slot) = Some "desk".
Proof.
  split; [split; [reflexivity | cbn; lia]|].
  apply (CreateGLTexture_then_FindTextureSlot sample_stbi_load
           counting_driver "textures/topdesk.jpg" "desk" rgb_image
           empty_world).
  - split; [reflexivity | cbn; lia].
  - cbn. lia.
  - reflexivity.
  - left. reflexivity.
Defined.

(** C4 as stated fails when the 16 slots are occupied: the load of a
    3-channel image does not return at all, let alone true. *)
Lemma CreateGLTexture_full_registry_fails :
  wf full_world
  ∧ sample_stbi_load "textures/wood.jpg" = Some rgb_image
  ∧ img_channels rgb_image = 3
  ∧ ¬ ∃ w' slot,
        CreateGLTexture sample_stbi_load counting_driver
          "textures/wood.jpg" "extra" full_world = Done true w'
        ∧ FindTextureSlot "extra" w' = Done slot w'
        ∧ 0 ≤ slot ≤ 15.
Proof.
  split; [apply wf_full_world|].
  split; [reflexivity|]. split; [reflexivity|].
  intros (w' & slot & Hrun & _).
  rewrite (CreateGLTexture_full _ _ _ _ rgb_image) in Hrun;
    [discriminate | reflexivity | left; reflexivity | vm_compute; congruence].
Qed.

(** C5: when the decoder yields an image whose channel count is neither 3
    nor 4, [CreateGLTexture] returns false, and the count of loaded
    textures and the array of slots are what they were. *)
Theorem CreateGLTexture_unsupported_channels
    (stbi_load : string → option Image) (driver_name : list call → Z)
    (filename tag : string) (image : Image) (w : World) :
  stbi_load filename = Some image →
  img_channels image ≠ 3 →
  img_channels image ≠ 4 →
  ∃ w',
    CreateGLTexture stbi_load driver_name filename tag w = Done false w'
    ∧ m_loadedTextures w' = m_loadedTextures w
    ∧ m_textureIDs w' = m_textureIDs w
    ∧ slots w' = slots w.
Proof.
  intros Hload H3 H4. eexists.
  split; [apply (CreateGLTexture_unsupported _ _ _ _ image); done|].
  repeat split.
Qed.

Lemma CreateGLTexture_unsupported_channels_witness :
  sample_stbi_load "textures/grey.png" = Some grey_image
  ∧ ∃ w',
      CreateGLTexture sample_stbi_load counting_driver
        "textures/grey.png" "grey" desk_world = Done false w'
      ∧ m_loadedTextures w' = m_loadedTextures desk_world
      ∧ m_textureIDs w' = m_textureIDs desk_world
      ∧ slots w' = slots desk_world.
Proof.
  split; [reflexivity|].
  apply (CreateGLTexture_unsupported_channels sample_stbi_load
           counting_driver "textures/grey.png" "grey" grey_image desk_world).
  - reflexivity.
  - cbn. lia.
  - cbn. lia.
Defined.

(** ** The two lookups of the texture registry *)

Lemma to_int_small u : 0 ≤ u < 2 ^ 31 → to_int u = u.
Proof.
  intros H. unfold to_int.
  change (2 ^ 31) with 2147483648 in *. change (2 ^ 32) with 4294967296.
  rewrite Z.mod_small by lia. lia.
Qed.

Lemma to_int_not_sentinel u : 0 ≤ u < 2 ^ 32 - 1 → to_int u ≠ -1.
Proof.
  intros H. unfold to_int.
  change (2 ^ 31) with 2147483648. change (2 ^ 32) with 4294967296 in *.
  destruct (Z_lt_le_dec u 2147483648).
  - rewrite Z.mod_small by lia. lia.
  - replace (u + 2147483648) with (u - 2147483648 + 1 * 4294967296) by lia.
    rewrite Z.mod_add by lia. rewrite Z.mod_small by lia. lia.
Qed.

(** C9, as amended: on every registry state both lookups return and
    leave the state as it is; [FindTextureSlot] returning -1 makes
    [FindTextureID] return -1; when [FindTextureSlot] returns a slot, it is
    the first occupied slot that carries the tag and [FindTextureID]
    returns the id stored there converted from [GLuint] to [int], which is
    the id itself when it is below 2^31.  The two return -1 together
    provided no occupied slot stores the id 4294967295. *)
Theorem FindTextureID_FindTextureSlot_consistent (tag : string) (w : World) :
  wf w →
  ∃ id slot,
    FindTextureID tag w = Done id w
    ∧ FindTextureSlot tag w = Done slot w
    ∧ (slot = -1 → id = -1)
    ∧ (slot ≠ -1 →
       0 ≤ slot < m_loadedTextures w
       ∧ ∃ t,
           m_textureIDs w !! Z.to_nat slot = Some t
           ∧ tex_tag t = tag
           ∧ id = to_int (tex_ID t)
           ∧ (0 ≤ tex_ID t < 2 ^ 31 → id = tex_ID t)
           ∧ ∀ i u, (i < Z.to_nat slot)%nat →
                    m_textureIDs w !! i = Some u → tex_tag u ≠ tag)
    ∧ ((∀ t, t ∈ slots w → 0 ≤ tex_ID t < 2 ^ 32 - 1) →
       (id = -1 ↔ slot = -1)).
Proof.
  intros Hwf. pose proof (wf_bounds w Hwf) as Hb.
  rewrite FindTextureID_run, FindTextureSlot_run by done.
  unfold search_result.
  destruct (first_slot tag (slots w)) as [[j t]|] eqn:Hfind.
  - exists (to_int (tex_ID t)), (0 + Z.of_nat j).
    pose proof (first_slot_Some _ _ _ _ Hfind) as (Hj & Ht & Htag & Hfirst).
    split; [done|]. split; [done|]. split; [lia|]. split.
    + intros _. split; [lia|]. exists t.
      rewrite Z.add_0_l, Nat2Z.id.
      repeat split; try done. intros. by apply to_int_small.
    + intros Hids. split; [|lia]. intros Hid. exfalso.
      apply (to_int_not_sentinel (tex_ID t)); [|done].
      apply Hids. unfold first_slot in Hfind.
      apply list_find_Some in Hfind as [Hl _].
      by apply list_elem_of_lookup_2 in Hl.
  - exists (-1), (-1). repeat split; done.
Qed.

Lemma FindTextureID_FindTextureSlot_consistent_witness :
  wf desk_world
  ∧ ∃ id slot,
      FindTextureID "desk" desk_world = Done id desk_world
      ∧ FindTextureSlot "desk" desk_world = Done slot desk_world
      ∧ (slot = -1 → id = -1)
      ∧ (slot ≠ -1 →
         0 ≤ slot < m_loadedTextures desk_world
         ∧ ∃ t,
             m_textureIDs desk_world !! Z.to_nat slot = Some t
             ∧ tex_tag t = "desk"
             ∧ id = to_int (tex_ID t)
             ∧ (0 ≤ tex_ID t < 2 ^ 31 → id = tex_ID t)
             ∧ ∀ i u, (i < Z.to_nat slot)%nat →
                      m_textureIDs desk_world !! i = Some u →
                      tex_tag u ≠ "desk")
      ∧ ((∀ t, t ∈ slots desk_world → 0 ≤ tex_ID t < 2 ^ 32 - 1) →
         (id = -1 ↔ slot = -1)).
Proof.
  split; [split; [reflexivity | vm_compute; split; congruence]|].
  apply (FindTextureID_FindTextureSlot_consistent "desk" desk_world).
  split; [reflexivity | vm_compute; split; congruence].
Defined.

(** C9 as stated fails on a registry that holds the id 4294967295, the
    largest [GLuint]: the slot is found, and the id converted to [int] is
    the sentinel. *)
Lemma FindTextureID_sentinel_collision :
  CreateGLTexture sample_stbi_load descending_driver
    "textures/topdesk.jpg" "desk" empty_world = Done true top_name_world
  ∧ wf top_name_world
  ∧ slots top_name_world = [TextureInfo "desk" 4294967295]
  ∧ FindTextureSlot "desk" top_name_world = Done 0 top_name_world
  ∧ FindTextureID "desk" top_name_world = Done (-1) top_name_world
  ∧ ¬ ∀ id slot,
        FindTextureID "desk" top_name_world = Done id top_name_world →
        FindTextureSlot "desk" top_name_world = Done slot top_name_world →
        (id = -1 ↔ slot = -1).
Proof.
  assert (Hslot : FindTextureSlot "desk" top_name_world
                  = Done 0 top_name_world) by (vm_compute; reflexivity).
  assert (Hid : FindTextureID "desk" top_name_world
                = Done (-1) top_name_world) by (vm_compute; reflexivity).
  split; [vm_compute; reflexivity|].
  split; [split; [reflexivity | vm_compute; split; congruence]|].
  split; [vm_compute; reflexivity|].
  split; [exact Hslot|]. split; [exact Hid|].
  intros H. destruct (H (-1) 0 Hid Hslot) as [H1 _].
  specialize (H1 eq_refl). discriminate.
Qed.

(** ** Teardown of the texture registry *)

Lemma regenerated_refl w : regenerated w w.
Proof.
  repeat split. exists []. cbn. by rewrite app_nil_r.
Qed.

Lemma regenerated_trans w1 w2 w3 :
  regenerated w1 w2 → regenerated w2 w3 → regenerated w1 w3.
Proof.
  intros (Hs & Hn & Ht & Hm & names & Hc) (Hs' & Hn' & Ht' & Hm' & names' & Hc').
  repeat split; try congruence.
  exists (names ++ names'). rewrite Hc', Hc, fmap_app, app_assoc. done.
Qed.

Lemma regenerated_length w w' :
  regenerated w w' → length (m_textureIDs w') = length (m_textureIDs w).
Proof.
  intros (_ & _ & Ht & _).
  apply (f_equal length) in Ht. by rewrite !length_fmap in Ht.
Qed.

Lemma bind_Done {A B} (m : M A) (k : A → M B) w a w' :
  m w = Done a w' → (m ≫= k) w = k a w'.
Proof. intros H. unfold mbind, M_bind, bind. by rewrite H. Qed.

Section Teardown.
Variable driver_name : list call → Z.

(** One turn of the loop of [DestroyGLTextures]: a new name is generated
    and stored over the id of slot [i]. *)
Lemma DestroyGLTextures_step i w :
  0 ≤ i < Z.of_nat (length (m_textureIDs w)) →
  ∃ w', (name ← gen_texture driver_name; store_texture_ID i name) w
        = Done tt w'
      ∧ regenerated w w'.
Proof.
  intros Hi. destruct w as [sh l n ms cs]. cbn in Hi.
  destruct (lookup_lt_is_Some_2 l (Z.to_nat i)) as [t Ht]; [lia|].
  cbv beta iota zeta delta
    [gen_texture emit store_texture_ID texture_at set_textureIDs
     mbind M_bind mret M_ret bind ret gets modify fail
     m_pShaderManager m_textureIDs m_loadedTextures m_objectMaterials calls].
  rewrite Ht, in_bounds_true by lia.
  eexists. split; [reflexivity|].
  repeat split; cbn.
  - rewrite list_fmap_insert. cbn. apply list_insert_id.
    rewrite list_lookup_fmap, Ht. done.
  - by exists [to_GLuint (driver_name cs)].
Qed.

Lemma DestroyGLTextures_loop (k : nat) :
  ∀ fuel i w,
    0 ≤ i →
    i + Z.of_nat k = m_loadedTextures w →
    m_loadedTextures w ≤ Z.of_nat (length (m_textureIDs w)) →
    (k < fuel)%nat →
    ∃ i' w',
      while fuel
        (λ i, n ← gets m_loadedTextures; mret (i <? n))
        (λ i, (name ← gen_texture driver_name; store_texture_ID i name);;
              mret (i + 1))
        i w = Done i' w'
      ∧ regenerated w w'.
Proof.
  induction k as [|k IH]; intros fuel i w Hi Hk Hn Hf.
  - destruct fuel as [|fuel]; [lia|]. rewrite while_S. munfold.
    replace (i <? m_loadedTextures w) with false
      by (symmetry; apply Z.ltb_ge; lia).
    exists i, w. split; [reflexivity | apply regenerated_refl].
  - destruct fuel as [|fuel]; [lia|]. rewrite while_S. munfold.
    replace (i <? m_loadedTextures w) with true
      by (symmetry; apply Z.ltb_lt; lia).
    destruct (DestroyGLTextures_step i w) as (w1 & Hstep & Hreg); [lia|].
    unfold mbind, M_bind, bind in Hstep. rewrite Hstep.
    pose proof (regenerated_length _ _ Hreg) as Hlen.
    pose proof Hreg as (_ & Hcount & _).
    destruct (IH fuel (i + 1) w1) as (i' & w' & Hrun & Hreg'); try lia.
    exists i', w'. split; [exact Hrun|].
    by apply (regenerated_trans w w1 w').
Qed.

(** [DestroyGLTextures] returns, and changes nothing but the ids stored in
    the slots and the trace, to which it adds [glGenTextures] calls. *)
Lemma DestroyGLTextures_regenerates w :
  0 ≤ m_loadedTextures w ≤ Z.of_nat (length (m_textureIDs w)) →
  ∃ w', DestroyGLTextures driver_name w = Done tt w' ∧ regenerated w w'.
Proof.
  intros Hn.
  destruct (DestroyGLTextures_loop (Z.to_nat (m_loadedTextures w))
              (S (Z.to_nat (m_loadedTextures w))) 0 w)
    as (i' & w' & Hrun & Hreg); try lia.
  exists w'. split; [|done].
  unfold DestroyGLTextures, for_loaded.
  rewrite (bind_Done _ _ w (m_loadedTextures w) w) by reflexivity.
  rewrite (bind_Done _ _ w i' w') by exact Hrun. reflexivity.
Qed.

End Teardown.

Lemma live_textures_from_names names :
  ∀ live, live_textures_from live (glGenTextures <$> names) = live ++ names.
Proof.
  induction names as [|n names IH]; intros live; cbn [fmap list_fmap].
  - cbn. by rewrite app_nil_r.
  - cbn [live_textures_from]. rewrite IH, <- app_assoc. done.
Qed.

Lemma live_textures_from_generated names :
  ∀ cs live,
    live_textures_from live (cs ++ (glGenTextures <$> names))
    = live_textures_from live cs ++ names.
Proof.
  induction cs as [|c cs IH]; intros live.
  - apply live_textures_from_names.
  - destruct c; cbn; apply IH.
Qed.

(** The index of the first slot under a tag depends on the tags only. *)
Lemma first_slot_tags tag :
  ∀ l l' : list TEXTURE_INFO,
    tex_tag <$> l = tex_tag <$> l' →
    fst <$> first_slot tag l = fst <$> first_slot tag l'.
Proof.
  unfold first_slot.
  induction l as [|t l IH]; intros [|t' l'] Heq; try discriminate; [done|].
  cbn in Heq. injection Heq as Ht Hl. cbn [list_find]. rewrite <- Ht.
  destruct (decide (tex_tag t = tag)); [done|].
  specialize (IH l' Hl).
  destruct (list_find _ l) as [[j u]|], (list_find _ l') as [[j' u']|];
    cbn in *; congruence.
Qed.

Lemma regenerated_FindTextureSlot tag w w' :
  0 ≤ m_loadedTextures w ≤ Z.of_nat (length (m_textureIDs w)) →
  regenerated w w' →
  ∃ slot, FindTextureSlot tag w = Done slot w
        ∧ FindTextureSlot tag w' = Done slot w'.
Proof.
  intros Hn Hreg. pose proof (regenerated_length _ _ Hreg) as Hlen.
  destruct Hreg as (_ & Hcount & Htags & _).
  rewrite !FindTextureSlot_run by lia.
  eexists. split; [reflexivity|]. f_equal.
  unfold search_result.
  assert (H : fst <$> first_slot tag (slots w')
              = fst <$> first_slot tag (slots w)).
  { apply first_slot_tags. unfold slots.
    rewrite !fmap_take, Htags, Hcount. done. }
  destruct (first_slot tag (slots w')) as [[j u]|],
           (first_slot tag (slots w)) as [[j' u']|]; cbn in H; congruence.
Qed.

(** On every registry state, [DestroyGLTextures] keeps the count of
    loaded textures, keeps what [FindTextureSlot] returns for every tag,
    and frees no texture name. *)
Lemma DestroyGLTextures_keeps_registry driver_name tag w :
  wf w →
  ∃ w' slot,
    DestroyGLTextures driver_name w = Done tt w'
    ∧ m_loadedTextures w' = m_loadedTextures w
    ∧ FindTextureSlot tag w = Done slot w
    ∧ FindTextureSlot tag w' = Done slot w'
    ∧ ∀ n, n ∈ live_textures (calls w) → n ∈ live_textures (calls w').
Proof.
  intros Hwf. pose proof (wf_bounds w Hwf) as Hb.
  destruct (DestroyGLTextures_regenerates driver_name w Hb)
    as (w' & Hrun & Hreg).
  destruct (regenerated_FindTextureSlot tag w w' Hb Hreg)
    as (slot & Hs & Hs').
  exists w', slot. destruct Hreg as (_ & Hcount & _ & _ & names & Hcalls).
  repeat split; try done.
  intros n Hlive. unfold live_textures.
  rewrite Hcalls, live_textures_from_generated.
  apply elem_of_app. by left.
Qed.

(** C2 (the code departs from the claim).  After one texture is loaded
    under "desk" with name 1, [DestroyGLTextures] generates a second name
    and stores it over the first: [FindTextureSlot] still returns slot 0
    for "desk", the count of loaded textures is still 1, and name 1 is
    still live, no [glDeleteTextures] having been called. *)
Theorem DestroyGLTextures_frees_nothing :
  CreateGLTexture sample_stbi_load counting_driver
    "textures/topdesk.jpg" "desk" empty_world = Done true desk_world
  ∧ slots desk_world = [TextureInfo "desk" 1]
  ∧ live_textures (calls desk_world) = [1]
  ∧ ∃ w',
      DestroyGLTextures counting_driver desk_world = Done tt w'
      ∧ FindTextureSlot "desk" w' = Done 0 w'
      ∧ m_loadedTextures w' = 1
      ∧ slots w' = [TextureInfo "desk" 2]
      ∧ live_textures (calls w') = [1; 2]
      ∧ ¬ freed 1 (calls w').
Proof.
  split; [vm_compute; reflexivity|].
  split; [vm_compute; reflexivity|].
  split; [vm_compute; reflexivity|].
  eexists. split; [vm_compute; reflexivity|].
  split; [vm_compute; reflexivity|].
  split; [reflexivity|].
  split; [vm_compute; reflexivity|].
  split; [vm_compute; reflexivity|].
  intros [_ Hnot]. apply Hnot. vm_compute. by left.
Qed.

(** ** The material table *)

Lemma mat_cond_run index bFound material w :
  mat_cond (index, bFound, material) w
  = Done ((index <? Z.of_nat (length (m_objectMaterials w)))
          && bool_decide (bFound = false)) w.
Proof. reflexivity. Qed.

Lemma mat_body_run tag index bFound material m w :
  material_at index w = Done m w →
  mat_body tag (index, bFound, material) w
  = Done (if String.eqb (mat_tag m) tag
          then (index, true, assign_material m material)
          else (index + 1, bFound, material)) w.
Proof.
  intros Hm. unfold mat_body. munfold. rewrite Hm.
  destruct (String.eqb _ _); reflexivity.
Qed.

(** The loop of [FindMaterial] ends, leaves the world as it was, and
    leaves in [material] the values of the first matching descriptor from
    [index] on, or what it held.  By induction on the number [k] of
    descriptors left to visit. *)
Lemma material_loop tag w (k : nat) :
  ∀ fuel index material,
    0 ≤ index →
    index + Z.of_nat k = Z.of_nat (length (m_objectMaterials w)) →
    (k < fuel)%nat →
    ∃ st, while fuel mat_cond (mat_body tag) (index, false, material) w
          = Done st w
        ∧ st.2 = lookup_result tag
                   (drop (Z.to_nat index) (m_objectMaterials w)) material.
Proof.
  induction k as [|k IH]; intros fuel index material Hi Hk Hf.
  - destruct fuel as [|fuel]; [lia|].
    rewrite while_S, mat_cond_run.
    replace (index <? _) with false by (symmetry; apply Z.ltb_ge; lia).
    cbn [andb]. eexists; split; [reflexivity|]. cbn [snd].
    unfold lookup_result, first_material.
    rewrite drop_ge by lia. reflexivity.
  - destruct fuel as [|fuel]; [lia|].
    rewrite while_S, mat_cond_run.
    replace (index <? _) with true by (symmetry; apply Z.ltb_lt; lia).
    rewrite bool_decide_eq_true_2 by reflexivity. cbn [andb].
    destruct (lookup_lt_is_Some_2 (m_objectMaterials w) (Z.to_nat index))
      as [m Hm]; [lia|].
    rewrite (mat_body_run tag index false material m)
      by (apply material_at_Some; done).
    assert (Hd : drop (Z.to_nat index) (m_objectMaterials w)
                 = m :: drop (Z.to_nat (index + 1)) (m_objectMaterials w)).
    { replace (Z.to_nat (index + 1)) with (S (Z.to_nat index)) by lia.
      apply drop_S. done. }
    unfold lookup_result, first_material. rewrite Hd. cbn [list_find].
    destruct (String.eqb_spec (mat_tag m) tag) as [He|He].
    + rewrite decide_True by done.
      destruct fuel as [|fuel]; [lia|].
      rewrite while_S, mat_cond_run.
      rewrite bool_decide_eq_false_2 by done. rewrite andb_false_r.
      eexists; split; reflexivity.
    + rewrite decide_False by done.
      destruct (IH fuel (index + 1) material) as (st & Hst & Hr); try lia.
      exists st. split; [exact Hst|]. rewrite Hr.
      unfold lookup_result, first_material.
      destruct (list_find _ _) as [[j t']|]; reflexivity.
Qed.

(** [FindMaterial] returns on every world, leaves it as it was, and
    returns true exactly when some material is registered. *)
Lemma FindMaterial_run tag material w :
  FindMaterial tag material w
  = Done (if decide (m_objectMaterials w = []) then (false, material)
          else (true, lookup_result tag (m_objectMaterials w) material)) w.
Proof.
  unfold FindMaterial. munfold.
  destruct (m_objectMaterials w) as [|m0 ms] eqn:El.
  - reflexivity.
  - rewrite decide_False by done.
    replace (Z.of_nat (length (m0 :: ms)) =? 0) with false
      by (symmetry; apply Z.eqb_neq; cbn [length]; lia).
    destruct (material_loop tag w (length (m_objectMaterials w))
                (S (Z.to_nat (Z.of_nat (length (m_objectMaterials w)))))
                0 material) as (st & Hst & Hr); try lia.
    rewrite El in Hst, Hr.
    change (while _ _ _ _ w) with
      (while (S (Z.to_nat (Z.of_nat (length (m0 :: ms))))) mat_cond
         (mat_body tag) (0, false, material) w).
    rewrite Hst. destruct st as [[i b] m']. cbn in Hr. rewrite Hr.
    reflexivity.
Qed.

Lemma first_material_None tag (l : list OBJECT_MATERIAL) :
  (∀ m, m ∈ l → mat_tag m ≠ tag) → first_material tag l = None.
Proof.
  intros H. unfold first_material. apply list_find_None.
  rewrite Forall_forall. exact H.
Qed.

Lemma first_material_app tag (pre post : list OBJECT_MATERIAL) d :
  (∀ m, m ∈ pre → mat_tag m ≠ tag) →
  mat_tag d = tag →
  first_material tag (pre ++ d :: post) = Some (length pre, d).
Proof.
  intros Hpre Hd. unfold first_material. apply list_find_Some.
  split; [by rewrite list_lookup_middle|]. split; [done|].
  intros i m Hm Hi. apply Hpre.
  rewrite lookup_app_l in Hm by done.
  by apply list_elem_of_lookup_2 in Hm.
Qed.

(** C7: when two descriptors are registered under one tag, [d1] first
    and [d2] later, whatever is registered around them, [FindMaterial] on
    the tag returns true and leaves in [material] the diffuse color, the
    specular color and the shininess of [d1]. *)
Theorem FindMaterial_first_registered_wins
    (pre mid post : list OBJECT_MATERIAL) (d1 d2 material : OBJECT_MATERIAL)
    (w : World) :
  m_objectMaterials w = pre ++ d1 :: mid ++ d2 :: post →
  mat_tag d2 = mat_tag d1 →
  (∀ m, m ∈ pre → mat_tag m ≠ mat_tag d1) →
  ∃ found,
    FindMaterial (mat_tag d1) material w = Done (true, found) w
    ∧ diffuseColor found = diffuseColor d1
    ∧ specularColor found = specularColor d1
    ∧ shininess found = shininess d1.
Proof.
  intros Hreg Htag Hpre.
  rewrite FindMaterial_run, Hreg.
  rewrite decide_False by (by destruct pre).
  unfold lookup_result.
  rewrite (first_material_app _ pre (mid ++ d2 :: post) d1) by done.
  eexists. split; [reflexivity|]. repeat split.
Qed.

Lemma FindMaterial_first_registered_wins_witness :
  m_objectMaterials two_woods_world = [] ++ oak :: [] ++ pine :: []
  ∧ ∃ found,
      FindMaterial "wood" zero_material two_woods_world
      = Done (true, found) two_woods_world
      ∧ diffuseColor found = diffuseColor oak
      ∧ specularColor found = specularColor oak
      ∧ shininess found = shininess oak.
Proof.
  split; [reflexivity|].
  apply (FindMaterial_first_registered_wins [] [] [] oak pine zero_material
           two_woods_world).
  - reflexivity.
  - reflexivity.
  - intros m Hm. by apply elem_of_nil in Hm.
Defined.

(** C10: when no registered descriptor carries the tag, [FindMaterial]
    returns with [material] exactly as it was passed, and the flag it
    returns is true precisely when the table is not empty. *)
Theorem FindMaterial_no_match_keeps_material
    (tag : string) (material : OBJECT_MATERIAL) (w : World) :
  (∀ m, m ∈ m_objectMaterials w → mat_tag m ≠ tag) →
  ∃ flag,
    FindMaterial tag material w = Done (flag, material) w
    ∧ (flag = true ↔ m_objectMaterials w ≠ []).
Proof.
  intros Hno. rewrite FindMaterial_run.
  destruct (decide (m_objectMaterials w = [])) as [He|He].
  - exists false. split; [done|]. split; [discriminate | done].
  - exists true. unfold lookup_result.
    rewrite first_material_None by done. split; [done|]. done.
Qed.

Lemma FindMaterial_no_match_keeps_material_witness :
  ∃ flag,
    FindMaterial "steel" marble two_woods_world
    = Done (flag, marble) two_woods_world
    ∧ (flag = true ↔ m_objectMaterials two_woods_world ≠ []).
Proof.
  apply (FindMaterial_no_match_keeps_material "steel" marble two_woods_world).
  intros m Hm. cbn in Hm.
  apply elem_of_cons in Hm as [-> | Hm]; [discriminate|].
  apply elem_of_cons in Hm as [-> | Hm]; [discriminate|].
  by apply elem_of_nil in Hm.
Defined.

(** ** Staging of the shader state *)

Lemma shader_call_run f sh w :
  m_pShaderManager w = Some sh →
  shader_call f w = Done tt (set_shader (f sh) w).
Proof. intros H. unfold shader_call. munfold. rewrite H. reflexivity. Qed.

Lemma shader_call_null f w :
  m_pShaderManager w = None → shader_call f w = Fault NullPointer.
Proof. intros H. unfold shader_call. munfold. rewrite H. reflexivity. Qed.

Lemma set_shader_set_shader sh sh' w :
  set_shader sh' (set_shader sh w) = set_shader sh' w.
Proof. reflexivity. Qed.

Lemma SetShaderColor_run r g b a sh w :
  m_pShaderManager w = Some sh →
  SetShaderColor r g b a w
  = Done tt (set_shader
               (<[g_ColorValueName := Vec4Value (Vec4 r g b a)]>
                  (<[g_UseTextureName := IntValue 0]> sh)) w).
Proof.
  intros H. unfold SetShaderColor. munfold. rewrite H.
  rewrite bool_decide_eq_true_2 by done.
  rewrite (shader_call_run _ sh) by done.
  rewrite (shader_call_run _ _ (set_shader _ w) eq_refl).
  reflexivity.
Qed.

Lemma SetShaderColor_null r g b a w :
  m_pShaderManager w = None → SetShaderColor r g b a w = Done tt w.
Proof.
  intros H. unfold SetShaderColor. munfold. rewrite H. reflexivity.
Qed.

(** C8: with a shader manager attached, [SetShaderColor] returns with the
    color uniform "objectColor" staged as the four components passed, in
    order, and the flag uniform "bUseTexture" staged as 0, which is false;
    every other uniform keeps its value. *)
Theorem SetShaderColor_stages_flat_color
    (r g b a : float) (sh : ShaderManager.t) (w : World) :
  m_pShaderManager w = Some sh →
  ∃ sh',
    SetShaderColor r g b a w = Done tt (set_shader sh' w)
    ∧ sh' !! g_ColorValueName = Some (Vec4Value (Vec4 r g b a))
    ∧ sh' !! g_UseTextureName = Some (IntValue (Z.b2z false))
    ∧ ∀ name, name ≠ g_ColorValueName → name ≠ g_UseTextureName →
              sh' !! name = sh !! name.
Proof.
  intros H. eexists. split; [by apply SetShaderColor_run|].
  split; [apply lookup_insert_eq|].
  split.
  - rewrite lookup_insert_ne by done. apply lookup_insert_eq.
  - intros name Hc Ht. rewrite !lookup_insert_ne by done. done.
Qed.

Lemma SetShaderColor_stages_flat_color_witness :
  m_pShaderManager empty_world = Some ∅
  ∧ ∃ sh',
      SetShaderColor 0.5 0.25 1 1 empty_world
      = Done tt (set_shader sh' empty_world)
      ∧ sh' !! g_ColorValueName = Some (Vec4Value (Vec4 0.5 0.25 1 1))
      ∧ sh' !! g_UseTextureName = Some (IntValue (Z.b2z false))
      ∧ ∀ name, name ≠ g_ColorValueName → name ≠ g_UseTextureName →
                sh' !! name = (∅ : ShaderManager.t) !! name.
Proof.
  split; [reflexivity|].
  apply (SetShaderColor_stages_flat_color 0.5 0.25 1 1 ∅ empty_world).
  reflexivity.
Defined.

(** [SetShaderTexture] stages the flag as 1 and the slot of the tag as
    the sampler. *)
Lemma SetShaderTexture_run tag sh w :
  m_pShaderManager w = Some sh →
  0 ≤ m_loadedTextures w ≤ Z.of_nat (length (m_textureIDs w)) →
  SetShaderTexture tag w
  = Done tt (set_shader
               (<[g_TextureValueName :=
                    Sampler2DValue
                      (search_result (λ i _, i) tag (slots w) 0 (-1))]>
                  (<[g_UseTextureName := IntValue 1]> sh)) w).
Proof.
  intros H Hn. unfold SetShaderTexture. munfold. rewrite H.
  rewrite bool_decide_eq_true_2 by done.
  rewrite (shader_call_run _ sh) by done.
  rewrite FindTextureSlot_run by done.
  rewrite (shader_call_run _ _ (set_shader _ w) eq_refl).
  reflexivity.
Qed.

(** What [SetShaderMaterial] does, case by case. *)
Lemma SetShaderMaterial_run tag stack sh w :
  m_pShaderManager w = Some sh →
  SetShaderMaterial tag stack w
  = Done tt
      (if decide (m_objectMaterials w = []) then w
       else set_shader
              (stage_material
                 (lookup_result tag (m_objectMaterials w)
                    (ObjectMaterial (diffuseColor stack) (specularColor stack)
                       (shininess stack) ""))
                 sh) w).
Proof.
  intros H. unfold SetShaderMaterial. munfold.
  destruct (m_objectMaterials w) as [|m0 ms] eqn:El; [reflexivity|].
  replace (0 <? Z.of_nat (length (m0 :: ms))) with true
    by (symmetry; apply Z.ltb_lt; cbn [length]; lia).
  rewrite decide_False by done.
  rewrite FindMaterial_run, El. rewrite decide_False by done.
  rewrite bool_decide_eq_true_2 by done.
  rewrite (shader_call_run _ sh) by done.
  rewrite (shader_call_run _ _ (set_shader _ w) eq_refl).
  rewrite (shader_call_run _ _ (set_shader _ (set_shader _ w)) eq_refl).
  reflexivity.
Qed.

Lemma staged_material_stage m sh :
  staged_material (stage_material m sh)
  = (Some (Vec3Value (diffuseColor m)), Some (Vec3Value (specularColor m)),
     Some (FloatValue (shininess m))).
Proof.
  unfold staged_material, stage_material.
  rewrite lookup_insert_eq.
  rewrite !(lookup_insert_ne _ "material.shininess") by done.
  rewrite lookup_insert_eq.
  rewrite !(lookup_insert_ne _ "material.specularColor") by done.
  rewrite lookup_insert_eq. reflexivity.
Qed.

(** With a shader manager attached: an empty table leaves the world as it
    is; a tag that is registered stages the three values of the first
    descriptor under it. *)
Lemma SetShaderMaterial_empty tag stack sh w :
  m_pShaderManager w = Some sh → m_objectMaterials w = [] →
  SetShaderMaterial tag stack w = Done tt w.
Proof.
  intros H He. rewrite (SetShaderMaterial_run _ _ sh) by done.
  by rewrite decide_True.
Qed.

Lemma SetShaderMaterial_match tag stack sh w pre d post :
  m_pShaderManager w = Some sh →
  m_objectMaterials w = pre ++ d :: post →
  (∀ m, m ∈ pre → mat_tag m ≠ tag) → mat_tag d = tag →
  ∃ sh', SetShaderMaterial tag stack w = Done tt (set_shader sh' w)
       ∧ staged_material sh'
         = (Some (Vec3Value (diffuseColor d)),
            Some (Vec3Value (specularColor d)),
            Some (FloatValue (shininess d))).
Proof.
  intros H Hreg Hpre Hd. rewrite (SetShaderMaterial_run _ _ sh) by done.
  rewrite Hreg. rewrite decide_False by (by destruct pre).
  unfold lookup_result. rewrite (first_material_app _ pre post d) by done.
  eexists. split; [reflexivity|]. by rewrite staged_material_stage.
Qed.

(** With a shader manager attached, a table that is not empty and a tag
    that no descriptor carries: the three uniforms are staged from the
    uninitialised local. *)
Lemma SetShaderMaterial_no_match tag stack sh w :
  m_pShaderManager w = Some sh →
  m_objectMaterials w ≠ [] →
  (∀ m, m ∈ m_objectMaterials w → mat_tag m ≠ tag) →
  ∃ sh', SetShaderMaterial tag stack w = Done tt (set_shader sh' w)
       ∧ staged_material sh'
         = (Some (Vec3Value (diffuseColor stack)),
            Some (Vec3Value (specularColor stack)),
            Some (FloatValue (shininess stack))).
Proof.
  intros H Hne Hno. rewrite (SetShaderMaterial_run _ _ sh) by done.
  rewrite decide_False by done.
  unfold lookup_result. rewrite first_material_None by done.
  eexists. split; [reflexivity|]. by rewrite staged_material_stage.
Qed.

Lemma scene_world_materials :
  DefineObjectMaterials empty_world = Done tt scene_world
  ∧ mat_tag <$> m_objectMaterials scene_world
    = ["marble"; "paper"; "fabric"; "plastic"; "ceramic"; "screen"; "wood"].
Proof. split; reflexivity. Qed.

(** C3 (the code departs from the claim).  With the scene's seven
    materials registered and the values of "marble" staged, a call of
    [SetShaderMaterial] with the tag "steel", which no material carries,
    does not leave the staged values as they are: [FindMaterial] returns
    true on the table that is not empty, and the three uniforms are staged
    from the local [material], which was never assigned (zeros here). *)
Theorem SetShaderMaterial_unknown_tag_overwrites :
  DefineObjectMaterials empty_world = Done tt scene_world
  ∧ (∀ m, m ∈ m_objectMaterials scene_world → mat_tag m ≠ "steel")
  ∧ SetShaderMaterial "marble" zero_material scene_world
    = Done tt (set_shader (stage_material marble ∅) scene_world)
  ∧ SetShaderMaterial "steel" zero_material
      (set_shader (stage_material marble ∅) scene_world)
    = Done tt
        (set_shader (stage_material zero_material (stage_material marble ∅))
           scene_world)
  ∧ staged_material (stage_material marble ∅)
    = (Some (Vec3Value (Vec3 0.8 0.8 0.8)), Some (Vec3Value (Vec3 0.9 0.9 0.9)),
       Some (FloatValue 50))
  ∧ staged_material (stage_material zero_material (stage_material marble ∅))
    = (Some (Vec3Value (Vec3 0 0 0)), Some (Vec3Value (Vec3 0 0 0)),
       Some (FloatValue 0))
  ∧ staged_material (stage_material zero_material (stage_material marble ∅))
    ≠ staged_material (stage_material marble ∅).
Proof.
  assert (Hno : ∀ m, m ∈ m_objectMaterials scene_world → mat_tag m ≠ "steel").
  { intros m Hm Htag.
    assert (Hin : "steel" ∈ mat_tag <$> m_objectMaterials scene_world).
    { rewrite <- Htag. by apply list_elem_of_fmap_2. }
    rewrite (proj2 scene_world_materials) in Hin.
    repeat (apply elem_of_cons in Hin as [Hin | Hin]; [discriminate|]).
    by apply elem_of_nil in Hin. }
  split; [reflexivity|]. split; [exact Hno|].
  split.
  { rewrite (SetShaderMaterial_run _ _ ∅) by reflexivity. reflexivity. }
  split.
  { rewrite (SetShaderMaterial_run _ _ (stage_material marble ∅))
      by reflexivity.
    rewrite decide_False by discriminate.
    unfold lookup_result. rewrite first_material_None by exact Hno.
    reflexivity. }
  rewrite !staged_material_stage. cbn [diffuseColor specularColor shininess
    marble zero_material].
  split; [repeat f_equal; lra|]. split; [reflexivity|].
  intros H. injection H as _ _ H. lra.
Qed.

(** ** The transform composer *)

Section ComposeFacts.
Local Open Scope R_scope.
Import Compose.

(** The functions of glm are the matrices of the specification. *)

Lemma glm_mul_product a b : glm.mul a b = product a b.
Proof. destruct a as [[] [] [] []], b as [[] [] [] []]. reflexivity. Qed.

Lemma glm_translate_Translate p : glm.translate p = Translate p.
Proof.
  destruct p. unfold glm.translate, glm.translate_m, Translate, of_rows,
    glm.identity4, glm.add4, glm.scale4. cbn.
  f_equal. f_equal; ring.
Qed.

Lemma glm_scale_Scale s : glm.scale s = Scale s.
Proof.
  destruct s. unfold glm.scale, glm.scale_m, Scale, of_rows,
    glm.identity4, glm.scale4. cbn.
  f_equal; f_equal; ring.
Qed.

Lemma normalize_unit v : glm.dot3 v v = 1 → glm.normalize v = v.
Proof.
  intros H. unfold glm.normalize, glm.inversesqrt. rewrite H, sqrt_1.
  destruct v. unfold glm.scale3. cbn. f_equal; field.
Qed.

Lemma glm_rotate_X a : glm.rotate a (Vec3 1 0 0) = RotateX a.
Proof.
  unfold RotateX, glm.rotate, glm.rotate_m.
  rewrite normalize_unit by (unfold glm.dot3; cbn; ring).
  glm_entries.
Qed.

Lemma glm_rotate_Y a : glm.rotate a (Vec3 0 1 0) = RotateY a.
Proof.
  unfold RotateY, glm.rotate, glm.rotate_m.
  rewrite normalize_unit by (unfold glm.dot3; cbn; ring).
  glm_entries.
Qed.

Lemma glm_rotate_Z a : glm.rotate a (Vec3 0 0 1) = RotateZ a.
Proof.
  unfold RotateZ, glm.rotate, glm.rotate_m.
  rewrite normalize_unit by (unfold glm.dot3; cbn; ring).
  glm_entries.
Qed.

Lemma glm_radians d : glm.radians d = to_radians d.
Proof. unfold glm.radians, to_radians. field. Qed.

Lemma glm_to_mat3 m : glm.to_mat3 m = upperLeft3x3 m.
Proof. destruct m as [[] [] [] []]. reflexivity. Qed.



(** The model matrix of the code is that of the specification. *)
Lemma glm_model s rx ry rz p :
  glm.mul
    (glm.mul
       (glm.mul
          (glm.mul (glm.translate p)
             (glm.rotate (glm.radians rz) (Vec3 0 0 1)))
          (glm.rotate (glm.radians ry) (Vec3 0 1 0)))
       (glm.rotate (glm.radians rx) (Vec3 1 0 0)))
    (glm.scale s)
  = model s rx ry rz p.
Proof.
  rewrite !glm_mul_product, glm_translate_Translate, glm_scale_Scale,
    glm_rotate_X, glm_rotate_Y, glm_rotate_Z, !glm_radians.
  reflexivity.
Qed.




Lemma SetTransformations_run s rx ry rz p sh w :
  m_pShaderManager w = Some sh →
  SetTransformations s rx ry rz p w
  = Done tt
      (set_shader
         (<["normal" :=
              Mat3Value
                (glm.transpose (glm.inverse (upperLeft3x3 (model s rx ry rz p))))]>
            (<[g_ModelName := Mat4Value (model s rx ry rz p)]> sh)) w).
Proof.
  intros H. unfold SetTransformations. munfold. rewrite H.
  rewrite bool_decide_eq_true_2 by done.
  rewrite (shader_call_run _ sh) by done.
  rewrite (shader_call_run _ _ (set_shader _ w) eq_refl).
  unfold ShaderManager.setMat3Value, ShaderManager.setMat4Value.
  rewrite glm_to_mat3, glm_model. reflexivity.
Qed.

End ComposeFacts.

Lemma SetTransformations_null s rx ry rz p w :
  m_pShaderManager w = None → SetTransformations s rx ry rz p w = Done tt w.
Proof.
  intros H. unfold SetTransformations. munfold. rewrite H. reflexivity.
Qed.



(** A quarter turn about the Y axis sends the X axis to the negative Z
    axis: the first column of the model matrix is (0, 0, -1, 0). *)
Lemma model_quarter_turn_about_Y :
  m4_0 (Compose.model (Vec3 1 1 1) 0 90 0 (Vec3 0 0 0)) = (Vec4 0 0 (-1) 0)%R.
Proof.
  cbv beta iota zeta delta
    [Compose.model Compose.product Compose.Translate Compose.RotateX
     Compose.RotateY Compose.RotateZ Compose.Scale Compose.of_rows
     Compose.entry Compose.column Compose.coord Compose.to_radians
     v3_x v3_y v3_z v4_x v4_y v4_z v4_w m4_0 m4_1 m4_2 m4_3].
  replace (0 * PI / 180)%R with 0%R by field.
  replace (90 * PI / 180)%R with (PI / 2)%R by field.
  rewrite cos_0, sin_0, cos_PI2, sin_PI2. f_equal; ring.
Qed.

(** ** The scene *)

(** The scene loads twelve textures, within the sixteen slots, and binds
    slot [i] to texture unit [i]. *)
Lemma LoadSceneTextures_fits :
  ∃ w,
    LoadSceneTextures sample_stbi_load counting_driver empty_world = Done tt w
    ∧ wf w
    ∧ tex_tag <$> slots w
      = [ "desk"; "monitorfront"; "wood"; "silver"; "magfront"; "mousepad";
          "magsides"; "magcover"; "keyboard"; "mousetop"; "vaseblue";
          "whitevase" ]
    ∧ tex_ID <$> slots w = [1; 2; 3; 4; 5; 6; 7; 8; 9; 10; 11; 12]
    ∧ FindTextureSlot "whitevase" w = Done 11 w
    ∧ FindTextureID "whitevase" w = Done 12 w
    ∧ FindTextureSlot "ceramic" w = Done (-1) w.
Proof.
  eexists. split; [vm_compute; reflexivity|].
  split; [split; [reflexivity | vm_compute; split; congruence]|].
  repeat split; vm_compute; reflexivity.
Qed.

(** * Properties of the rest of the scene manager *)

(** ** Lookups and loads of the texture registry *)

Lemma length_slots w :
  0 ≤ m_loadedTextures w ≤ Z.of_nat (length (m_textureIDs w)) →
  length (slots w) = Z.to_nat (m_loadedTextures w).
Proof. intros H. unfold slots. rewrite length_take. lia. Qed.

Lemma first_slot_snoc tag (l : list TEXTURE_INFO) x :
  first_slot tag (l ++ [x])
  = match first_slot tag l with
    | Some r => Some r
    | None => if decide (tex_tag x = tag) then Some (length l, x) else None
    end.
Proof.
  unfold first_slot. induction l as [|t l IH]; cbn [app list_find length].
  - destruct (decide (tex_tag x = tag)); reflexivity.
  - destruct (decide (tex_tag t = tag)); [reflexivity|].
    rewrite IH. destruct (list_find _ l) as [[j u]|]; [reflexivity|].
    destruct (decide (tex_tag x = tag)); reflexivity.
Qed.

Lemma first_slot_unregistered tag (l : list TEXTURE_INFO) :
  (∀ t, t ∈ l → tex_tag t ≠ tag) → first_slot tag l = None.
Proof.
  intros H. unfold first_slot. apply list_find_None.
  rewrite Forall_forall. exact H.
Qed.

(** X1: a tag that no occupied slot carries is not found: both lookups
    return -1 and leave the world as it is.  The tags the constructor
    writes in the 16 elements of the array are never found, the count
    being 0. *)
Theorem FindTexture_unregistered_tag (tag : string) (w : World) :
  wf w →
  (∀ t, t ∈ slots w → tex_tag t ≠ tag) →
  FindTextureSlot tag w = Done (-1) w ∧ FindTextureID tag w = Done (-1) w.
Proof.
  intros Hwf Hno. pose proof (wf_bounds w Hwf) as Hb.
  rewrite FindTextureSlot_run, FindTextureID_run by done.
  unfold search_result. rewrite first_slot_unregistered by done. done.
Qed.

Lemma FindTexture_unregistered_tag_witness :
  tex_tag <$> (m_textureIDs empty_world !! 0%nat) = Some "/0"
  ∧ FindTextureSlot "/0" empty_world = Done (-1) empty_world
  ∧ FindTextureID "/0" empty_world = Done (-1) empty_world.
Proof.
  split; [reflexivity|].
  apply (FindTexture_unregistered_tag "/0" empty_world).
  - split; [reflexivity | cbn; lia].
  - intros t Ht. cbn in Ht. by apply elem_of_nil in Ht.
Defined.

(** X2: a load under a tag that no occupied slot carries is found again:
    [FindTextureSlot] returns the index of the slot the load occupied,
    which is the count of loaded textures before the load, and
    [FindTextureID] the name the driver generated, converted to [int]. *)
Theorem CreateGLTexture_fresh_tag_is_found
    (stbi_load : string → option Image) (driver_name : list call → Z)
    (filename tag : string) (image : Image) (w : World) :
  wf w →
  m_loadedTextures w < 16 →
  stbi_load filename = Some image →
  img_channels image = 3 ∨ img_channels image = 4 →
  (∀ t, t ∈ slots w → tex_tag t ≠ tag) →
  ∃ w',
    CreateGLTexture stbi_load driver_name filename tag w = Done true w'
    ∧ FindTextureSlot tag w' = Done (m_loadedTextures w) w'
    ∧ FindTextureID tag w'
      = Done (to_int (to_GLuint
                        (driver_name
                           (calls w ++ [stbi_set_flip_vertically_on_load true]))))
          w'.
Proof.
  intros Hwf Hlt Hload Hch Hno. pose proof (wf_bounds w Hwf) as Hb.
  pose proof Hwf as [Hlen Hn].
  exists (loaded driver_name image tag w).
  pose proof (loaded_wf driver_name image tag w Hwf Hlt) as Hwf'.
  rewrite (CreateGLTexture_loaded _ _ _ _ image) by (done || lia).
  rewrite FindTextureSlot_run, FindTextureID_run by (apply wf_bounds; done).
  unfold search_result. rewrite slots_loaded by lia.
  rewrite first_slot_snoc, first_slot_unregistered by done.
  rewrite decide_True by done. rewrite length_slots by done.
  repeat split. f_equal. lia.
Qed.

Lemma CreateGLTexture_fresh_tag_is_found_witness :
  sample_stbi_load "textures/wood.jpg" = Some rgb_image
  ∧ ∃ w',
      CreateGLTexture sample_stbi_load counting_driver
        "textures/wood.jpg" "wood" desk_world = Done true w'
      ∧ FindTextureSlot "wood" w' = Done (m_loadedTextures desk_world) w'
      ∧ FindTextureID "wood" w'
        = Done (to_int (to_GLuint
                          (counting_driver
                             (calls desk_world
                              ++ [stbi_set_flip_vertically_on_load true]))))
            w'.
Proof.
  split; [reflexivity|].
  apply (CreateGLTexture_fresh_tag_is_found sample_stbi_load counting_driver
           "textures/wood.jpg" "wood" rgb_image desk_world).
  - split; [reflexivity | vm_compute; split; congruence].
  - vm_compute. reflexivity.
  - reflexivity.
  - left. reflexivity.
  - intros t Ht. vm_compute in Ht.
    apply elem_of_cons in Ht as [-> | Ht]; [discriminate|].
    by apply elem_of_nil in Ht.
Defined.

(** X3: a load never changes what the lookups return for a tag that was
    found before it, whatever the tag loaded: a texture loaded under a tag
    that is already registered cannot be reached by that tag. *)
Theorem CreateGLTexture_keeps_earlier_lookups
    (stbi_load : string → option Image) (driver_name : list call → Z)
    (filename tag tag' : string) (image : Image) (slot id : Z) (w : World) :
  wf w →
  m_loadedTextures w < 16 →
  stbi_load filename = Some image →
  img_channels image = 3 ∨ img_channels image = 4 →
  FindTextureSlot tag' w = Done slot w →
  FindTextureID tag' w = Done id w →
  slot ≠ -1 →
  ∃ w',
    CreateGLTexture stbi_load driver_name filename tag w = Done true w'
    ∧ FindTextureSlot tag' w' = Done slot w'
    ∧ FindTextureID tag' w' = Done id w'.
Proof.
  intros Hwf Hlt Hload Hch Hslot Hid Hfound.
  pose proof (wf_bounds w Hwf) as Hb. pose proof Hwf as [Hlen Hn].
  exists (loaded driver_name image tag w).
  pose proof (loaded_wf driver_name image tag w Hwf Hlt) as Hwf'.
  rewrite (CreateGLTexture_loaded _ _ _ _ image) by (done || lia).
  rewrite FindTextureSlot_run in Hslot by done.
  rewrite FindTextureID_run in Hid by done.
  rewrite FindTextureSlot_run, FindTextureID_run by (apply wf_bounds; done).
  unfold search_result in *. rewrite slots_loaded by lia.
  rewrite first_slot_snoc.
  destruct (first_slot tag' (slots w)) as [[j t]|].
  - injection Hslot as <-. injection Hid as <-. done.
  - injection Hslot as <-. done.
Qed.

Lemma CreateGLTexture_keeps_earlier_lookups_witness :
  FindTextureSlot "desk" desk_world = Done 0 desk_world
  ∧ FindTextureID "desk" desk_world = Done 1 desk_world
  ∧ ∃ w',
      CreateGLTexture sample_stbi_load counting_driver
        "textures/wood.jpg" "desk" desk_world = Done true w'
      ∧ FindTextureSlot "desk" w' = Done 0 w'
      ∧ FindTextureID "desk" w' = Done 1 w'.
Proof.
  split; [vm_compute; reflexivity|]. split; [vm_compute; reflexivity|].
  apply (CreateGLTexture_keeps_earlier_lookups sample_stbi_load
           counting_driver "textures/wood.jpg" "desk" "desk" rgb_image 0 1
           desk_world).
  - split; [reflexivity | vm_compute; split; congruence].
  - vm_compute. reflexivity.
  - reflexivity.
  - left. reflexivity.
  - vm_compute. reflexivity.
  - vm_compute. reflexivity.
  - discriminate.
Defined.

(** ** When a load returns and when it does not *)

(** The four ways through [CreateGLTexture]. *)
Lemma CreateGLTexture_cases stbi_load driver_name filename tag w :
  0 ≤ m_loadedTextures w ≤ Z.of_nat (length (m_textureIDs w)) →
  (stbi_load filename = None
   ∧ CreateGLTexture stbi_load driver_name filename tag w
     = Done false (add_calls [stbi_set_flip_vertically_on_load true] w))
  ∨ (∃ image, stbi_load filename = Some image
       ∧ img_channels image ≠ 3 ∧ img_channels image ≠ 4
       ∧ CreateGLTexture stbi_load driver_name filename tag w
         = Done false
             (add_calls (calls_before_upload (next_name driver_name w)) w))
  ∨ (∃ image, stbi_load filename = Some image
       ∧ (img_channels image = 3 ∨ img_channels image = 4)
       ∧ m_loadedTextures w < Z.of_nat (length (m_textureIDs w))
       ∧ CreateGLTexture stbi_load driver_name filename tag w
         = Done true (loaded driver_name image tag w))
  ∨ (∃ image, stbi_load filename = Some image
       ∧ (img_channels image = 3 ∨ img_channels image = 4)
       ∧ m_loadedTextures w = Z.of_nat (length (m_textureIDs w))
       ∧ CreateGLTexture stbi_load driver_name filename tag w
         = Fault (OutOfBounds (m_loadedTextures w))).
Proof.
  intros Hb. destruct (stbi_load filename) as [image|] eqn:Hload.
  - destruct (decide (img_channels image = 3 ∨ img_channels image = 4))
      as [Hch|Hch].
    + destruct (decide (m_loadedTextures w
                        < Z.of_nat (length (m_textureIDs w)))) as [Hlt|Hge].
      * right. right. left. exists image. repeat split; try done.
        apply (CreateGLTexture_loaded _ _ _ _ image); (done || lia).
      * right. right. right. exists image. repeat split; try done; [lia|].
        apply (CreateGLTexture_full _ _ _ _ image); (done || lia).
    + right. left. exists image.
      assert (img_channels image ≠ 3 ∧ img_channels image ≠ 4) as [H3 H4]
        by (split; intros ?; apply Hch; auto).
      repeat split; try done.
      by apply (CreateGLTexture_unsupported _ _ _ _ image).
  - left. split; [done|]. by apply CreateGLTexture_not_decoded.
Qed.

(** X4: on a registry state, [CreateGLTexture] fails to return in one
    case only: all 16 slots are occupied and the file decodes to an image
    of 3 or 4 channels.  A file that does not decode, or decodes to
    another channel count, makes it return also when the registry is
    full. *)
Theorem CreateGLTexture_faults_iff_full
    (stbi_load : string → option Image) (driver_name : list call → Z)
    (filename tag : string) (w : World) :
  wf w →
  (∃ f, CreateGLTexture stbi_load driver_name filename tag w = Fault f)
  ↔ (m_loadedTextures w = 16
     ∧ ∃ image, stbi_load filename = Some image
                ∧ (img_channels image = 3 ∨ img_channels image = 4)).
Proof.
  intros Hwf. pose proof (wf_bounds w Hwf) as Hb. destruct Hwf as [Hlen Hn].
  destruct (CreateGLTexture_cases stbi_load driver_name filename tag w Hb)
    as [(Hl & Hr) | [(im & Hl & H3 & H4 & Hr) | [(im & Hl & Hch & Hlt & Hr)
       | (im & Hl & Hch & Hfull & Hr)]]]; rewrite Hr; split.
  - intros [f Hf]. discriminate.
  - intros (_ & im & Him & _). congruence.
  - intros [f Hf]. discriminate.
  - intros (_ & im' & Him & Hch). rewrite Hl in Him. injection Him as <-.
    destruct Hch; done.
  - intros [f Hf]. discriminate.
  - intros (Hfull & _). lia.
  - intros _. split; [lia|]. by exists im.
  - intros _. by eexists.
Qed.

Lemma CreateGLTexture_faults_iff_full_witness :
  wf full_world
  ∧ ((∃ f, CreateGLTexture sample_stbi_load counting_driver
             "textures/grey.png" "grey" full_world = Fault f)
     ↔ (m_loadedTextures full_world = 16
        ∧ ∃ image, sample_stbi_load "textures/grey.png" = Some image
                   ∧ (img_channels image = 3 ∨ img_channels image = 4))).
Proof.
  split; [split; [reflexivity | vm_compute; split; congruence]|].
  apply (CreateGLTexture_faults_iff_full sample_stbi_load counting_driver
           "textures/grey.png" "grey" full_world).
  split; [reflexivity | vm_compute; split; congruence].
Defined.



Lemma live_textures_from_app cs2 :
  ∀ cs1 live,
    live_textures_from live (cs1 ++ cs2)
    = live_textures_from (live_textures_from live cs1) cs2.
Proof.
  induction cs1 as [|c cs1 IH]; intros live; [reflexivity|].
  destruct c; cbn; apply IH.
Qed.

(** X6: when the image has a channel count other than 3 and 4, the
    texture name generated for it is lost: it is stored in no slot, it is
    not deleted, it is bound to GL_TEXTURE_2D and no texture is bound
    after it, and the decoded image is not freed.  A file that does not decode costs no
    name. *)
Theorem CreateGLTexture_unsupported_loses_the_name
    (stbi_load : string → option Image) (driver_name : list call → Z)
    (filename tag : string) (image : Image) (w : World) :
  stbi_load filename = Some image →
  img_channels image ≠ 3 →
  img_channels image ≠ 4 →
  ∃ w' name added,
    CreateGLTexture stbi_load driver_name filename tag w = Done false w'
    ∧ calls w' = calls w ++ added
    ∧ m_textureIDs w' = m_textureIDs w
    ∧ live_textures (calls w') = live_textures (calls w) ++ [name]
    ∧ last added = Some (glTexParameteri GL_TEXTURE_2D GL_TEXTURE_MAG_FILTER
                           GL_LINEAR)
    ∧ glBindTexture GL_TEXTURE_2D name ∈ added
    ∧ (glDeleteTextures name ∉ added)
    ∧ (stbi_image_free image ∉ added).
Proof.
  intros Hload H3 H4.
  exists (add_calls (calls_before_upload (next_name driver_name w)) w),
    (next_name driver_name w), (calls_before_upload (next_name driver_name w)).
  split; [by apply (CreateGLTexture_unsupported _ _ _ _ image)|].
  split; [reflexivity|]. split; [reflexivity|].
  split.
  { unfold live_textures. cbn [calls add_calls].
    rewrite live_textures_from_app. reflexivity. }
  split; [reflexivity|].
  unfold calls_before_upload.
  split; [do 2 right; by left|].
  repeat split; intros Hin;
    repeat (apply elem_of_cons in Hin as [Hin | Hin]; [discriminate|]);
    by apply elem_of_nil in Hin.
Qed.

Lemma CreateGLTexture_unsupported_loses_the_name_witness :
  sample_stbi_load "textures/grey.png" = Some grey_image
  ∧ ∃ w' name added,
      CreateGLTexture sample_stbi_load counting_driver
        "textures/grey.png" "grey" desk_world = Done false w'
      ∧ calls w' = calls desk_world ++ added
      ∧ m_textureIDs w' = m_textureIDs desk_world
      ∧ live_textures (calls w') = live_textures (calls desk_world) ++ [name]
      ∧ last added = Some (glTexParameteri GL_TEXTURE_2D GL_TEXTURE_MAG_FILTER
                             GL_LINEAR)
      ∧ glBindTexture GL_TEXTURE_2D name ∈ added
        ∧ (glDeleteTextures name ∉ added)
      ∧ (stbi_image_free grey_image ∉ added).
Proof.
  split; [reflexivity|].
  apply (CreateGLTexture_unsupported_loses_the_name sample_stbi_load
           counting_driver "textures/grey.png" "grey" grey_image desk_world).
  - reflexivity.
  - cbn. lia.
  - cbn. lia.
Defined.

(** ** Binding and teardown *)

Lemma add_calls_add_calls cs1 cs2 w :
  add_calls cs2 (add_calls cs1 w) = add_calls (cs1 ++ cs2) w.
Proof. unfold add_calls. cbn. by rewrite app_assoc. Qed.

Lemma add_calls_nil w : add_calls [] w = w.
Proof. destruct w. unfold add_calls. cbn. by rewrite app_nil_r. Qed.

(** One turn of the loop of [BindGLTextures]. *)
Lemma BindGLTextures_step i t w :
  0 ≤ i → m_textureIDs w !! Z.to_nat i = Some t →
  (emit (glActiveTexture i);;
   t ← texture_at i;
   emit (glBindTexture GL_TEXTURE_2D (tex_ID t))) w
  = Done tt
      (add_calls [glActiveTexture i; glBindTexture GL_TEXTURE_2D (tex_ID t)] w).
Proof.
  intros Hi Ht. pose proof (lookup_lt_Some _ _ _ Ht) as Hlt.
  destruct w as [sh l n ms cs]. cbn in Ht, Hlt.
  cbv beta iota zeta delta
    [emit texture_at add_calls
     mbind M_bind mret M_ret bind ret gets modify fail
     m_pShaderManager m_textureIDs m_loadedTextures m_objectMaterials calls].
  rewrite Ht, in_bounds_true by lia. rewrite <- app_assoc. reflexivity.
Qed.

Lemma BindGLTextures_loop (k : nat) :
  ∀ fuel i w,
    0 ≤ i →
    i + Z.of_nat k = m_loadedTextures w →
    m_loadedTextures w ≤ Z.of_nat (length (m_textureIDs w)) →
    (k < fuel)%nat →
    ∃ i',
      while fuel
        (λ i, n ← gets m_loadedTextures; mret (i <? n))
        (λ i, (emit (glActiveTexture i);;
               t ← texture_at i;
               emit (glBindTexture GL_TEXTURE_2D (tex_ID t)));;
              mret (i + 1))
        i w
      = Done i' (add_calls (bind_calls i (drop (Z.to_nat i) (slots w))) w).
Proof.
  induction k as [|k IH]; intros fuel i w Hi Hk Hn Hf.
  - destruct fuel as [|fuel]; [lia|]. rewrite while_S. munfold.
    replace (i <? m_loadedTextures w) with false
      by (symmetry; apply Z.ltb_ge; lia).
    exists i. rewrite drop_ge by (rewrite length_slots; lia).
    cbn [bind_calls]. by rewrite add_calls_nil.
  - destruct fuel as [|fuel]; [lia|]. rewrite while_S. munfold.
    replace (i <? m_loadedTextures w) with true
      by (symmetry; apply Z.ltb_lt; lia).
    destruct (lookup_lt_is_Some_2 (m_textureIDs w) (Z.to_nat i)) as [t Ht];
      [lia|].
    pose proof (BindGLTextures_step i t w Hi Ht) as Hstep.
    unfold mbind, M_bind, bind in Hstep. rewrite Hstep.
    destruct (IH fuel (i + 1)
                (add_calls [glActiveTexture i;
                            glBindTexture GL_TEXTURE_2D (tex_ID t)] w))
      as (i' & Hrun); try (cbn; lia).
    exists i'. etransitivity; [exact Hrun|].
    cbn [slots add_calls m_loadedTextures m_textureIDs].
    change (take _ _) with (slots w).
    rewrite add_calls_add_calls. f_equal. f_equal.
    assert (Hd : drop (Z.to_nat i) (slots w)
                 = t :: drop (Z.to_nat (i + 1)) (slots w)).
    { replace (Z.to_nat (i + 1)) with (S (Z.to_nat i)) by lia.
      apply drop_S. unfold slots. rewrite lookup_take_lt by lia. done. }
    rewrite Hd. reflexivity.
Qed.

Lemma BindGLTextures_run w :
  0 ≤ m_loadedTextures w ≤ Z.of_nat (length (m_textureIDs w)) →
  BindGLTextures w = Done tt (add_calls (bind_calls 0 (slots w)) w).
Proof.
  intros Hb.
  destruct (BindGLTextures_loop (Z.to_nat (m_loadedTextures w))
              (S (Z.to_nat (m_loadedTextures w))) 0 w) as (i' & Hrun);
    try lia.
  unfold BindGLTextures, for_loaded.
  rewrite (bind_Done _ _ w (m_loadedTextures w) w) by reflexivity.
  rewrite (bind_Done _ _ w i' _ Hrun). reflexivity.
Qed.

(** X7: on a registry state, [BindGLTextures] returns after it has
    selected unit [i] and bound to GL_TEXTURE_2D the id stored in slot [i],
    for each occupied slot in the order of the slots, and nothing more:
    an empty registry makes no call, and the slots, the count, the
    materials and the shader manager are as before. *)
Theorem BindGLTextures_binds_each_slot_to_its_unit (w : World) :
  wf w →
  ∃ w',
    BindGLTextures w = Done tt w'
    ∧ calls w' = calls w ++ bind_calls 0 (slots w)
    ∧ (m_loadedTextures w = 0 → w' = w)
    ∧ m_textureIDs w' = m_textureIDs w
    ∧ m_loadedTextures w' = m_loadedTextures w
    ∧ m_objectMaterials w' = m_objectMaterials w
    ∧ m_pShaderManager w' = m_pShaderManager w.
Proof.
  intros Hwf. exists (add_calls (bind_calls 0 (slots w)) w).
  split; [apply BindGLTextures_run; by apply wf_bounds|].
  split; [reflexivity|]. split; [|done].
  intros H0. unfold slots. rewrite H0. cbn [Z.to_nat take bind_calls].
  apply add_calls_nil.
Qed.

Lemma BindGLTextures_binds_each_slot_to_its_unit_witness :
  bind_calls 0 (slots desk_world)
  = [glActiveTexture 0; glBindTexture GL_TEXTURE_2D 1]
  ∧ ∃ w',
      BindGLTextures desk_world = Done tt w'
      ∧ calls w' = calls desk_world ++ bind_calls 0 (slots desk_world)
      ∧ (m_loadedTextures desk_world = 0 → w' = desk_world)
      ∧ m_textureIDs w' = m_textureIDs desk_world
      ∧ m_loadedTextures w' = m_loadedTextures desk_world
      ∧ m_objectMaterials w' = m_objectMaterials desk_world
      ∧ m_pShaderManager w' = m_pShaderManager desk_world.
Proof.
  split; [vm_compute; reflexivity|].
  apply (BindGLTextures_binds_each_slot_to_its_unit desk_world).
  split; [reflexivity | vm_compute; split; congruence].
Defined.

Section TeardownNames.
Variable driver_name : list call → Z.

Lemma DestroyGLTextures_step_exact i t w :
  0 ≤ i → m_textureIDs w !! Z.to_nat i = Some t →
  (name ← gen_texture driver_name; store_texture_ID i name) w
  = Done tt
      (MkWorld (m_pShaderManager w)
         (<[Z.to_nat i := with_ID t (to_GLuint (driver_name (calls w)))]>
            (m_textureIDs w))
         (m_loadedTextures w) (m_objectMaterials w)
         (calls w ++ [glGenTextures (to_GLuint (driver_name (calls w)))])).
Proof.
  intros Hi Ht. pose proof (lookup_lt_Some _ _ _ Ht) as Hlt.
  destruct w as [sh l n ms cs]. cbn in Ht, Hlt.
  cbv beta iota zeta delta
    [gen_texture emit store_texture_ID texture_at set_textureIDs
     mbind M_bind mret M_ret bind ret gets modify fail
     m_pShaderManager m_textureIDs m_loadedTextures m_objectMaterials calls].
  rewrite Ht, in_bounds_true by lia. reflexivity.
Qed.

(** The loop of [DestroyGLTextures] from slot [i] on, [k] slots being
    left: the ids of these slots are replaced by new names, in order. *)
Lemma DestroyGLTextures_loop_exact (k : nat) :
  ∀ fuel i w,
    0 ≤ i →
    i + Z.of_nat k = m_loadedTextures w →
    m_loadedTextures w ≤ Z.of_nat (length (m_textureIDs w)) →
    (k < fuel)%nat →
    ∃ i' names,
      length names = k
      ∧ while fuel
          (λ i, n ← gets m_loadedTextures; mret (i <? n))
          (λ i, (name ← gen_texture driver_name; store_texture_ID i name);;
                mret (i + 1))
          i w
        = Done i'
            (MkWorld (m_pShaderManager w)
               (take (Z.to_nat i) (m_textureIDs w)
                ++ zip_with with_ID
                     (take k (drop (Z.to_nat i) (m_textureIDs w))) names
                ++ drop (Z.to_nat i + k) (m_textureIDs w))
               (m_loadedTextures w) (m_objectMaterials w)
               (calls w ++ (glGenTextures <$> names))).
Proof.
  induction k as [|k IH]; intros fuel i w Hi Hk Hn Hf.
  - destruct fuel as [|fuel]; [lia|]. rewrite while_S. munfold.
    replace (i <? m_loadedTextures w) with false
      by (symmetry; apply Z.ltb_ge; lia).
    exists i, []. split; [reflexivity|].
    destruct w as [sh l n ms cs]. cbn.
    rewrite Nat.add_0_r, app_nil_r, take_0. cbn [zip_with app].
    by rewrite take_drop.
  - destruct fuel as [|fuel]; [lia|]. rewrite while_S. munfold.
    replace (i <? m_loadedTextures w) with true
      by (symmetry; apply Z.ltb_lt; lia).
    destruct (lookup_lt_is_Some_2 (m_textureIDs w) (Z.to_nat i)) as [t Ht];
      [lia|].
    pose proof (DestroyGLTextures_step_exact i t w Hi Ht) as Hstep.
    unfold mbind, M_bind, bind in Hstep. rewrite Hstep.
    set (n0 := to_GLuint (driver_name (calls w))).
    set (w1 := MkWorld _ _ _ _ _).
    destruct (IH fuel (i + 1) w1) as (i' & names & Hlen & Hrun);
      try (subst w1; cbn; rewrite ?length_insert; lia).
    exists i', (n0 :: names). split; [cbn; lia|].
    etransitivity; [exact Hrun|]. subst w1.
    cbn [m_pShaderManager m_textureIDs m_loadedTextures m_objectMaterials
         calls].
    pose proof (lookup_lt_Some _ _ _ Ht) as Hlt.
    f_equal. f_equal.
    + replace (Z.to_nat (i + 1)) with (S (Z.to_nat i)) by lia.
      rewrite (take_S_r _ _ (with_ID t n0))
        by (by apply list_lookup_insert_eq).
      rewrite take_insert_ge by lia.
      rewrite !drop_insert_lt by lia.
      rewrite (drop_S _ t (Z.to_nat i)) by done.
      cbn [take zip_with]. rewrite <- app_assoc. cbn [app].
      do 4 f_equal. lia.
    + rewrite <- app_assoc. reflexivity.
Qed.

Lemma DestroyGLTextures_exact w :
  0 ≤ m_loadedTextures w ≤ Z.of_nat (length (m_textureIDs w)) →
  ∃ names,
    length names = Z.to_nat (m_loadedTextures w)
    ∧ DestroyGLTextures driver_name w
      = Done tt
          (MkWorld (m_pShaderManager w)
             (zip_with with_ID (slots w) names
              ++ drop (Z.to_nat (m_loadedTextures w)) (m_textureIDs w))
             (m_loadedTextures w) (m_objectMaterials w)
             (calls w ++ (glGenTextures <$> names))).
Proof.
  intros Hb.
  destruct (DestroyGLTextures_loop_exact (Z.to_nat (m_loadedTextures w))
              (S (Z.to_nat (m_loadedTextures w))) 0 w)
    as (i' & names & Hlen & Hrun); try lia.
  exists names. split; [done|].
  unfold DestroyGLTextures, for_loaded.
  rewrite (bind_Done _ _ w (m_loadedTextures w) w) by reflexivity.
  rewrite (bind_Done _ _ w i' _ Hrun). reflexivity.
Qed.

End TeardownNames.

(** X8: on a registry state, [DestroyGLTextures] returns after it has
    asked the driver for one new texture name per occupied slot and
    stored it over the id of that slot, in the order of the slots.  The
    tags, the count, the elements past the count, the materials and the
    shader manager are as before, and the names that were live are still
    live, together with the new ones. *)
Theorem DestroyGLTextures_replaces_every_id
    (driver_name : list call → Z) (w : World) :
  wf w →
  ∃ w' names,
    DestroyGLTextures driver_name w = Done tt w'
    ∧ length names = Z.to_nat (m_loadedTextures w)
    ∧ calls w' = calls w ++ (glGenTextures <$> names)
    ∧ slots w' = zip_with with_ID (slots w) names
    ∧ drop (Z.to_nat (m_loadedTextures w)) (m_textureIDs w')
      = drop (Z.to_nat (m_loadedTextures w)) (m_textureIDs w)
    ∧ m_loadedTextures w' = m_loadedTextures w
    ∧ m_objectMaterials w' = m_objectMaterials w
    ∧ m_pShaderManager w' = m_pShaderManager w
    ∧ live_textures (calls w') = live_textures (calls w) ++ names.
Proof.
  intros Hwf. pose proof (wf_bounds w Hwf) as Hb.
  destruct (DestroyGLTextures_exact driver_name w Hb) as (names & Hlen & Hrun).
  eexists _, names. split; [exact Hrun|].
  assert (Hz : length (zip_with with_ID (slots w) names)
               = Z.to_nat (m_loadedTextures w)).
  { rewrite length_zip_with, length_slots by done. lia. }
  cbn [calls m_textureIDs m_loadedTextures m_objectMaterials m_pShaderManager].
  repeat split; try done.
  - unfold slots at 1.
    cbn [m_textureIDs m_loadedTextures]. by rewrite take_app_length'.
  - by rewrite drop_app_length'.
  - unfold live_textures. apply live_textures_from_generated.
Qed.

Lemma DestroyGLTextures_replaces_every_id_witness :
  wf desk_world
  ∧ ∃ w' names,
      DestroyGLTextures counting_driver desk_world = Done tt w'
      ∧ length names = Z.to_nat (m_loadedTextures desk_world)
      ∧ calls w' = calls desk_world ++ (glGenTextures <$> names)
      ∧ slots w' = zip_with with_ID (slots desk_world) names
      ∧ drop (Z.to_nat (m_loadedTextures desk_world)) (m_textureIDs w')
        = drop (Z.to_nat (m_loadedTextures desk_world))
            (m_textureIDs desk_world)
      ∧ m_loadedTextures w' = m_loadedTextures desk_world
      ∧ m_objectMaterials w' = m_objectMaterials desk_world
      ∧ m_pShaderManager w' = m_pShaderManager desk_world
      ∧ live_textures (calls w') = live_textures (calls desk_world) ++ names.
Proof.
  split; [split; [reflexivity | vm_compute; split; congruence]|].
  apply (DestroyGLTextures_replaces_every_id counting_driver desk_world).
  split; [reflexivity | vm_compute; split; congruence].
Defined.

(** ** Running the scene-level methods *)

Lemma MS_bind_run {A B} (m : MS A) (k : A → MS B) log w :
  (m ≫= k) log w
  = match m log w with
    | Done (a, log') w' => k a log' w'
    | Fault f => Fault f
    end.
Proof.
  unfold mbind at 1, MS_bind. unfold mbind, M_bind, bind.
  destruct (m log w) as [[a log'] w'|]; reflexivity.
Qed.

Lemma lift_run {A} (m : M A) log w :
  lift m log w
  = match m w with
    | Done a w' => Done (a, log) w'
    | Fault f => Fault f
    end.
Proof. unfold lift. munfold. destruct (m w); reflexivity. Qed.

Lemma mesh_call_run c log w :
  mesh_call c log w = Done (tt, log ++ [(c, w)]) w.
Proof. reflexivity. Qed.

(** X9: on a registry state the destructor returns with the shader manager
    detached and the meshes deleted, and frees no texture: the count of
    loaded textures is as before, and the live texture names are those
    that were live followed by one new name per loaded texture. *)
Theorem SceneManager_destructor_frees_no_texture
    (driver_name : list call → Z) (log : mesh_log) (w : World) :
  wf w →
  ∃ w' names,
    SceneManager_destructor driver_name log w
    = Done (tt, log ++ [(delete_ShapeMeshes, set_pShaderManager None w)]) w'
    ∧ m_pShaderManager w' = None
    ∧ m_loadedTextures w' = m_loadedTextures w
    ∧ length names = Z.to_nat (m_loadedTextures w)
    ∧ live_textures (calls w') = live_textures (calls w) ++ names.
Proof.
  intros Hwf. pose proof (wf_bounds w Hwf) as Hb.
  destruct (DestroyGLTextures_exact driver_name (set_pShaderManager None w) Hb)
    as (names & Hlen & Hrun).
  eexists _, names. unfold SceneManager_destructor.
  rewrite MS_bind_run, lift_run. cbn [modify].
  rewrite MS_bind_run, mesh_call_run, lift_run, Hrun.
  split; [reflexivity|].
  cbn [calls m_textureIDs m_loadedTextures m_objectMaterials m_pShaderManager
       set_pShaderManager].
  repeat split; try done.
  unfold live_textures. apply live_textures_from_generated.
Qed.

Lemma SceneManager_destructor_frees_no_texture_witness :
  wf desk_world
  ∧ ∃ w' names,
      SceneManager_destructor counting_driver [] desk_world
      = Done (tt, [] ++ [(delete_ShapeMeshes,
                          set_pShaderManager None desk_world)]) w'
      ∧ m_pShaderManager w' = None
      ∧ m_loadedTextures w' = m_loadedTextures desk_world
      ∧ length names = Z.to_nat (m_loadedTextures desk_world)
      ∧ live_textures (calls w') = live_textures (calls desk_world) ++ names.
Proof.
  split; [split; [reflexivity | vm_compute; split; congruence]|].
  apply (SceneManager_destructor_frees_no_texture counting_driver []
           desk_world).
  split; [reflexivity | vm_compute; split; congruence].
Defined.

(** ** Registering and finding materials *)

Lemma first_material_snoc tag (l : list OBJECT_MATERIAL) x :
  first_material tag (l ++ [x])
  = match first_material tag l with
    | Some r => Some r
    | None => if decide (mat_tag x = tag) then Some (length l, x) else None
    end.
Proof.
  unfold first_material. induction l as [|t l IH]; cbn [app list_find length].
  - destruct (decide (mat_tag x = tag)); reflexivity.
  - destruct (decide (mat_tag t = tag)); [reflexivity|].
    rewrite IH. destruct (list_find _ l) as [[j u]|]; [reflexivity|].
    destruct (decide (mat_tag x = tag)); reflexivity.
Qed.

(** X10: a descriptor appended to the table is found by its tag when no
    descriptor registered before carries that tag, and then the three
    values returned are its own; when one does, the values returned are
    still those of the first such descriptor, before and after the
    registration.  In both cases the flag is true and the tag of the
    out-parameter is not written. *)
Theorem push_back_material_then_FindMaterial
    (d material : OBJECT_MATERIAL) (w : World) :
  ∃ found,
    (push_back_material d;; FindMaterial (mat_tag d) material) w
    = Done (true, found)
        (set_objectMaterials (m_objectMaterials w ++ [d]) w)
    ∧ mat_tag found = mat_tag material
    ∧ ((∀ m, m ∈ m_objectMaterials w → mat_tag m ≠ mat_tag d) →
       found = assign_material d material)
    ∧ (∀ j d0, first_material (mat_tag d) (m_objectMaterials w) = Some (j, d0) →
               found = assign_material d0 material
               ∧ FindMaterial (mat_tag d) material w
                 = Done (true, found) w).
Proof.
  exists (lookup_result (mat_tag d) (m_objectMaterials w ++ [d]) material).
  split.
  { rewrite (bind_Done _ _ w tt
               (set_objectMaterials (m_objectMaterials w ++ [d]) w))
      by reflexivity.
    rewrite FindMaterial_run. cbn [m_objectMaterials set_objectMaterials].
    rewrite decide_False by (by destruct (m_objectMaterials w)). done. }
  unfold lookup_result. rewrite first_material_snoc.
  destruct (first_material (mat_tag d) (m_objectMaterials w))
    as [[j d0]|] eqn:Hfind.
  - split; [reflexivity|]. split.
    + intros Hno. rewrite first_material_None in Hfind by done. discriminate.
    + intros j' d0' [= <- <-]. split; [reflexivity|].
      rewrite FindMaterial_run.
      rewrite decide_False
        by (intros He; rewrite He in Hfind; discriminate).
      unfold lookup_result. by rewrite Hfind.
  - rewrite decide_True by done. split; [reflexivity|]. split; [done|].
    intros j d0 [=].
Qed.

(** X11: [FindMaterial] returns on every world and leaves it as it is;
    the flag it returns is true exactly when the table is not empty,
    whether the tag is registered or not, and the tag of the
    out-parameter is never written. *)
Theorem FindMaterial_flag_and_tag
    (tag : string) (material : OBJECT_MATERIAL) (w : World) :
  ∃ flag found,
    FindMaterial tag material w = Done (flag, found) w
    ∧ (flag = true ↔ m_objectMaterials w ≠ [])
    ∧ mat_tag found = mat_tag material.
Proof.
  rewrite FindMaterial_run.
  destruct (decide (m_objectMaterials w = [])) as [He|He].
  - exists false, material. split; [done|]. split; [|done].
    split; [discriminate | done].
  - exists true, (lookup_result tag (m_objectMaterials w) material).
    split; [done|]. split; [done|].
    unfold lookup_result.
    destruct (first_material tag (m_objectMaterials w)) as [[j d]|]; done.
Qed.

(** ** Staging *)

Lemma SetShaderColor_stage r g b a sh w :
  m_pShaderManager w = Some sh →
  SetShaderColor r g b a w
  = Done tt (set_shader (stage_color (Vec4 r g b a) sh) w).
Proof. apply SetShaderColor_run. Qed.

Lemma SetTransformations_stage s rx ry rz p sh w :
  m_pShaderManager w = Some sh →
  SetTransformations s rx ry rz p w
  = Done tt (set_shader (stage_transform s rx ry rz p sh) w).
Proof. apply SetTransformations_run. Qed.

Lemma SetShaderTexture_stage tag sh w :
  m_pShaderManager w = Some sh →
  0 ≤ m_loadedTextures w ≤ Z.of_nat (length (m_textureIDs w)) →
  SetShaderTexture tag w
  = Done tt (set_shader (stage_texture (slot_of tag w) sh) w).
Proof. apply SetShaderTexture_run. Qed.

Lemma SetTextureUVScale_stage u v sh w :
  m_pShaderManager w = Some sh →
  SetTextureUVScale u v w = Done tt (set_shader (stage_uvscale u v sh) w).
Proof.
  intros H. unfold SetTextureUVScale. munfold. rewrite H.
  rewrite bool_decide_eq_true_2 by done.
  by rewrite (shader_call_run _ sh).
Qed.

Lemma SetShaderMaterial_stage tag stack sh w :
  m_pShaderManager w = Some sh →
  SetShaderMaterial tag stack w
  = Done tt (set_shader (stage_call w (CallMaterial tag stack) sh) w).
Proof.
  intros H. rewrite (SetShaderMaterial_run _ _ sh) by done.
  cbn [stage_call]. destruct (decide (m_objectMaterials w = [])); [|done].
  destruct w; cbn in *; by subst.
Qed.

Lemma run_staging_stage c sh w :
  m_pShaderManager w = Some sh →
  0 ≤ m_loadedTextures w ≤ Z.of_nat (length (m_textureIDs w)) →
  run_staging c w = Done tt (set_shader (stage_call w c sh) w).
Proof.
  intros H Hb. destruct c; cbn [run_staging stage_call].
  - by apply SetTransformations_stage.
  - by apply SetShaderColor_stage.
  - by apply SetShaderTexture_stage.
  - by apply SetTextureUVScale_stage.
  - by apply SetShaderMaterial_stage.
Qed.

Lemma slot_of_unregistered tag w :
  (∀ t, t ∈ slots w → tex_tag t ≠ tag) → slot_of tag w = -1.
Proof.
  intros H. unfold slot_of, search_result.
  by rewrite first_slot_unregistered.
Qed.

(** X12: with a shader manager attached, on a registry state,
    [SetShaderTexture] stages the flag "bUseTexture" as 1 and, as the
    sampler "objectTexture", what [FindTextureSlot] returns for the tag.
    For a tag that no occupied slot carries this is -1, and the flag is
    staged as 1 all the same.  No other uniform changes, nor the rest of
    the world. *)
Theorem SetShaderTexture_stages_slot_or_sentinel
    (tag : string) (sh : ShaderManager.t) (w : World) :
  m_pShaderManager w = Some sh →
  wf w →
  ∃ slot sh',
    FindTextureSlot tag w = Done slot w
    ∧ SetShaderTexture tag w = Done tt (set_shader sh' w)
    ∧ sh' !! g_UseTextureName = Some (IntValue 1)
    ∧ sh' !! g_TextureValueName = Some (Sampler2DValue slot)
    ∧ ((∀ t, t ∈ slots w → tex_tag t ≠ tag) → slot = -1)
    ∧ ∀ name, name ≠ g_UseTextureName → name ≠ g_TextureValueName →
              sh' !! name = sh !! name.
Proof.
  intros H Hwf. pose proof (wf_bounds w Hwf) as Hb.
  exists (slot_of tag w), (stage_texture (slot_of tag w) sh).
  split; [by apply FindTextureSlot_run|].
  split; [by apply SetShaderTexture_stage|].
  unfold stage_texture.
  split; [rewrite lookup_insert_ne by done; apply lookup_insert_eq|].
  split; [apply lookup_insert_eq|].
  split; [apply slot_of_unregistered|].
  intros name H1 H2. by rewrite !lookup_insert_ne.
Qed.

Lemma SetShaderTexture_stages_slot_or_sentinel_witness :
  m_pShaderManager desk_world = Some ∅
  ∧ ∃ slot sh',
      FindTextureSlot "ceramic" desk_world = Done slot desk_world
      ∧ SetShaderTexture "ceramic" desk_world
        = Done tt (set_shader sh' desk_world)
      ∧ sh' !! g_UseTextureName = Some (IntValue 1)
      ∧ sh' !! g_TextureValueName = Some (Sampler2DValue slot)
      ∧ ((∀ t, t ∈ slots desk_world → tex_tag t ≠ "ceramic") → slot = -1)
      ∧ ∀ name, name ≠ g_UseTextureName → name ≠ g_TextureValueName →
                sh' !! name = (∅ : ShaderManager.t) !! name.
Proof.
  split; [reflexivity|].
  apply (SetShaderTexture_stages_slot_or_sentinel "ceramic" ∅ desk_world).
  - reflexivity.
  - split; [reflexivity | vm_compute; split; congruence].
Defined.

(** X13: [SetShaderColor] and [SetShaderTexture] both write the flag
    "bUseTexture", and the call made last decides it: after a texture and
    then a color the flag is 0 while the sampler of the texture stays
    staged, after a color and then a texture the flag is 1 while the color
    stays staged. *)
Theorem SetShaderColor_SetShaderTexture_last_call_wins
    (tag : string) (r g b a : float) (sh : ShaderManager.t) (w : World) :
  m_pShaderManager w = Some sh →
  wf w →
  ∃ slot sh1 sh2,
    FindTextureSlot tag w = Done slot w
    ∧ (SetShaderTexture tag;; SetShaderColor r g b a) w
      = Done tt (set_shader sh1 w)
    ∧ sh1 !! g_UseTextureName = Some (IntValue 0)
    ∧ sh1 !! g_TextureValueName = Some (Sampler2DValue slot)
    ∧ sh1 !! g_ColorValueName = Some (Vec4Value (Vec4 r g b a))
    ∧ (SetShaderColor r g b a;; SetShaderTexture tag) w
      = Done tt (set_shader sh2 w)
    ∧ sh2 !! g_UseTextureName = Some (IntValue 1)
    ∧ sh2 !! g_TextureValueName = Some (Sampler2DValue slot)
    ∧ sh2 !! g_ColorValueName = Some (Vec4Value (Vec4 r g b a)).
Proof.
  intros H Hwf. pose proof (wf_bounds w Hwf) as Hb.
  exists (slot_of tag w),
    (stage_color (Vec4 r g b a) (stage_texture (slot_of tag w) sh)),
    (stage_texture (slot_of tag w) (stage_color (Vec4 r g b a) sh)).
  split; [by apply FindTextureSlot_run|].
  split.
  { rewrite (bind_Done _ _ w tt _ (SetShaderTexture_stage tag sh w H Hb)).
    by rewrite (SetShaderColor_stage _ _ _ _ _ (set_shader _ w) eq_refl). }
  unfold stage_color, stage_texture.
  split; [rewrite lookup_insert_ne by done; apply lookup_insert_eq|].
  split; [rewrite !lookup_insert_ne by done; apply lookup_insert_eq|].
  split; [apply lookup_insert_eq|].
  split.
  { rewrite (bind_Done _ _ w tt _ (SetShaderColor_stage r g b a sh w H)).
    by rewrite (SetShaderTexture_stage _ _ (set_shader _ w) eq_refl Hb). }
  split; [rewrite lookup_insert_ne by done; apply lookup_insert_eq|].
  split; [apply lookup_insert_eq|].
  rewrite !lookup_insert_ne by done. apply lookup_insert_eq.
Qed.

Lemma SetShaderColor_SetShaderTexture_last_call_wins_witness :
  m_pShaderManager desk_world = Some ∅
  ∧ ∃ slot sh1 sh2,
      FindTextureSlot "desk" desk_world = Done slot desk_world
      ∧ (SetShaderTexture "desk";; SetShaderColor 1 0 0 1) desk_world
        = Done tt (set_shader sh1 desk_world)
      ∧ sh1 !! g_UseTextureName = Some (IntValue 0)
      ∧ sh1 !! g_TextureValueName = Some (Sampler2DValue slot)
      ∧ sh1 !! g_ColorValueName = Some (Vec4Value (Vec4 1 0 0 1))
      ∧ (SetShaderColor 1 0 0 1;; SetShaderTexture "desk") desk_world
        = Done tt (set_shader sh2 desk_world)
      ∧ sh2 !! g_UseTextureName = Some (IntValue 1)
      ∧ sh2 !! g_TextureValueName = Some (Sampler2DValue slot)
      ∧ sh2 !! g_ColorValueName = Some (Vec4Value (Vec4 1 0 0 1)).
Proof.
  split; [reflexivity|].
  apply (SetShaderColor_SetShaderTexture_last_call_wins "desk" 1 0 0 1 ∅
           desk_world).
  - reflexivity.
  - split; [reflexivity | vm_compute; split; congruence].
Defined.

(** ** Sequences of writes *)

Lemma lookup_stage_all k l :
  ∀ sh : ShaderManager.t,
    stage_all l sh !! k
    = match last_write k l with
      | Some v => Some v
      | None => sh !! k
      end.
Proof.
  unfold stage_all.
  induction l as [|[k' v] l IH]; intros sh; [reflexivity|].
  cbn [foldl last_write fst snd]. rewrite IH.
  destruct (last_write k l); [reflexivity|].
  destruct (decide (k' = k)) as [->|Hne].
  - apply lookup_insert_eq.
  - by apply lookup_insert_ne.
Qed.

Lemma last_write_None k (l : list (string * uniform)) :
  k ∉ l.*1 → last_write k l = None.
Proof.
  induction l as [|[k' v] l IH]; intros Hk; [reflexivity|].
  cbn [last_write]. cbn in Hk. apply not_elem_of_cons in Hk as [Hne Hk].
  rewrite IH by done. by rewrite decide_False.
Qed.




Lemma stage_call_writes w c sh :
  stage_call w c sh = stage_all (staging_writes w c) sh.
Proof.
  destruct c; cbn [stage_call staging_writes]; try reflexivity.
  destruct (decide (m_objectMaterials w = [])); reflexivity.
Qed.

Lemma staging_writes_keys w c k :
  k ∈ (staging_writes w c).*1 → k ∈ per_object_keys.
Proof.
  unfold per_object_keys.
  destruct c; cbn [staging_writes];
    try destruct (decide (m_objectMaterials w = []));
    cbn; intros Hk;
    repeat (apply elem_of_cons in Hk as [-> | Hk];
            [repeat (first [by left | right])|]);
    by apply elem_of_nil in Hk.
Qed.

Lemma set_shader_id sh w : m_pShaderManager w = Some sh → set_shader sh w = w.
Proof. intros H. destruct w; cbn in *; by subst. Qed.

Lemma run_stagings_stage cs w :
  0 ≤ m_loadedTextures w ≤ Z.of_nat (length (m_textureIDs w)) →
  ∀ sh,
    run_stagings cs (set_shader sh w)
    = Done tt (set_shader (foldl (λ sh c, stage_call w c sh) sh cs) w).
Proof.
  intros Hb. induction cs as [|c cs IH]; intros sh; [reflexivity|].
  cbn [run_stagings foldl].
  rewrite (bind_Done _ _ _ tt _
             (run_staging_stage c sh (set_shader sh w) eq_refl Hb)).
  apply IH.
Qed.

Lemma foldl_stage_call_frame w cs k :
  k ∉ per_object_keys →
  ∀ sh, foldl (λ sh c, stage_call w c sh) sh cs !! k = sh !! k.
Proof.
  intros Hk. induction cs as [|c cs IH]; intros sh; [reflexivity|].
  cbn [foldl]. rewrite IH, stage_call_writes, lookup_stage_all.
  rewrite last_write_None; [done|].
  intros Hin. apply Hk. by apply (staging_writes_keys w c).
Qed.

Lemma stage_call_set_shader s w c sh :
  stage_call (set_shader s w) c sh = stage_call w c sh.
Proof. destruct c; reflexivity. Qed.

(** X14: any sequence of calls of the five staging methods, made with a
    shader manager attached on a registry state, returns; it changes
    nothing of the world but uniforms, and no uniform other than the nine
    per-object ones: "model", "normal", "objectColor", "bUseTexture",
    "objectTexture", "UVscale" and the three of "material". *)
Theorem staging_calls_write_per_object_uniforms_only
    (cs : list staging_call) (sh : ShaderManager.t) (w : World) :
  m_pShaderManager w = Some sh →
  wf w →
  ∃ sh',
    run_stagings cs w = Done tt (set_shader sh' w)
    ∧ ∀ name, name ∉ per_object_keys → sh' !! name = sh !! name.
Proof.
  intros H Hwf. pose proof (wf_bounds w Hwf) as Hb.
  exists (foldl (λ sh c, stage_call w c sh) sh cs). split.
  - rewrite <- (set_shader_id sh w H) at 1. by apply run_stagings_stage.
  - intros name Hname. by apply foldl_stage_call_frame.
Qed.

Lemma staging_calls_write_per_object_uniforms_only_witness :
  m_pShaderManager desk_world = Some ∅
  ∧ ∃ sh',
      run_stagings
        [CallColor 1 1 1 1; CallMaterial "marble" zero_material;
         CallTexture "desk"; CallUVScale 2 2] desk_world
      = Done tt (set_shader sh' desk_world)
      ∧ ∀ name, name ∉ per_object_keys →
                sh' !! name = (∅ : ShaderManager.t) !! name.
Proof.
  split; [reflexivity|].
  apply (staging_calls_write_per_object_uniforms_only
           [CallColor 1 1 1 1; CallMaterial "marble" zero_material;
            CallTexture "desk"; CallUVScale 2 2] ∅ desk_world).
  - reflexivity.
  - split; [reflexivity | vm_compute; split; congruence].
Defined.



(** ** Without a shader manager *)

Lemma bind_Fault {A B} (m : M A) (k : A → M B) w f :
  m w = Fault f → (m ≫= k) w = Fault f.
Proof. intros H. unfold mbind, M_bind, bind. by rewrite H. Qed.

Lemma SetupSceneLights_null w :
  m_pShaderManager w = None → SetupSceneLights w = Fault NullPointer.
Proof.
  intros H. unfold SetupSceneLights.
  apply bind_Fault. by apply shader_call_null.
Qed.

Lemma DefineObjectMaterials_run w :
  DefineObjectMaterials w
  = Done tt (set_objectMaterials (m_objectMaterials w ++ scene_materials) w).
Proof.
  destruct w as [sh l n ms cs].
  cbv beta iota zeta delta
    [DefineObjectMaterials push_back_material set_objectMaterials
     mbind M_bind mret M_ret bind ret gets modify fail
     m_pShaderManager m_textureIDs m_loadedTextures m_objectMaterials calls].
  rewrite <- !app_assoc. reflexivity.
Qed.

Lemma SetShaderMaterial_null tag stack w :
  m_pShaderManager w = None →
  m_objectMaterials w ≠ [] →
  SetShaderMaterial tag stack w = Fault NullPointer.
Proof.
  intros H Hne. unfold SetShaderMaterial. munfold.
  destruct (m_objectMaterials w) as [|m0 ms] eqn:El; [done|].
  replace (0 <? Z.of_nat (length (m0 :: ms))) with true
    by (symmetry; apply Z.ltb_lt; cbn [length]; lia).
  rewrite FindMaterial_run, El. rewrite decide_False by done.
  rewrite bool_decide_eq_true_2 by done.
  by rewrite shader_call_null.
Qed.

(** X16: with a null shader manager the four staging methods that test
    the pointer return and leave the world as it is.  [SetShaderMaterial]
    does not test it: it returns when the material table is empty and
    calls through the null pointer otherwise, as [SetupSceneLights] always
    does, and [PrepareScene] with it, after the materials are defined. *)
Theorem null_shader_manager_is_guarded_in_four_methods (w : World) :
  m_pShaderManager w = None →
  (∀ s rx ry rz p, SetTransformations s rx ry rz p w = Done tt w)
  ∧ (∀ r g b a, SetShaderColor r g b a w = Done tt w)
  ∧ (∀ tag, SetShaderTexture tag w = Done tt w)
  ∧ (∀ u v, SetTextureUVScale u v w = Done tt w)
  ∧ (∀ tag stack,
       SetShaderMaterial tag stack w
       = if decide (m_objectMaterials w = []) then Done tt w
         else Fault NullPointer)
  ∧ SetupSceneLights w = Fault NullPointer
  ∧ (∀ stbi_load driver_name log,
       PrepareScene stbi_load driver_name log w = Fault NullPointer).
Proof.
  intros H.
  split; [intros; by apply SetTransformations_null|].
  split; [intros; by apply SetShaderColor_null|].
  split; [intros; unfold SetShaderTexture; munfold; by rewrite H|].
  split; [intros; unfold SetTextureUVScale; munfold; by rewrite H|].
  split.
  { intros tag stack. destruct (decide (m_objectMaterials w = [])) as [He|He].
    - unfold SetShaderMaterial. munfold. by rewrite He.
    - by apply SetShaderMaterial_null. }
  split; [by apply SetupSceneLights_null|].
  intros stbi_load driver_name log. unfold PrepareScene.
  rewrite MS_bind_run, lift_run, DefineObjectMaterials_run.
  rewrite MS_bind_run, lift_run, SetupSceneLights_null by done.
  reflexivity.
Qed.

Lemma null_shader_manager_is_guarded_in_four_methods_witness :
  m_pShaderManager (SceneManager None) = None
  ∧ (∀ s rx ry rz p,
       SetTransformations s rx ry rz p (SceneManager None)
       = Done tt (SceneManager None))
  ∧ (∀ r g b a,
       SetShaderColor r g b a (SceneManager None) = Done tt (SceneManager None))
  ∧ (∀ tag, SetShaderTexture tag (SceneManager None)
            = Done tt (SceneManager None))
  ∧ (∀ u v, SetTextureUVScale u v (SceneManager None)
            = Done tt (SceneManager None))
  ∧ (∀ tag stack,
       SetShaderMaterial tag stack (SceneManager None)
       = if decide (m_objectMaterials (SceneManager None) = [])
         then Done tt (SceneManager None)
         else Fault NullPointer)
  ∧ SetupSceneLights (SceneManager None) = Fault NullPointer
  ∧ (∀ stbi_load driver_name log,
       PrepareScene stbi_load driver_name log (SceneManager None)
       = Fault NullPointer).
Proof.
  split; [reflexivity|].
  apply (null_shader_manager_is_guarded_in_four_methods (SceneManager None)).
  reflexivity.
Defined.

(** ** The lights *)

Lemma SetupSceneLights_stage sh w :
  m_pShaderManager w = Some sh →
  SetupSceneLights w = Done tt (set_shader (stage_all light_uniforms sh) w).
Proof.
  intros H. destruct w as [p l n ms cs]. cbn in H. subst p. reflexivity.
Qed.

Lemma light_uniforms_last_write k v :
  (k, v) ∈ light_uniforms → last_write k light_uniforms = Some v.
Proof.
  intros Hin. unfold light_uniforms in Hin.
  repeat (apply elem_of_cons in Hin as [[= -> ->] | Hin]; [reflexivity|]).
  by apply elem_of_nil in Hin.
Qed.

Lemma light_uniforms_not_per_object k v :
  (k, v) ∈ light_uniforms → k ∉ per_object_keys.
Proof.
  intros Hin. unfold light_uniforms in Hin.
  repeat (apply elem_of_cons in Hin as [[= -> ->] | Hin];
          [intros Hk;
           repeat (apply elem_of_cons in Hk as [Hk | Hk]; [discriminate|]);
           by apply elem_of_nil in Hk|]).
  by apply elem_of_nil in Hin.
Qed.

(** X17: with a shader manager attached, [SetupSceneLights] returns with
    each uniform it names staged as written in the source (none is
    written twice), lighting switched on and the directional light and the
    point lights 0 and 1 active; it writes none of the per-object
    uniforms.  Whatever sequence of staging calls follows on a registry
    state, every light uniform still holds that value. *)
Theorem SetupSceneLights_survives_staging
    (cs : list staging_call) (sh : ShaderManager.t) (w : World) :
  m_pShaderManager w = Some sh →
  wf w →
  ∃ sh1 sh2,
    SetupSceneLights w = Done tt (set_shader sh1 w)
    ∧ (∀ name, name ∈ per_object_keys → sh1 !! name = sh !! name)
    ∧ (SetupSceneLights;; run_stagings cs) w = Done tt (set_shader sh2 w)
    ∧ ∀ name v, (name, v) ∈ light_uniforms →
                sh1 !! name = Some v ∧ sh2 !! name = Some v.
Proof.
  intros H Hwf. pose proof (wf_bounds w Hwf) as Hb.
  exists (stage_all light_uniforms sh),
    (foldl (λ sh c, stage_call w c sh) (stage_all light_uniforms sh) cs).
  split; [by apply SetupSceneLights_stage|].
  split.
  { intros name Hname. rewrite lookup_stage_all.
    destruct (last_write name light_uniforms) as [v|] eqn:Hl; [|done].
    exfalso.
    assert (Hin : name ∈ light_uniforms.*1).
    { destruct (decide (name ∈ light_uniforms.*1)) as [|Hn]; [done|].
      rewrite last_write_None in Hl by done. discriminate. }
    apply list_elem_of_fmap in Hin as ([k v'] & -> & Hin).
    by apply (light_uniforms_not_per_object k v'). }
  split.
  { rewrite (bind_Done _ _ w tt _ (SetupSceneLights_stage sh w H)).
    by apply run_stagings_stage. }
  intros name v Hin.
  assert (Hv : stage_all light_uniforms sh !! name = Some v).
  { rewrite lookup_stage_all. by rewrite (light_uniforms_last_write name v). }
  split; [done|].
  rewrite foldl_stage_call_frame; [done|].
  by apply (light_uniforms_not_per_object name v).
Qed.

Lemma SetupSceneLights_survives_staging_witness :
  m_pShaderManager desk_world = Some ∅
  ∧ ∃ sh1 sh2,
      SetupSceneLights desk_world = Done tt (set_shader sh1 desk_world)
      ∧ (∀ name, name ∈ per_object_keys →
                 sh1 !! name = (∅ : ShaderManager.t) !! name)
      ∧ (SetupSceneLights;;
         run_stagings [CallColor 1 1 1 1; CallTexture "desk"]) desk_world
        = Done tt (set_shader sh2 desk_world)
      ∧ ∀ name v, (name, v) ∈ light_uniforms →
                  sh1 !! name = Some v ∧ sh2 !! name = Some v.
Proof.
  split; [reflexivity|].
  apply (SetupSceneLights_survives_staging
           [CallColor 1 1 1 1; CallTexture "desk"] ∅ desk_world).
  - reflexivity.
  - split; [reflexivity | vm_compute; split; congruence].
Defined.

(** ** Preparing the scene *)

Lemma LoadSceneTextures_load_then stbi_load driver_name :
  LoadSceneTextures stbi_load driver_name
  = load_then stbi_load driver_name scene_textures BindGLTextures.
Proof. reflexivity. Qed.

Section Loads.
Variable stbi_load : string → option Image.
Variable driver_name : list call → Z.

Lemma decodes_true filename :
  decodes stbi_load filename = true
  ↔ ∃ image, stbi_load filename = Some image
             ∧ (img_channels image = 3 ∨ img_channels image = 4).
Proof.
  unfold decodes. destruct (stbi_load filename) as [image|]; split.
  - intros H. apply bool_decide_eq_true in H. by exists image.
  - intros (im & [= <-] & H). by apply bool_decide_eq_true.
  - discriminate.
  - intros (im & [=] & _).
Qed.

(** One load on a registry state with a free slot. *)
Lemma CreateGLTexture_free_slot filename tag w :
  wf w → m_loadedTextures w < 16 →
  ∃ w',
    CreateGLTexture stbi_load driver_name filename tag w
    = Done (decodes stbi_load filename) w'
    ∧ wf w'
    ∧ m_loadedTextures w'
      = m_loadedTextures w + Z.b2z (decodes stbi_load filename)
    ∧ tex_tag <$> slots w'
      = (tex_tag <$> slots w)
        ++ (if decodes stbi_load filename then [tag] else [])
    ∧ m_objectMaterials w' = m_objectMaterials w
    ∧ m_pShaderManager w' = m_pShaderManager w.
Proof.
  intros Hwf Hlt. pose proof (wf_bounds w Hwf) as Hb.
  pose proof Hwf as [Hlen Hn].
  destruct (CreateGLTexture_cases stbi_load driver_name filename tag w Hb)
    as [(Hl & Hr) | [(im & Hl & H3 & H4 & Hr) | [(im & Hl & Hch & _ & Hr)
       | (im & Hl & Hch & Hfull & Hr)]]]; [| | |lia].
  - eexists. unfold decodes. rewrite Hl. split; [exact Hr|].
    repeat split; try apply Hwf; cbn; rewrite ?app_nil_r; (done || lia).
  - eexists. unfold decodes. rewrite Hl.
    rewrite bool_decide_eq_false_2 by (intros [?|?]; done).
    split; [exact Hr|].
    repeat split; try apply Hwf; cbn; rewrite ?app_nil_r; (done || lia).
  - eexists. unfold decodes. rewrite Hl.
    rewrite bool_decide_eq_true_2 by done.
    split; [exact Hr|].
    split; [by apply loaded_wf|].
    split; [reflexivity|].
    split; [|done]. rewrite slots_loaded by lia. by rewrite fmap_app.
Qed.

(** The loads of the files [l] on a registry state with room for all of
    them: each returns, and the files that decode occupy the next slots in
    order. *)
Lemma load_then_fits {A} (k : M A) (l : list (string * string)) :
  ∀ w,
    wf w →
    m_loadedTextures w + Z.of_nat (length l) ≤ 16 →
    ∃ w',
      load_then stbi_load driver_name l k w = k w'
      ∧ wf w'
      ∧ m_loadedTextures w'
        = m_loadedTextures w
          + Z.of_nat (length (filter (λ ft, decodes stbi_load ft.1 = true) l))
      ∧ tex_tag <$> slots w'
        = (tex_tag <$> slots w)
          ++ (filter (λ ft, decodes stbi_load ft.1 = true) l).*2
      ∧ m_objectMaterials w' = m_objectMaterials w
      ∧ m_pShaderManager w' = m_pShaderManager w.
Proof.
  induction l as [|[filename tag] l IH]; intros w Hwf Hroom.
  - exists w. cbn. rewrite app_nil_r. repeat split; try apply Hwf; (done || lia).
  - cbn [length] in Hroom.
    destruct (CreateGLTexture_free_slot filename tag w Hwf)
      as (w1 & Hrun & Hwf1 & Hcount1 & Htags1 & Hm1 & Hs1); [lia|].
    destruct (IH w1 Hwf1) as (w' & Hrun' & Hwf' & Hcount' & Htags' & Hm' & Hs').
    { rewrite Hcount1. destruct (decodes stbi_load filename); cbn; lia. }
    exists w'. cbn [load_then].
    rewrite (bind_Done _ _ w _ w1 Hrun).
    split; [exact Hrun'|]. split; [done|].
    rewrite filter_cons. cbn [fst].
    destruct (decodes stbi_load filename) eqn:Hd.
    + rewrite decide_True by done. cbn [length fmap list_fmap snd].
      rewrite Hcount', Hcount1, Htags', Htags1, Hm', Hm1, Hs', Hs1.
      rewrite <- app_assoc. cbn. repeat split; try done. lia.
    + rewrite decide_False by done.
      rewrite Hcount', Hcount1, Htags', Htags1, Hm', Hm1, Hs', Hs1.
      rewrite app_nil_r. cbn. repeat split; try done. lia.
Qed.

(** The loads of files that all decode, more of them than there are free
    slots: the load that finds no free slot stores past the array. *)
Lemma load_then_overruns {A} (k : M A) (l : list (string * string)) :
  ∀ w,
    wf w →
    (∀ ft, ft ∈ l → decodes stbi_load ft.1 = true) →
    16 < m_loadedTextures w + Z.of_nat (length l) →
    load_then stbi_load driver_name l k w = Fault (OutOfBounds 16).
Proof.
  induction l as [|[filename tag] l IH]; intros w Hwf Hall Hmore.
  - destruct Hwf as [_ Hn]. cbn in Hmore. lia.
  - cbn [load_then].
    assert (Hd : decodes stbi_load filename = true)
      by (apply (Hall (filename, tag)); by left).
    destruct (decide (m_loadedTextures w = 16)) as [Hfull|Hfree].
    + apply decodes_true in Hd as (im & Hl & Hch).
      apply bind_Fault. rewrite <- Hfull.
      apply (CreateGLTexture_full _ _ _ _ im); try done.
      destruct Hwf as [-> _]. lia.
    + destruct Hwf as [Hlen Hn].
      destruct (CreateGLTexture_free_slot filename tag w (conj Hlen Hn))
        as (w1 & Hrun & Hwf1 & Hcount1 & _); [lia|].
      rewrite (bind_Done _ _ w _ w1 Hrun).
      apply IH; [done | |].
      * intros ft Hft. apply Hall. by right.
      * rewrite Hcount1, Hd. cbn [length] in Hmore. cbn. lia.
Qed.

End Loads.

Lemma LoadSceneTextures_run stbi_load driver_name w :
  wf w → m_loadedTextures w ≤ 4 →
  ∃ w',
    LoadSceneTextures stbi_load driver_name w = Done tt w'
    ∧ wf w'
    ∧ tex_tag <$> slots w'
      = (tex_tag <$> slots w)
        ++ (filter (λ ft, decodes stbi_load ft.1 = true) scene_textures).*2
    ∧ m_objectMaterials w' = m_objectMaterials w
    ∧ m_pShaderManager w' = m_pShaderManager w.
Proof.
  intros Hwf Hroom. rewrite LoadSceneTextures_load_then.
  destruct (load_then_fits stbi_load driver_name BindGLTextures
              scene_textures w Hwf)
    as (w1 & Hrun & Hwf1 & _ & Htags & Hm & Hs); [cbn; lia|].
  exists (add_calls (bind_calls 0 (slots w1)) w1).
  split; [rewrite Hrun; apply BindGLTextures_run; by apply wf_bounds|].
  split; [exact Hwf1|]. done.
Qed.

(** [PrepareScene] returns when its call of [LoadSceneTextures] does. *)
Lemma PrepareScene_steps stbi_load driver_name sh log w w' :
  m_pShaderManager w = Some sh →
  LoadSceneTextures stbi_load driver_name
    (set_shader (stage_all light_uniforms sh)
       (set_objectMaterials (m_objectMaterials w ++ scene_materials) w))
  = Done tt w' →
  PrepareScene stbi_load driver_name log w
  = Done (tt, log ++ ((λ c, (c, w')) <$> scene_mesh_loads)) w'.
Proof.
  intros Hsh Hrun.
  set (w1 := set_objectMaterials (m_objectMaterials w ++ scene_materials) w)
    in *.
  unfold PrepareScene.
  rewrite MS_bind_run, lift_run, DefineObjectMaterials_run. fold w1.
  rewrite MS_bind_run, lift_run, (SetupSceneLights_stage sh w1 Hsh).
  rewrite MS_bind_run, lift_run, Hrun.
  rewrite MS_bind_run, mesh_call_run.
  do 3 (etransitivity; [apply MS_bind_run|]; rewrite mesh_call_run).
  rewrite mesh_call_run. cbn [scene_mesh_loads fmap list_fmap].
  rewrite <- !app_assoc. reflexivity.
Qed.

(** X18: [PrepareScene] on a registry state with at most four textures
    loaded and a shader manager attached returns, whatever the files hold
    and whatever names the driver gives: the files that decode are
    registered in the order of the source, the seven materials are appended,
    the light uniforms are staged, and the five meshes are loaded last. *)
Theorem PrepareScene_fits_the_registry
    (stbi_load : string → option Image) (driver_name : list call → Z)
    (sh : ShaderManager.t) (log : mesh_log) (w : World) :
  wf w →
  m_loadedTextures w ≤ 4 →
  m_pShaderManager w = Some sh →
  ∃ w',
    PrepareScene stbi_load driver_name log w
    = Done (tt, log ++ ((λ c, (c, w')) <$> scene_mesh_loads)) w'
    ∧ wf w'
    ∧ tex_tag <$> slots w'
      = (tex_tag <$> slots w)
        ++ (filter (λ ft, decodes stbi_load ft.1 = true) scene_textures).*2
    ∧ m_objectMaterials w' = m_objectMaterials w ++ scene_materials
    ∧ m_pShaderManager w' = Some (stage_all light_uniforms sh).
Proof.
  intros Hwf Hroom Hsh.
  set (w1 := set_objectMaterials (m_objectMaterials w ++ scene_materials) w).
  set (w2 := set_shader (stage_all light_uniforms sh) w1).
  destruct (LoadSceneTextures_run stbi_load driver_name w2)
    as (w' & Hrun & Hwf' & Htags & Hm & Hs); [done | done |].
  exists w'. split; [|done].
  by apply (PrepareScene_steps _ _ sh).
Qed.

Lemma PrepareScene_fits_the_registry_witness :
  wf empty_world
  ∧ m_loadedTextures empty_world ≤ 4
  ∧ m_pShaderManager empty_world = Some ∅
  ∧ ∃ w',
      PrepareScene sample_stbi_load counting_driver [] empty_world
      = Done (tt, [] ++ ((λ c, (c, w')) <$> scene_mesh_loads)) w'
      ∧ wf w'
      ∧ tex_tag <$> slots w'
        = (tex_tag <$> slots empty_world)
          ++ (filter (λ ft, decodes sample_stbi_load ft.1 = true)
                scene_textures).*2
      ∧ m_objectMaterials w' = m_objectMaterials empty_world ++ scene_materials
      ∧ m_pShaderManager w' = Some (stage_all light_uniforms ∅).
Proof.
  assert (Hwf : wf empty_world) by (split; [reflexivity | vm_compute; split; congruence]).
  assert (Hroom : m_loadedTextures empty_world ≤ 4) by (vm_compute; congruence).
  repeat split; try apply Hwf; try exact Hroom.
  apply (PrepareScene_fits_the_registry sample_stbi_load counting_driver ∅ []
           empty_world Hwf Hroom eq_refl).
Defined.

(** X19: when every texture file of the scene decodes, [LoadSceneTextures]
    returns exactly on the registry states with at most four textures
    loaded; with more, one of its loads stores past the sixteenth slot.
    Loading the scene a second time therefore overruns the array. *)
Theorem LoadSceneTextures_overruns_iff_no_room
    (stbi_load : string → option Image) (driver_name : list call → Z)
    (w : World) :
  wf w →
  (∀ ft, ft ∈ scene_textures → decodes stbi_load ft.1 = true) →
  (4 < m_loadedTextures w
   → LoadSceneTextures stbi_load driver_name w = Fault (OutOfBounds 16))
  ∧ (m_loadedTextures w ≤ 4
     → ∃ w',
         LoadSceneTextures stbi_load driver_name w = Done tt w'
         ∧ wf w'
         ∧ m_loadedTextures w' = m_loadedTextures w + 12
         ∧ LoadSceneTextures stbi_load driver_name w'
           = Fault (OutOfBounds 16)).
Proof.
  intros Hwf Hall.
  assert (Hover : ∀ w0, wf w0 → 4 < m_loadedTextures w0 →
            LoadSceneTextures stbi_load driver_name w0 = Fault (OutOfBounds 16)).
  { intros w0 Hwf0 Hmore. rewrite LoadSceneTextures_load_then.
    apply load_then_overruns; [done | done | cbn; lia]. }
  split; [by apply Hover|].
  intros Hroom. rewrite LoadSceneTextures_load_then.
  destruct (load_then_fits stbi_load driver_name BindGLTextures
              scene_textures w Hwf)
    as (w1 & Hrun & Hwf1 & Hcount & _); [cbn; lia|].
  exists (add_calls (bind_calls 0 (slots w1)) w1).
  split; [rewrite Hrun; apply BindGLTextures_run; by apply wf_bounds|].
  split; [exact Hwf1|].
  assert (Hf : filter (λ ft, decodes stbi_load ft.1 = true) scene_textures
               = scene_textures).
  { clear -Hall. induction scene_textures as [|ft l IH]; [done|].
    rewrite filter_cons, decide_True by (apply Hall; by left).
    f_equal. apply IH. intros ft' Hft'. apply Hall. by right. }
  split.
  - cbn [add_calls m_loadedTextures]. rewrite Hcount, Hf. reflexivity.
  - rewrite <- LoadSceneTextures_load_then. apply Hover; [done|].
    cbn [add_calls m_loadedTextures]. rewrite Hcount, Hf.
    destruct Hwf as [_ Hn]. cbn. lia.
Qed.

Lemma LoadSceneTextures_overruns_iff_no_room_witness :
  wf empty_world
  ∧ (∀ ft, ft ∈ scene_textures → decodes sample_stbi_load ft.1 = true)
  ∧ (4 < m_loadedTextures empty_world
     → LoadSceneTextures sample_stbi_load counting_driver empty_world
       = Fault (OutOfBounds 16))
  ∧ (m_loadedTextures empty_world ≤ 4
     → ∃ w',
         LoadSceneTextures sample_stbi_load counting_driver empty_world
         = Done tt w'
         ∧ wf w'
         ∧ m_loadedTextures w' = m_loadedTextures empty_world + 12
         ∧ LoadSceneTextures sample_stbi_load counting_driver w'
           = Fault (OutOfBounds 16)).
Proof.
  assert (Hwf : wf empty_world)
    by (split; [reflexivity | vm_compute; split; congruence]).
  assert (Hall : ∀ ft, ft ∈ scene_textures
                       → decodes sample_stbi_load ft.1 = true).
  { intros ft Hft. unfold scene_textures in Hft.
    repeat (apply elem_of_cons in Hft as [-> | Hft]; [vm_compute; reflexivity|]).
    by apply elem_of_nil in Hft. }
  split; [exact Hwf|]. split; [exact Hall|].
  apply (LoadSceneTextures_overruns_iff_no_room sample_stbi_load
           counting_driver empty_world Hwf Hall).
Defined.

(** ** Rendering the scene *)

Lemma RenderScene_blocks stack :
  RenderScene stack = render_blocks (scene_blocks stack).
Proof. reflexivity. Qed.

Section Frame.
Variable w : World.
Hypothesis Hbounds : 0 ≤ m_loadedTextures w ≤ Z.of_nat (length (m_textureIDs w)).

Lemma run_ops_run cs (k : MS unit) :
  ∀ sh log,
    run_ops cs k log (set_shader sh w)
    = k log (set_shader (foldl (λ sh c, stage_call w c sh) sh cs) w).
Proof.
  induction cs as [|c cs IH]; intros sh log; [reflexivity|].
  cbn [run_ops foldl].
  rewrite MS_bind_run, lift_run.
  rewrite (run_staging_stage c sh (set_shader sh w) eq_refl Hbounds).
  rewrite stage_call_set_shader, set_shader_set_shader. apply IH.
Qed.

(** The draws of a frame as the record has them. *)
Lemma render_blocks_run bs :
  ∀ sh log,
    render_blocks bs log (set_shader sh w)
    = Done (tt, log ++ ((λ ds, (ds.1, set_shader ds.2 w)) <$> (frame w bs sh).1))
        (set_shader (frame w bs sh).2 w).
Proof.
  induction bs as [|b bs IH]; intros sh log.
  - cbn. by rewrite app_nil_r.
  - cbn [render_blocks frame]. rewrite run_ops_run. fold (stage_block w b sh).
    destruct bs as [|b' bs].
    + cbn [frame fst snd fmap list_fmap]. apply mesh_call_run.
    + rewrite MS_bind_run, mesh_call_run, IH.
      destruct (frame w (b' :: bs) (stage_block w b sh)) as [draws final].
      cbn [fst snd fmap list_fmap]. by rewrite <- app_assoc.
Qed.

Lemma frame_draws bs : ∀ sh, (frame w bs sh).1.*1 = b_draw <$> bs.
Proof.
  induction bs as [|b bs IH]; intros sh; [reflexivity|].
  cbn [frame]. specialize (IH (stage_block w b sh)).
  destruct (frame w bs (stage_block w b sh)) as [draws final].
  cbn in *. by rewrite IH.
Qed.

Lemma frame_lookup bs :
  ∀ sh i b,
    bs !! i = Some b →
    ∃ sh0, (frame w bs sh).1 !! i = Some (b_draw b, stage_block w b sh0).
Proof.
  induction bs as [|b0 bs IH]; intros sh i b Hb; [done|].
  cbn [frame]. specialize (IH (stage_block w b0 sh)).
  destruct (frame w bs (stage_block w b0 sh)) as [draws final].
  destruct i as [|i]; cbn in *.
  - injection Hb as <-. by exists sh.
  - by apply IH.
Qed.

(** A uniform that no call of the objects writes is the same in every
    draw and at the end of the frame. *)
Lemma frame_keeps (k : string) bs :
  Forall (λ b, Forall (λ c, ∀ sh, stage_call w c sh !! k = sh !! k)
                 (block_calls b)) bs →
  ∀ sh,
    Forall (λ ds, ds.2 !! k = sh !! k) (frame w bs sh).1
    ∧ (frame w bs sh).2 !! k = sh !! k.
Proof.
  induction 1 as [|b bs Hb _ IH]; intros sh; [by split|].
  assert (Hblock : stage_block w b sh !! k = sh !! k).
  { unfold stage_block. revert sh.
    induction Hb as [|c cs Hc _ IHc]; intros sh; [done|].
    cbn [foldl]. by rewrite IHc, Hc. }
  cbn [frame]. specialize (IH (stage_block w b sh)).
  destruct (frame w bs (stage_block w b sh)) as [draws final].
  cbn [fst snd] in *. destruct IH as [IH1 IH2]. split.
  - constructor; [done|]. eapply Forall_impl; [exact IH1|].
    intros ds Hds. cbn in Hds. by rewrite Hds.
  - by rewrite IH2.
Qed.

End Frame.

Lemma stage_call_other_key w c k sh :
  k ∉ per_object_keys → stage_call w c sh !! k = sh !! k.
Proof.
  intros Hk. rewrite stage_call_writes, lookup_stage_all.
  rewrite last_write_None; [done|].
  intros Hin. apply Hk. by apply (staging_writes_keys w c).
Qed.

Lemma stage_call_UVscale w c sh :
  (∀ u v, c ≠ CallUVScale u v) →
  stage_call w c sh !! "UVscale" = sh !! "UVscale".
Proof.
  intros Hc. destruct c; cbn [stage_call].
  - unfold stage_transform. by rewrite !lookup_insert_ne.
  - unfold stage_color. by rewrite !lookup_insert_ne.
  - unfold stage_texture. by rewrite !lookup_insert_ne.
  - by destruct (Hc u v).
  - destruct (decide (m_objectMaterials w = [])); [done|].
    unfold stage_material. by rewrite !lookup_insert_ne.
Qed.

Lemma scene_blocks_no_UVscale stack :
  Forall (λ b, Forall (λ c, ∀ u v, c ≠ CallUVScale u v) (block_calls b))
    (scene_blocks stack).
Proof.
  unfold scene_blocks.
  repeat (apply Forall_cons_2;
          [unfold block_calls; cbn [b_ops];
           repeat (apply Forall_cons_2; [intros; discriminate|]);
           apply Forall_nil_2|]).
  apply Forall_nil_2.
Qed.

Lemma scene_blocks_draws stack :
  b_draw <$> scene_blocks stack
  = [DrawPlaneMesh; DrawBoxMesh; DrawCylinderMesh; DrawBoxMesh;
     DrawCylinderMesh; DrawBoxMesh; DrawBoxMesh; DrawPrismMesh; DrawBoxMesh;
     DrawBoxMesh; DrawHalfSphereMesh; DrawCylinderMesh; DrawCylinderMesh;
     DrawCylinderMesh; DrawCylinderMesh; DrawCylinderMesh; DrawBoxMesh;
     DrawBoxMesh; DrawBoxMesh; DrawBoxMesh; DrawCylinderMesh].
Proof. reflexivity. Qed.

Lemma RenderScene_run stack sh log w :
  0 ≤ m_loadedTextures w ≤ Z.of_nat (length (m_textureIDs w)) →
  m_pShaderManager w = Some sh →
  RenderScene stack log w
  = Done (tt, log ++ ((λ ds, (ds.1, set_shader ds.2 w))
                        <$> (frame w (scene_blocks stack) sh).1))
      (set_shader (frame w (scene_blocks stack) sh).2 w).
Proof.
  intros Hb Hsh. rewrite RenderScene_blocks.
  rewrite <- (set_shader_id sh w Hsh) at 1.
  by apply render_blocks_run.
Qed.

(** X20: with a shader manager attached, on a registry state, [RenderScene]
    returns after twenty-one draws, in the order of the source.  It changes
    nothing of the world but uniforms, and at every draw and at its end
    the uniforms other than the per-object ones, and "UVscale" too, are
    what they were when it was called: the lights staged by
    [SetupSceneLights] reach every draw, and the scene never sets the
    texture scale. *)
Theorem RenderScene_draws_the_scene_over_the_lights
    (stack : nat → OBJECT_MATERIAL) (sh : ShaderManager.t) (log : mesh_log)
    (w : World) :
  wf w →
  m_pShaderManager w = Some sh →
  ∃ draws final,
    RenderScene stack log w
    = Done (tt, log ++ ((λ ds, (ds.1, set_shader ds.2 w)) <$> draws))
        (set_shader final w)
    ∧ draws.*1
      = [DrawPlaneMesh; DrawBoxMesh; DrawCylinderMesh; DrawBoxMesh;
         DrawCylinderMesh; DrawBoxMesh; DrawBoxMesh; DrawPrismMesh;
         DrawBoxMesh; DrawBoxMesh; DrawHalfSphereMesh; DrawCylinderMesh;
         DrawCylinderMesh; DrawCylinderMesh; DrawCylinderMesh;
         DrawCylinderMesh; DrawBoxMesh; DrawBoxMesh; DrawBoxMesh;
         DrawBoxMesh; DrawCylinderMesh]
    ∧ ∀ k, k ∉ per_object_keys ∨ k = "UVscale" →
           Forall (λ ds, ds.2 !! k = sh !! k) draws ∧ final !! k = sh !! k.
Proof.
  intros Hwf Hsh. pose proof (wf_bounds w Hwf) as Hb.
  exists (frame w (scene_blocks stack) sh).1, (frame w (scene_blocks stack) sh).2.
  split; [by apply RenderScene_run|].
  split; [by rewrite frame_draws, scene_blocks_draws|].
  intros k Hk. apply frame_keeps. destruct Hk as [Hk | ->].
  - apply Forall_forall. intros b _. apply Forall_forall. intros c _ sh0.
    by apply stage_call_other_key.
  - eapply Forall_impl; [apply scene_blocks_no_UVscale|].
    intros b Hcs. eapply Forall_impl; [exact Hcs|].
    intros c Hc sh0. by apply stage_call_UVscale.
Qed.

Lemma RenderScene_draws_the_scene_over_the_lights_witness :
  wf empty_world
  ∧ m_pShaderManager empty_world = Some ∅
  ∧ ∃ draws final,
      RenderScene (λ _, zero_material) [] empty_world
      = Done (tt, [] ++ ((λ ds, (ds.1, set_shader ds.2 empty_world)) <$> draws))
          (set_shader final empty_world)
      ∧ draws.*1
        = [DrawPlaneMesh; DrawBoxMesh; DrawCylinderMesh; DrawBoxMesh;
           DrawCylinderMesh; DrawBoxMesh; DrawBoxMesh; DrawPrismMesh;
           DrawBoxMesh; DrawBoxMesh; DrawHalfSphereMesh; DrawCylinderMesh;
           DrawCylinderMesh; DrawCylinderMesh; DrawCylinderMesh;
           DrawCylinderMesh; DrawBoxMesh; DrawBoxMesh; DrawBoxMesh;
           DrawBoxMesh; DrawCylinderMesh]
      ∧ ∀ k, k ∉ per_object_keys ∨ k = "UVscale" →
             Forall (λ ds, ds.2 !! k = (∅ : ShaderManager.t) !! k) draws
             ∧ final !! k = (∅ : ShaderManager.t) !! k.
Proof.
  assert (Hwf : wf empty_world)
    by (split; [reflexivity | vm_compute; split; congruence]).
  split; [exact Hwf|]. split; [reflexivity|].
  apply (RenderScene_draws_the_scene_over_the_lights (λ _, zero_material) ∅ []
           empty_world Hwf eq_refl).
Defined.

(** Two sequences of objects whose calls stage the same uniforms make the
    same frame. *)
Lemma frame_ext w bs1 bs2 :
  Forall2 (λ b1 b2,
             b_draw b1 = b_draw b2
             ∧ Forall2 (λ c1 c2, ∀ sh, stage_call w c1 sh = stage_call w c2 sh)
                 (block_calls b1) (block_calls b2)) bs1 bs2 →
  ∀ sh, frame w bs1 sh = frame w bs2 sh.
Proof.
  induction 1 as [|b1 b2 bs1 bs2 [Hd Hcs] _ IH]; intros sh; [reflexivity|].
  assert (Hblock : stage_block w b1 sh = stage_block w b2 sh).
  { unfold stage_block. revert sh.
    induction Hcs as [|c1 c2 cs1 cs2 Hc _ IHc]; intros sh; [done|].
    cbn [foldl]. by rewrite Hc, IHc. }
  cbn [frame]. by rewrite Hblock, IH, Hd.
Qed.

Lemma stage_call_registered_material w tag st1 st2 :
  is_Some (first_material tag (m_objectMaterials w)) →
  ∀ sh, stage_call w (CallMaterial tag st1) sh
        = stage_call w (CallMaterial tag st2) sh.
Proof.
  intros [[i d] Hd] sh. cbn [stage_call]. unfold material_for, lookup_result.
  by rewrite Hd.
Qed.

Lemma scene_blocks_registered_materials w st1 st2 :
  (∀ tag,
     tag ∈ ["marble"; "plastic"; "fabric"; "screen"; "ceramic"; "paper"] →
     is_Some (first_material tag (m_objectMaterials w))) →
  Forall2 (λ b1 b2,
             b_draw b1 = b_draw b2
             ∧ Forall2 (λ c1 c2, ∀ sh, stage_call w c1 sh = stage_call w c2 sh)
                 (block_calls b1) (block_calls b2))
    (scene_blocks st1) (scene_blocks st2).
Proof.
  intros Hreg. unfold scene_blocks.
  repeat (apply Forall2_cons_2;
          [split; [reflexivity|];
           unfold block_calls; cbn [b_ops];
           repeat (apply Forall2_cons_2;
                   [first [ apply stage_call_registered_material, Hreg;
                            repeat constructor
                          | intros ?; reflexivity ]|]);
           apply Forall2_nil_2|]).
  apply Forall2_nil_2.
Qed.

(** X21: when each of the six material tags the scene uses is registered,
    [RenderScene] does not depend on what the uninitialised local of
    [SetShaderMaterial] holds: every lookup of the scene succeeds and
    overwrites the three fields that are staged. *)
Theorem RenderScene_reads_no_uninitialised_material
    (stack stack' : nat → OBJECT_MATERIAL) (sh : ShaderManager.t)
    (log : mesh_log) (w : World) :
  wf w →
  m_pShaderManager w = Some sh →
  (∀ tag,
     tag ∈ ["marble"; "plastic"; "fabric"; "screen"; "ceramic"; "paper"] →
     is_Some (first_material tag (m_objectMaterials w))) →
  RenderScene stack log w = RenderScene stack' log w.
Proof.
  intros Hwf Hsh Hreg. pose proof (wf_bounds w Hwf) as Hb.
  rewrite !(RenderScene_run _ sh) by done.
  by rewrite (frame_ext w _ _ (scene_blocks_registered_materials w stack stack' Hreg)).
Qed.

Lemma RenderScene_reads_no_uninitialised_material_witness :
  wf scene_world
  ∧ m_pShaderManager scene_world = Some ∅
  ∧ (∀ tag,
       tag ∈ ["marble"; "plastic"; "fabric"; "screen"; "ceramic"; "paper"] →
       is_Some (first_material tag (m_objectMaterials scene_world)))
  ∧ RenderScene (λ _, zero_material) [] scene_world
    = RenderScene (λ _, oak) [] scene_world.
Proof.
  assert (Hwf : wf scene_world)
    by (split; [reflexivity | vm_compute; split; congruence]).
  assert (Hreg : ∀ tag,
            tag ∈ ["marble"; "plastic"; "fabric"; "screen"; "ceramic"; "paper"] →
            is_Some (first_material tag (m_objectMaterials scene_world))).
  { intros tag Htag.
    repeat (apply elem_of_cons in Htag as [-> | Htag];
            [eexists; reflexivity|]).
    by apply elem_of_nil in Htag. }
  split; [exact Hwf|]. split; [reflexivity|]. split; [exact Hreg|].
  apply (RenderScene_reads_no_uninitialised_material (λ _, zero_material)
           (λ _, oak) ∅ [] scene_world Hwf eq_refl Hreg).
Defined.

Section FrameLinks.
Variable w : World.

Lemma frame_lookup_0 b bs sh :
  (frame w (b :: bs) sh).1 !! 0%nat = Some (b_draw b, stage_block w b sh).
Proof.
  cbn [frame]. by destruct (frame w bs (stage_block w b sh)).
Qed.

(** Each draw after the first reads what its object stages over the
    uniforms of the draw before it. *)
Lemma frame_lookup_S bs :
  ∀ sh i b ds,
    bs !! S i = Some b →
    (frame w bs sh).1 !! i = Some ds →
    (frame w bs sh).1 !! S i = Some (b_draw b, stage_block w b ds.2).
Proof.
  induction bs as [|b0 bs IH]; intros sh i b ds Hb Hds; [done|].
  cbn [frame] in *. specialize (IH (stage_block w b0 sh)).
  destruct (frame w bs (stage_block w b0 sh)) as [draws final] eqn:Ef.
  cbn [fst] in *. destruct i as [|i].
  - cbn in Hds. injection Hds as <-. cbn [snd].
    destruct bs as [|b1 bs]; [done|]. cbn in Hb. injection Hb as <-.
    pose proof (frame_lookup_0 b1 bs (stage_block w b0 sh)) as H0.
    rewrite Ef in H0. exact H0.
  - cbn in Hb, Hds |- *. by apply IH.
Qed.

Lemma frame_lookup_is_Some bs :
  ∀ sh i, is_Some (bs !! i) → is_Some ((frame w bs sh).1 !! i).
Proof.
  intros sh i [b Hb].
  destruct (frame_lookup w bs sh i b Hb) as [sh0 H]. by eexists.
Qed.

End FrameLinks.

(** An object with a texture call and no material call: the flag, the
    sampler, and the material it inherits. *)
Lemma stage_block_texture_only w b tag sh :
  b_ops b = [CallTexture tag] →
  stage_block w b sh !! g_UseTextureName = Some (IntValue 1)
  ∧ stage_block w b sh !! g_TextureValueName
    = Some (Sampler2DValue (slot_of tag w))
  ∧ staged_material (stage_block w b sh) = staged_material sh.
Proof.
  intros Hops. unfold stage_block, block_calls. rewrite Hops.
  cbn [foldl stage_call].
  unfold stage_texture, stage_color, stage_transform, staged_material,
    g_UseTextureName, g_TextureValueName, g_ColorValueName, g_ModelName.
  split; [rewrite lookup_insert_ne by done; apply lookup_insert_eq|].
  split; [apply lookup_insert_eq|].
  by rewrite !lookup_insert_ne.
Qed.

(** The three rings of the vase in a frame: objects with the texture tag
    "ceramic" and no material call, drawn after the band of the vase. *)
Lemma frame_vase_rings stack sh w :
  slot_of "ceramic" w = -1 →
  ∃ band,
    (frame w (scene_blocks stack) sh).1 !! 12%nat
    = Some (DrawCylinderMesh, band)
    ∧ ∀ i, i ∈ [13; 14; 15]%nat →
           ∃ s, (frame w (scene_blocks stack) sh).1 !! i
                = Some (DrawCylinderMesh, s)
                ∧ s !! g_UseTextureName = Some (IntValue 1)
                ∧ s !! g_TextureValueName = Some (Sampler2DValue (-1))
                ∧ staged_material s = staged_material band.
Proof.
  intros Hslot. set (bs := scene_blocks stack).
  destruct (frame_lookup_is_Some w bs sh 12) as [[d12 band] H12];
    [by eexists|].
  assert (Hd12 : d12 = DrawCylinderMesh).
  { pose proof (frame_draws w bs sh) as Hd.
    apply (f_equal (λ l, l !! 12%nat)) in Hd.
    rewrite list_lookup_fmap, H12 in Hd. cbn in Hd. congruence. }
  subst d12.
  pose proof (frame_lookup_S w bs sh 12 _ _ eq_refl H12) as H13.
  pose proof (frame_lookup_S w bs sh 13 _ _ eq_refl H13) as H14.
  pose proof (frame_lookup_S w bs sh 14 _ _ eq_refl H14) as H15.
  cbn [snd b_draw] in H13, H14, H15.
  match type of H13 with _ = Some (_, stage_block _ ?b ?s) =>
    destruct (stage_block_texture_only w b "ceramic" s eq_refl)
      as (Hf1 & Hs1 & Hm1)
  end.
  match type of H14 with _ = Some (_, stage_block _ ?b ?s) =>
    destruct (stage_block_texture_only w b "ceramic" s eq_refl)
      as (Hf2 & Hs2 & Hm2)
  end.
  match type of H15 with _ = Some (_, stage_block _ ?b ?s) =>
    destruct (stage_block_texture_only w b "ceramic" s eq_refl)
      as (Hf3 & Hs3 & Hm3)
  end.
  rewrite Hslot in Hs1, Hs2, Hs3. rewrite Hm2, Hm1 in Hm3. rewrite Hm1 in Hm2.
  exists band. split; [exact H12|].
  intros i Hi.
  repeat (apply elem_of_cons in Hi as [-> | Hi]);
    [| | | by apply elem_of_nil in Hi].
  - eexists. split; [exact H13|]. done.
  - eexists. split; [exact H14|]. done.
  - eexists. split; [exact H15|]. done.
Qed.

(** X22: the three rings of the vase are drawn after
    [SetShaderTexture("ceramic")] and no call of [SetShaderMaterial].
    "ceramic" is the tag of a material; when no occupied slot carries it,
    each of the three draws reads the texture flag 1 with the sampler -1,
    and the material staged for the band of the vase drawn before them. *)
Theorem RenderScene_vase_rings_sample_no_texture
    (stack : nat → OBJECT_MATERIAL) (sh : ShaderManager.t) (log : mesh_log)
    (w : World) :
  wf w →
  m_pShaderManager w = Some sh →
  (∀ t, t ∈ slots w → tex_tag t ≠ "ceramic") →
  ∃ draws final band,
    RenderScene stack log w
    = Done (tt, log ++ ((λ ds, (ds.1, set_shader ds.2 w)) <$> draws))
        (set_shader final w)
    ∧ draws !! 12%nat = Some (DrawCylinderMesh, band)
    ∧ ∀ i, i ∈ [13; 14; 15]%nat →
           ∃ s, draws !! i = Some (DrawCylinderMesh, s)
                ∧ s !! g_UseTextureName = Some (IntValue 1)
                ∧ s !! g_TextureValueName = Some (Sampler2DValue (-1))
                ∧ staged_material s = staged_material band.
Proof.
  intros Hwf Hsh Hno. pose proof (wf_bounds w Hwf) as Hb.
  destruct (frame_vase_rings stack sh w (slot_of_unregistered "ceramic" w Hno))
    as (band & H12 & Hrings).
  exists (frame w (scene_blocks stack) sh).1,
    (frame w (scene_blocks stack) sh).2, band.
  split; [by apply RenderScene_run|]. done.
Qed.

Lemma RenderScene_vase_rings_sample_no_texture_witness :
  wf desk_world
  ∧ m_pShaderManager desk_world = Some ∅
  ∧ (∀ t, t ∈ slots desk_world → tex_tag t ≠ "ceramic")
  ∧ ∃ draws final band,
      RenderScene (λ _, zero_material) [] desk_world
      = Done (tt, [] ++ ((λ ds, (ds.1, set_shader ds.2 desk_world)) <$> draws))
          (set_shader final desk_world)
      ∧ draws !! 12%nat = Some (DrawCylinderMesh, band)
      ∧ ∀ i, i ∈ [13; 14; 15]%nat →
             ∃ s, draws !! i = Some (DrawCylinderMesh, s)
                  ∧ s !! g_UseTextureName = Some (IntValue 1)
                  ∧ s !! g_TextureValueName = Some (Sampler2DValue (-1))
                  ∧ staged_material s = staged_material band.
Proof.
  assert (Hwf : wf desk_world)
    by (split; [reflexivity | vm_compute; split; congruence]).
  assert (Hno : ∀ t, t ∈ slots desk_world → tex_tag t ≠ "ceramic").
  { intros t Ht. change (slots desk_world) with [TextureInfo "desk" 1] in Ht.
    apply elem_of_cons in Ht as [-> | Ht]; [discriminate|].
    by apply elem_of_nil in Ht. }
  split; [exact Hwf|]. split; [reflexivity|]. split; [exact Hno|].
  apply (RenderScene_vase_rings_sample_no_texture (λ _, zero_material) ∅ []
           desk_world Hwf eq_refl Hno).
Defined.

(** ** Preparing, then rendering *)

Lemma scene_materials_registered tag :
  tag ∈ ["marble"; "plastic"; "fabric"; "screen"; "ceramic"; "paper"] →
  is_Some (first_material tag scene_materials).
Proof.
  intros Htag.
  repeat (apply elem_of_cons in Htag as [-> | Htag]; [eexists; reflexivity|]).
  by apply elem_of_nil in Htag.
Qed.

(** X23: on a newly constructed manager with a shader manager attached,
    [PrepareScene] followed by [RenderScene] returns, whatever the texture
    files hold, whatever names the driver gives and whatever the
    uninitialised locals of [SetShaderMaterial] hold.  The five meshes are
    loaded and twenty-one draws follow; every draw reads every light
    uniform as [SetupSceneLights] wrote it; the three rings of the vase
    are drawn with the texture flag 1 and the sampler -1, no file being
    loaded under the tag "ceramic"; and the outcome is the same for any
    other content of the locals. *)
Theorem PrepareScene_then_RenderScene_on_a_new_manager
    (stbi_load : string → option Image) (driver_name : list call → Z)
    (stack : nat → OBJECT_MATERIAL) (sh : ShaderManager.t) :
  ∃ w' draws final,
    (PrepareScene stbi_load driver_name;; RenderScene stack) []
      (SceneManager (Some sh))
    = Done (tt, ((λ c, (c, w')) <$> scene_mesh_loads)
                ++ ((λ ds, (ds.1, set_shader ds.2 w')) <$> draws))
        (set_shader final w')
    ∧ length draws = 21%nat
    ∧ (∀ k v, (k, v) ∈ light_uniforms →
              Forall (λ ds, ds.2 !! k = Some v) draws)
    ∧ (∀ i, i ∈ [13; 14; 15]%nat →
            ∃ s, draws !! i = Some (DrawCylinderMesh, s)
                 ∧ s !! g_UseTextureName = Some (IntValue 1)
                 ∧ s !! g_TextureValueName = Some (Sampler2DValue (-1)))
    ∧ ∀ stack',
        (PrepareScene stbi_load driver_name;; RenderScene stack') []
          (SceneManager (Some sh))
        = (PrepareScene stbi_load driver_name;; RenderScene stack) []
            (SceneManager (Some sh)).
Proof.
  set (w0 := SceneManager (Some sh)).
  assert (Hwf0 : wf w0) by (split; [reflexivity | cbn; lia]).
  set (lit := stage_all light_uniforms sh).
  destruct (LoadSceneTextures_run stbi_load driver_name
              (set_shader lit
                 (set_objectMaterials (m_objectMaterials w0 ++ scene_materials)
                    w0)))
    as (w' & Hload & Hwf' & Htags & Hm & Hs); [done | cbn; lia |].
  pose proof (PrepareScene_steps stbi_load driver_name sh [] w0 w' eq_refl Hload)
    as Hprep.
  cbn [app] in Hprep. cbn [m_objectMaterials set_shader set_objectMaterials w0
    SceneManager app m_pShaderManager] in Hm, Hs.
  pose proof (wf_bounds w' Hwf') as Hb.
  assert (Hrun : ∀ st,
            (PrepareScene stbi_load driver_name;; RenderScene st) [] w0
            = Done (tt, ((λ c, (c, w')) <$> scene_mesh_loads)
                        ++ ((λ ds, (ds.1, set_shader ds.2 w'))
                              <$> (frame w' (scene_blocks st) lit).1))
                (set_shader (frame w' (scene_blocks st) lit).2 w')).
  { intros st. rewrite MS_bind_run, Hprep. by apply RenderScene_run. }
  exists w', (frame w' (scene_blocks stack) lit).1,
    (frame w' (scene_blocks stack) lit).2.
  split; [apply Hrun|]. split.
  { rewrite <- (length_fmap fst), frame_draws, scene_blocks_draws. reflexivity. }
  split.
  { intros k v Hkv.
    assert (Hlit : lit !! k = Some v).
    { unfold lit. rewrite lookup_stage_all.
      by rewrite (light_uniforms_last_write k v). }
    rewrite <- Hlit. apply frame_keeps.
    apply Forall_forall. intros b _. apply Forall_forall. intros c _ sh0.
    apply stage_call_other_key. by apply (light_uniforms_not_per_object k v). }
  split.
  { assert (Hno : ∀ t, t ∈ slots w' → tex_tag t ≠ "ceramic").
    { intros t Ht Htag.
      assert (Hin : tex_tag t ∈ tex_tag <$> slots w')
        by (apply list_elem_of_fmap; by exists t).
      rewrite Htags, Htag in Hin. cbn [app] in Hin.
      apply list_elem_of_fmap in Hin as ([file tag] & Heq & Hin).
      apply list_elem_of_filter in Hin as [_ Hin]. cbn in Heq. subst tag.
      unfold scene_textures in Hin.
      repeat (apply elem_of_cons in Hin as [[=] | Hin]).
      by apply elem_of_nil in Hin. }
    destruct (frame_vase_rings stack lit w'
                (slot_of_unregistered "ceramic" w' Hno))
      as (band & _ & Hrings).
    intros i Hi. destruct (Hrings i Hi) as (s & Hs1 & Hs2 & Hs3 & _).
    by exists s. }
  intros stack'. rewrite !Hrun.
  rewrite (frame_ext w' (scene_blocks stack') (scene_blocks stack)); [done|].
  apply scene_blocks_registered_materials. intros tag Htag.
  rewrite Hm. by apply scene_materials_registered.
Qed.

(** ** Rendering without a shader manager *)

Section NullFrame.
Variable w : World.
Hypothesis Hnull : m_pShaderManager w = None.

Lemma run_staging_null_empty c :
  m_objectMaterials w = [] → run_staging c w = Done tt w.
Proof.
  intros He. destruct c; cbn [run_staging].
  - by apply SetTransformations_null.
  - by apply SetShaderColor_null.
  - unfold SetShaderTexture. munfold. by rewrite Hnull.
  - unfold SetTextureUVScale. munfold. by rewrite Hnull.
  - unfold SetShaderMaterial. munfold. by rewrite He.
Qed.

Lemma run_ops_null_empty cs (k : MS unit) log :
  m_objectMaterials w = [] → run_ops cs k log w = k log w.
Proof.
  intros He. induction cs as [|c cs IH]; [reflexivity|].
  cbn [run_ops]. by rewrite MS_bind_run, lift_run, run_staging_null_empty.
Qed.

Lemma render_blocks_null_empty bs :
  m_objectMaterials w = [] →
  ∀ log,
    render_blocks bs log w
    = Done (tt, log ++ ((λ b, (b_draw b, w)) <$> bs)) w.
Proof.
  intros He. induction bs as [|b bs IH]; intros log.
  - cbn. by rewrite app_nil_r.
  - cbn [render_blocks]. rewrite run_ops_null_empty by done.
    destruct bs as [|b' bs].
    + reflexivity.
    + rewrite MS_bind_run, mesh_call_run, IH.
      cbn [fmap list_fmap]. by rewrite <- app_assoc.
Qed.

Lemma render_blocks_null_material b bs tag stack ops log :
  b_ops b = CallMaterial tag stack :: ops →
  m_objectMaterials w ≠ [] →
  render_blocks (b :: bs) log w = Fault NullPointer.
Proof.
  intros Hops Hne. cbn [render_blocks]. unfold block_calls. rewrite Hops.
  cbn [run_ops run_staging].
  rewrite MS_bind_run, lift_run, SetTransformations_null by done.
  rewrite MS_bind_run, lift_run, SetShaderColor_null by done.
  rewrite MS_bind_run, lift_run, SetShaderMaterial_null by done.
  reflexivity.
Qed.

End NullFrame.

(** X24: with a null shader manager [RenderScene] draws nothing once a
    material is registered: its first call of [SetShaderMaterial], for the
    desk, goes through the null pointer before the first draw.  With an
    empty material table every staging call of the scene is skipped and
    the twenty-one meshes are drawn with the world as it was. *)
Theorem RenderScene_with_a_null_shader_manager
    (stack : nat → OBJECT_MATERIAL) (log : mesh_log) (w : World) :
  m_pShaderManager w = None →
  RenderScene stack log w
  = if decide (m_objectMaterials w = [])
    then Done (tt, log ++ ((λ d, (d, w))
                 <$> [DrawPlaneMesh; DrawBoxMesh; DrawCylinderMesh;
                      DrawBoxMesh; DrawCylinderMesh; DrawBoxMesh; DrawBoxMesh;
                      DrawPrismMesh; DrawBoxMesh; DrawBoxMesh;
                      DrawHalfSphereMesh; DrawCylinderMesh; DrawCylinderMesh;
                      DrawCylinderMesh; DrawCylinderMesh; DrawCylinderMesh;
                      DrawBoxMesh; DrawBoxMesh; DrawBoxMesh; DrawBoxMesh;
                      DrawCylinderMesh])) w
    else Fault NullPointer.
Proof.
  intros Hnull. rewrite RenderScene_blocks.
  destruct (decide (m_objectMaterials w = [])) as [He|Hne].
  - rewrite render_blocks_null_empty by done.
    rewrite <- scene_blocks_draws with (stack := stack).
    by rewrite <- list_fmap_compose.
  - unfold scene_blocks.
    by apply (render_blocks_null_material w Hnull _ _ "marble" (stack 0%nat)
                [CallTexture "desk"]).
Qed.

Lemma RenderScene_with_a_null_shader_manager_witness :
  m_pShaderManager (world_after DefineObjectMaterials (SceneManager None)) = None
  ∧ RenderScene (λ _, zero_material) []
      (world_after DefineObjectMaterials (SceneManager None))
    = if decide (m_objectMaterials
                   (world_after DefineObjectMaterials (SceneManager None)) = [])
      then Done (tt, [] ++ ((λ d,
                   (d, world_after DefineObjectMaterials (SceneManager None)))
                   <$> [DrawPlaneMesh; DrawBoxMesh; DrawCylinderMesh;
                        DrawBoxMesh; DrawCylinderMesh; DrawBoxMesh;
                        DrawBoxMesh; DrawPrismMesh; DrawBoxMesh; DrawBoxMesh;
                        DrawHalfSphereMesh; DrawCylinderMesh; DrawCylinderMesh;
                        DrawCylinderMesh; DrawCylinderMesh; DrawCylinderMesh;
                        DrawBoxMesh; DrawBoxMesh; DrawBoxMesh; DrawBoxMesh;
                        DrawCylinderMesh]))
             (world_after DefineObjectMaterials (SceneManager None))
      else Fault NullPointer.
Proof.
  split; [reflexivity|].
  apply (RenderScene_with_a_null_shader_manager (λ _, zero_material) []
           (world_after DefineObjectMaterials (SceneManager None))).
  reflexivity.
Defined.

(** ** One frame after another *)

Section Restart.
Variable w : World.





End Restart.




